(** * flight-monitor: the worker behind the flight gateway

    A shallow embedding of the Cloudflare worker of the repository (the
    second worker module of [src/unnamed/part_003], the one with OAuth2,
    the two call cadences, the per-record aircraft cache and the snapshot
    of the last map response), and the properties the specification
    states about it.

    Conventions of the embedding.
    - JavaScript numbers are IEEE 754 binary64 values: Rocq's primitive
      [float], with its own [NaN], signed zeros and comparisons.
    - [Date.now()] timestamps and the intervals compared with them are
      integers of milliseconds: [Z].
    - Values that arrive as JSON (upstream state vectors, request bodies,
      aircraft records) are dynamically typed: [value].  Objects the worker
      builds itself (flight cards, caches, viewport bounds) are records.
    - Module-level [let] bindings are the fields of [World]; an [async]
      function is a computation in the monad [M], which threads the world
      and may end in a JavaScript exception.
    - The token endpoint, the position feed and the object store are
      functions the worker is given ([Collaborators]); the engine's
      trigonometry and number parsing likewise ([Platform]).  The
      properties hold for all of them.
    - The record cache is a plain object keyed by strings the feed
      supplies.  Its model has the own entries and the prototype, so that
      keys such as [constructor] and [__proto__] behave as they do in the
      engine.
    - An operator that needs a primitive (arithmetic, a comparison, a
      template literal) converts its operand first.  Of the values JSON
      gives, one kind cannot be converted: an object with a [toString]
      member of its own, which is never callable.  [ToPrimitive] marks each
      place where the worker applies such an operator to a value it has not
      checked, and throws there as the engine does.
    - Out of the model: arrays as JSON member values, objects with accessors,
      the text of log lines and of error messages beyond a fixed string, the
      [timestamp] member of responses, the synthetic-data branches, which
      the module switches off, letter case outside ASCII, and what lookups
      still pending when [Promise.all] has rejected do to the record cache
      afterwards. *)

From Stdlib Require Import ZArith List String Ascii Bool Floats Uint63 Lia.
From Stdlib Require Import Sorted Permutation.
Import ListNotations.

Set Warnings "-inexact-float,-register-all".

Local Open Scope string_scope.
Local Open Scope Z_scope.

(** ** JavaScript values and errors *)

Inductive value : Type :=
| Undefined
| Null
| Bool (b : bool)
| Num (x : float)
| Str (s : string)
| Obj (fields : list (string * value)).

Inductive error : Type :=
| TypeError (msg : string)
| Error (msg : string).

(** The outcome of evaluating an expression or a synchronous function. *)
Inductive result (A : Type) : Type :=
| Ok (a : A)
| Throw (e : error).

Arguments Ok {A} a.
Arguments Throw {A} e.

Definition rbind {A B} (r : result A) (k : A -> result B) : result B :=
  match r with
  | Ok a => k a
  | Throw e => Throw e
  end.

Declare Scope result_scope.
Delimit Scope result_scope with result.
Notation "'let?' x ':=' r 'in' k" := (rbind r (fun x => k))
  (at level 10, x name, r at level 100, k at level 200) : result_scope.

Definition is_zero (x : float) : bool := PrimFloat.eqb x 0%float.

(** [ToBoolean]: what [if (v)], [!v], [a && b] and [a || b] test. *)
Definition truthy (v : value) : bool :=
  match v with
  | Undefined | Null => false
  | Bool b => b
  | Num x => negb (is_zero x || PrimFloat.is_nan x)
  | Str s => negb (String.eqb s "")
  | Obj _ => true
  end.

(** [typeof v === 'number'] *)
Definition typeof_number (v : value) : bool :=
  match v with
  | Num _ => true
  | _ => false
  end.

(** [a || b] on values *)
Definition js_or (a b : value) : value := if truthy a then a else b.

Fixpoint lookup_field (k : string) (fs : list (string * value)) : value :=
  match fs with
  | [] => Undefined
  | (k', v) :: fs' => if String.eqb k k' then v else lookup_field k fs'
  end.

(** Property access [v.k] for the property names the worker reads
    ([center], [lat], [lon], [radiusMiles], the record fields): it throws on
    [undefined] and [null], is [undefined] on the other primitives, and
    reads the field of a plain object. *)
Definition get (v : value) (k : string) : result value :=
  match v with
  | Undefined => Throw (TypeError ("Cannot read properties of undefined (reading '" ++ k ++ "')"))
  | Null => Throw (TypeError ("Cannot read properties of null (reading '" ++ k ++ "')"))
  | Obj fs => Ok (lookup_field k fs)
  | _ => Ok Undefined
  end.

(** *** Conversion to a primitive

    The arithmetic and relational operators and template literals convert
    an object operand through its [valueOf] and [toString].  A plain object
    inherits both from [Object.prototype] and converts to the string
    "[object Object]".  A member named [toString] of its own hides the
    inherited one; a member that came from JSON is not a function, so that
    neither method yields a primitive and the conversion throws. *)

(** [Object.hasOwn(v, k)] for a plain object *)
Definition has_field (k : string) (fs : list (string * value)) : bool :=
  existsb (fun kv => String.eqb k (fst kv)) fs.

Definition unconvertible (v : value) : bool :=
  match v with
  | Obj fs => has_field "toString" fs
  | _ => false
  end.

(** [ToPrimitive], as far as it can fail: the value itself when it
    converts. *)
Definition ToPrimitive (v : value) : result value :=
  if unconvertible v
  then Throw (TypeError "Cannot convert object to primitive value")
  else Ok v.

(** ASCII case folding, which is what [toLowerCase] does on transponder
    addresses. *)
Definition lower_ascii (c : ascii) : ascii :=
  let n := nat_of_ascii c in
  if (Nat.leb 65 n && Nat.leb n 90)%bool then ascii_of_nat (n + 32) else c.

Fixpoint toLowerCase (s : string) : string :=
  match s with
  | EmptyString => EmptyString
  | String c s' => String (lower_ascii c) (toLowerCase s')
  end.

(** ** The platform

    What the worker takes from the JavaScript engine and does not define:
    the trigonometric functions, which ECMAScript leaves
    implementation-approximated, and the conversions from text to number. *)

Record Platform : Type := {
  Math_sin : float -> float;
  Math_cos : float -> float;
  Math_atan2 : float -> float -> float;
  Math_sqrt : float -> float;
  StringToNumber : string -> float;
  parseFloat : string -> float
}.

(** [Math.PI], the binary64 value nearest to pi *)
Definition Math_PI : float := 0x1.921fb54442d18p+1%float.

Section GeoMath.

Variable P : Platform.

(** [ToNumber] of a value that converts to a primitive, as the arithmetic
    and relational operators apply it after [ToPrimitive].  A plain object
    converts through "[object Object]", which is not a number. *)
Definition ToNumber (v : value) : float :=
  match v with
  | Undefined => PrimFloat.nan
  | Null => 0%float
  | Bool b => if b then 1%float else 0%float
  | Num x => x
  | Str s => StringToNumber P s
  | Obj _ => PrimFloat.nan
  end.

(** The global [isNaN] *)
Definition isNaN (v : value) : bool := PrimFloat.is_nan (ToNumber v).

Local Open Scope float_scope.

Local Open Scope result_scope.

(** [calculateDistance]: Haversine distance in miles.  The subtractions
    convert their operands, the second coordinates first. *)
Definition calculateDistance (lat1 lon1 lat2 lon2 : value) : result float :=
  let R := 3959 in
  let? _ := ToPrimitive lat2 in
  let? _ := ToPrimitive lat1 in
  let dLat := (ToNumber lat2 - ToNumber lat1) * Math_PI / 180 in
  let? _ := ToPrimitive lon2 in
  let? _ := ToPrimitive lon1 in
  let dLon := (ToNumber lon2 - ToNumber lon1) * Math_PI / 180 in
  let a :=
    Math_sin P (dLat / 2) * Math_sin P (dLat / 2) +
    Math_cos P (ToNumber lat1 * Math_PI / 180) * Math_cos P (ToNumber lat2 * Math_PI / 180) *
    Math_sin P (dLon / 2) * Math_sin P (dLon / 2) in
  let c := 2 * Math_atan2 P (Math_sqrt P a) (Math_sqrt P (1 - a)) in
  Ok (R * c).

(** [isPointInRegion]: the circle test, with its two guards. *)
Definition isPointInRegion (latitude longitude region : value) : result bool :=
  let? region_bad :=
    if negb (truthy region) then Ok true else
    let? center := get region "center" in
    if negb (truthy center) then Ok true else
    let? radiusMiles := get region "radiusMiles" in
    Ok (negb (typeof_number radiusMiles)) in
  if region_bad : bool then Ok false else
  if (negb (typeof_number latitude) || negb (typeof_number longitude)
      || isNaN latitude || isNaN longitude)%bool then Ok false else
  let? center := get region "center" in
  let? lat := get center "lat" in
  let? center' := get region "center" in
  let? lon := get center' "lon" in
  let? distance := calculateDistance lat lon latitude longitude in
  let? radiusMiles := get region "radiusMiles" in
  Ok (distance <=? ToNumber radiusMiles).

(** Viewport bounds as the map handler builds them: four [parseFloat]
    results.  A request without bounds is [None] (the source's [null]). *)
Record Bounds : Type := {
  north : float;
  south : float;
  east : float;
  west : float
}.

(** [isPointInBounds]; the comparisons convert the longitude first, then
    the latitude. *)
Definition isPointInBounds (latitude longitude : value) (bounds : option Bounds)
  : result bool :=
  match bounds with
  | None => Ok false
  | Some b =>
      if (negb (truthy (Num (north b))) || negb (truthy (Num (south b)))
          || negb (truthy (Num (east b))) || negb (truthy (Num (west b))))%bool
      then Ok false
      else
        let? _ := ToPrimitive longitude in
        let lonInBounds :=
          if west b <=? east b
          then ((west b <=? ToNumber longitude) && (ToNumber longitude <=? east b))%bool
          else ((west b <=? ToNumber longitude) || (ToNumber longitude <=? east b))%bool in
        let? _ := ToPrimitive latitude in
        Ok ((south b <=? ToNumber latitude) && (ToNumber latitude <=? north b)
            && lonInBounds)%bool
  end.

End GeoMath.

(** ** Module state

    The worker keeps its state in module-level bindings.  [World] holds
    them, together with the clock [Date.now()] reads and the requests sent
    so far to the collaborators (latest first). *)

Module TokenCache.
Record t : Type := { token : value; expiresAt : Z }.
End TokenCache.

Module CacheEntry.
Record t : Type := { data : value; timestamp : Z }.
End CacheEntry.

Module AircraftRecordCache.
(** [records] is a plain JavaScript object used as a map.  The field
    [records] lists its own entries, in the order [Object.keys] lists them.
    The object also answers for what it inherits: [prototype] is [None]
    while its prototype is [Object.prototype], as the literal [{}] makes it,
    and [Some e] once an assignment to [records["__proto__"]] has put the
    entry [e] in that place. *)
Record t : Type := {
  records : list (string * CacheEntry.t);
  prototype : option CacheEntry.t;
  maxSize : nat
}.
End AircraftRecordCache.

(** One upstream state vector: the JSON array the worker reads by index. *)
Definition Report : Type := list value.

(** [flight[i]] *)
Definition at_index (flight : Report) (i : nat) : value := nth i flight Undefined.

(** A flight card, as [processFlights] and [processMultipleFlights] build
    it; the enrichment fields are present only when assigned. *)
Record Flight : Type := {
  icao24 : value;
  callsign : value;
  origin : string;
  destination : string;
  latitude : value;
  longitude : value;
  baroAltitude : value;
  velocity : value;
  heading : value;
  verticalRate : value;
  inRegion : bool;
  registration : option value;
  aircraftType : option value;
  owner : option value;
  operator : option value;
  manufacturer : option value;
  model : option value;
  serialNumber : option value;
  operatorCallsign : option value;
  built : option value
}.

Module FlightsCache.
Record t : Type := { flights : list Flight; timestamp : Z; bounds : option Bounds }.
End FlightsCache.

Inductive Event : Type :=
| TokenRequest (clientId clientSecret : string)
| StatesRequest (accessToken : value)
| StoreGet (objectKey : string).

Record World : Type := {
  lastApiCall : Z;
  lastMapChangeApiCall : Z;
  API_CALL_INTERVAL : Z;
  tokenCache : TokenCache.t;
  MONITORING_REGION : value;
  lastFlightsCache : FlightsCache.t;
  aircraftRecordCache : AircraftRecordCache.t;
  clock : Z;
  trace : list Event
}.

Definition MAP_CHANGE_API_INTERVAL : Z := 3000.
Definition TOKEN_EXPIRY_BUFFER : Z := 5 * 60 * 1000.
Definition TOKEN_EXPIRY_TIME : Z := 30 * 60 * 1000.
Definition FLIGHTS_CACHE_MAX_AGE : Z := 30 * 1000.
Definition AIRCRAFT_RECORD_CACHE_MAX_AGE : Z := 60 * 60 * 1000.

Definition DEFAULT_REGION : value :=
  Obj [("center", Obj [("lat", Num 33.47582267755572%float);
                       ("lon", Num (-111.70391851974681)%float)]);
       ("radiusMiles", Num 3%float)].

(** The state of a freshly loaded module, at wall-clock time [t]. *)
Definition initial_world (t : Z) : World :=
  {| lastApiCall := 0;
     lastMapChangeApiCall := 0;
     API_CALL_INTERVAL := 30000;
     tokenCache := {| TokenCache.token := Null; TokenCache.expiresAt := 0 |};
     MONITORING_REGION := DEFAULT_REGION;
     lastFlightsCache :=
       {| FlightsCache.flights := []; FlightsCache.timestamp := 0; FlightsCache.bounds := None |};
     aircraftRecordCache :=
       {| AircraftRecordCache.records := [];
          AircraftRecordCache.prototype := None;
          AircraftRecordCache.maxSize := 1000 |};
     clock := t;
     trace := [] |}.

Definition set_lastApiCall (v : Z) (w : World) : World :=
  {| lastApiCall := v;
     lastMapChangeApiCall := lastMapChangeApiCall w;
     API_CALL_INTERVAL := API_CALL_INTERVAL w;
     tokenCache := tokenCache w;
     MONITORING_REGION := MONITORING_REGION w;
     lastFlightsCache := lastFlightsCache w;
     aircraftRecordCache := aircraftRecordCache w;
     clock := clock w;
     trace := trace w |}.

Definition set_lastMapChangeApiCall (v : Z) (w : World) : World :=
  {| lastApiCall := lastApiCall w;
     lastMapChangeApiCall := v;
     API_CALL_INTERVAL := API_CALL_INTERVAL w;
     tokenCache := tokenCache w;
     MONITORING_REGION := MONITORING_REGION w;
     lastFlightsCache := lastFlightsCache w;
     aircraftRecordCache := aircraftRecordCache w;
     clock := clock w;
     trace := trace w |}.

Definition set_tokenCache (v : TokenCache.t) (w : World) : World :=
  {| lastApiCall := lastApiCall w;
     lastMapChangeApiCall := lastMapChangeApiCall w;
     API_CALL_INTERVAL := API_CALL_INTERVAL w;
     tokenCache := v;
     MONITORING_REGION := MONITORING_REGION w;
     lastFlightsCache := lastFlightsCache w;
     aircraftRecordCache := aircraftRecordCache w;
     clock := clock w;
     trace := trace w |}.

Definition set_MONITORING_REGION (v : value) (w : World) : World :=
  {| lastApiCall := lastApiCall w;
     lastMapChangeApiCall := lastMapChangeApiCall w;
     API_CALL_INTERVAL := API_CALL_INTERVAL w;
     tokenCache := tokenCache w;
     MONITORING_REGION := v;
     lastFlightsCache := lastFlightsCache w;
     aircraftRecordCache := aircraftRecordCache w;
     clock := clock w;
     trace := trace w |}.

Definition set_lastFlightsCache (v : FlightsCache.t) (w : World) : World :=
  {| lastApiCall := lastApiCall w;
     lastMapChangeApiCall := lastMapChangeApiCall w;
     API_CALL_INTERVAL := API_CALL_INTERVAL w;
     tokenCache := tokenCache w;
     MONITORING_REGION := MONITORING_REGION w;
     lastFlightsCache := v;
     aircraftRecordCache := aircraftRecordCache w;
     clock := clock w;
     trace := trace w |}.

Definition set_records (v : list (string * CacheEntry.t)) (w : World) : World :=
  {| lastApiCall := lastApiCall w;
     lastMapChangeApiCall := lastMapChangeApiCall w;
     API_CALL_INTERVAL := API_CALL_INTERVAL w;
     tokenCache := tokenCache w;
     MONITORING_REGION := MONITORING_REGION w;
     lastFlightsCache := lastFlightsCache w;
     aircraftRecordCache :=
       {| AircraftRecordCache.records := v;
          AircraftRecordCache.prototype := AircraftRecordCache.prototype (aircraftRecordCache w);
          AircraftRecordCache.maxSize := AircraftRecordCache.maxSize (aircraftRecordCache w) |};
     clock := clock w;
     trace := trace w |}.

Definition set_prototype (v : option CacheEntry.t) (w : World) : World :=
  {| lastApiCall := lastApiCall w;
     lastMapChangeApiCall := lastMapChangeApiCall w;
     API_CALL_INTERVAL := API_CALL_INTERVAL w;
     tokenCache := tokenCache w;
     MONITORING_REGION := MONITORING_REGION w;
     lastFlightsCache := lastFlightsCache w;
     aircraftRecordCache :=
       {| AircraftRecordCache.records := AircraftRecordCache.records (aircraftRecordCache w);
          AircraftRecordCache.prototype := v;
          AircraftRecordCache.maxSize := AircraftRecordCache.maxSize (aircraftRecordCache w) |};
     clock := clock w;
     trace := trace w |}.

(** A request leaves the process and is recorded. *)
Definition send (ev : Event) (w : World) : World :=
  {| lastApiCall := lastApiCall w;
     lastMapChangeApiCall := lastMapChangeApiCall w;
     API_CALL_INTERVAL := API_CALL_INTERVAL w;
     tokenCache := tokenCache w;
     MONITORING_REGION := MONITORING_REGION w;
     lastFlightsCache := lastFlightsCache w;
     aircraftRecordCache := aircraftRecordCache w;
     clock := clock w;
     trace := ev :: trace w |}.

(** The awaited promise settles and the function resumes: the clock has
    moved to that moment. *)
Definition resume (settles : Z) (w : World) : World :=
  {| lastApiCall := lastApiCall w;
     lastMapChangeApiCall := lastMapChangeApiCall w;
     API_CALL_INTERVAL := API_CALL_INTERVAL w;
     tokenCache := tokenCache w;
     MONITORING_REGION := MONITORING_REGION w;
     lastFlightsCache := lastFlightsCache w;
     aircraftRecordCache := aircraftRecordCache w;
     clock := settles;
     trace := trace w |}.

Definition await_io (ev : Event) (settles : Z) (w : World) : World :=
  resume settles (send ev w).

(** ** An object used as a map

    [aircraftRecordCache.records] is keyed by transponder address.  The
    list holds its own entries in [Object.keys] order: keys that are array
    indices first, in ascending numeric order, then the other keys in the
    order they were added. *)

Definition digit_of (c : ascii) : option N :=
  let n := N_of_ascii c in
  if ((48 <=? n) && (n <=? 57))%N then Some (n - 48)%N else None.

Fixpoint digits_value (s : string) (acc : N) : option N :=
  match s with
  | EmptyString => Some acc
  | String c s' =>
      match digit_of c with
      | Some d => digits_value s' (acc * 10 + d)%N
      | None => None
      end
  end.

(** A key is an array index when it is the canonical decimal numeral of an
    integer below 2^32 - 1. *)
Definition array_index (k : string) : option N :=
  match k with
  | EmptyString => None
  | String c rest =>
      if (Ascii.eqb c "0" && negb (String.eqb rest ""))%bool then None
      else
        match digits_value k 0 with
        | Some n => if (n <=? 4294967294)%N then Some n else None
        | None => None
        end
  end.

Section ObjectAsMap.

Context {V : Type}.

(** [obj[k]]; [None] is [undefined] *)
Fixpoint obj_get (k : string) (obj : list (string * V)) : option V :=
  match obj with
  | [] => None
  | (k', v) :: obj' => if String.eqb k k' then Some v else obj_get k obj'
  end.

Fixpoint obj_replace (k : string) (v : V) (obj : list (string * V)) : list (string * V) :=
  match obj with
  | [] => []
  | (k', v') :: obj' =>
      if String.eqb k k' then (k', v) :: obj' else (k', v') :: obj_replace k v obj'
  end.

Fixpoint obj_insert_index (n : N) (k : string) (v : V) (obj : list (string * V))
  : list (string * V) :=
  match obj with
  | [] => [(k, v)]
  | (k', v') :: obj' =>
      match array_index k' with
      | Some n' => if (n' <? n)%N then (k', v') :: obj_insert_index n k v obj'
                   else (k, v) :: obj
      | None => (k, v) :: obj
      end
  end.

(** [Object.hasOwn(obj, k)]: [k] is one of the object's own keys. *)
Definition has_own (k : string) (obj : list (string * V)) : bool :=
  match obj_get k obj with
  | Some _ => true
  | None => false
  end.

(** [obj[k] = v], for a key the assignment makes or finds an own
    property. *)
Definition obj_set (k : string) (v : V) (obj : list (string * V)) : list (string * V) :=
  match obj_get k obj with
  | Some _ => obj_replace k v obj
  | None =>
      match array_index k with
      | Some n => obj_insert_index n k v obj
      | None => (obj ++ [(k, v)])%list
      end
  end.

(** [delete obj[k]] *)
Fixpoint obj_delete (k : string) (obj : list (string * V)) : list (string * V) :=
  match obj with
  | [] => []
  | (k', v') :: obj' => if String.eqb k k' then obj' else (k', v') :: obj_delete k obj'
  end.

(** [Object.keys(obj)] *)
Definition Object_keys (obj : list (string * V)) : list string := map fst obj.

End ObjectAsMap.

(** *** What the object inherits

    [records[k]] answers for an own entry first, and then for the members
    the object inherits.  From [Object.prototype] these are the built-in
    methods and the accessor [__proto__], which reads and writes the
    object's prototype; from an entry that an assignment to [__proto__] has
    made the prototype, they are that entry's [data] and [timestamp]. *)

(** The names [Object.prototype] defines. *)
Definition Object_prototype_names : list string :=
  ["constructor"; "__defineGetter__"; "__defineSetter__"; "hasOwnProperty";
   "__lookupGetter__"; "__lookupSetter__"; "isPrototypeOf"; "propertyIsEnumerable";
   "toString"; "valueOf"; "__proto__"; "toLocaleString"].

Definition is_Object_prototype_name (k : string) : bool :=
  existsb (String.eqb k) Object_prototype_names.

(** What [aircraftRecordCache.records[k]] evaluates to. *)
Inductive Member : Type :=
| AnEntry (e : CacheEntry.t)
| InheritedData (v : value)
| InheritedTimestamp (t : Z)
| BuiltIn
| NoMember.

(** [aircraftRecordCache.records[k]] *)
Definition records_get (k : string) (cache : AircraftRecordCache.t) : Member :=
  match obj_get k (AircraftRecordCache.records cache) with
  | Some e => AnEntry e
  | None =>
      match AircraftRecordCache.prototype cache with
      | Some e =>
          if String.eqb k "data" then InheritedData (CacheEntry.data e)
          else if String.eqb k "timestamp" then InheritedTimestamp (CacheEntry.timestamp e)
          else if String.eqb k "__proto__" then AnEntry e
          else if is_Object_prototype_name k then BuiltIn
          else NoMember
      | None => if is_Object_prototype_name k then BuiltIn else NoMember
      end
  end.

(** [ToBoolean] of a member: entries, functions and [Object.prototype] are
    objects. *)
Definition member_truthy (m : Member) : bool :=
  match m with
  | AnEntry _ => true
  | InheritedData v => truthy v
  | InheritedTimestamp t => negb (t =? 0)
  | BuiltIn => true
  | NoMember => false
  end.

(** Whether [aircraftRecordCache.records[k] = entry] sets the prototype
    instead of an own property: it does for [__proto__], unless the object
    has an own property of that name. *)
Definition sets_prototype (k : string) (cache : AircraftRecordCache.t) : bool :=
  String.eqb k "__proto__" && negb (has_own k (AircraftRecordCache.records cache)).

(** [Array.prototype.sort] with the comparator [(a, b) => a.timestamp -
    b.timestamp]: the stable sort by ascending timestamp. *)
Fixpoint insert_by_time (x : string * Z) (sorted : list (string * Z)) : list (string * Z) :=
  match sorted with
  | [] => [x]
  | y :: sorted' => if snd x <=? snd y then x :: sorted else y :: insert_by_time x sorted'
  end.

Definition sort_by_time (l : list (string * Z)) : list (string * Z) :=
  fold_right insert_by_time [] l.

(** [n * 0.1] on a length, and [Math.floor] of the product, computed in
    binary64 as the engine does. *)
Definition length_to_number (n : nat) : float :=
  PrimFloat.of_uint63 (Uint63.of_Z (Z.of_nat n)).

(** A time value as the number it is: exact below 2^53 in magnitude, as
    every time value is. *)
Definition time_to_number (t : Z) : float :=
  if t <? 0 then (- PrimFloat.of_uint63 (Uint63.of_Z (- t)))%float
  else PrimFloat.of_uint63 (Uint63.of_Z t).

Definition Math_floor_count (x : float) : nat :=
  match Prim2SF x with
  | S754_finite false m e => Z.to_nat (Z.shiftl (Z.pos m) e)
  | _ => 0%nat
  end.

(** ** The collaborators

    What the token endpoint, the position feed and the object store answer
    is not the worker's to decide.  Each is a function of the request and of
    everything sent before it, and says when the awaited promise settles. *)

(** What [await fetch(..)] gives: a rejection, or a response with its
    status and the value [response.json()] resolves to ([None] when reading
    the body as the expected JSON throws). *)
Inductive HttpResult (B : Type) : Type :=
| Rejected (e : error)
| Response (status : Z) (json : option B).

Arguments Rejected {B} e.
Arguments Response {B} status json.

(** The body of the position feed: [None] when [data.states] is absent or
    [null], else the state vectors. *)
Definition StatesBody : Type := option (list Report).

(** What [await r2Bucket.get(key)] gives: a rejection, [null], or an object
    with the outcome of reading its text and parsing it. *)
Inductive StoreResult : Type :=
| StoreRejected (e : error)
| StoreMissing
| StoreObject (parsed : result value).

Record Settled (A : Type) : Type := { settles : Z; outcome : A }.
Arguments settles {A} s.
Arguments outcome {A} s.

Record Collaborators : Type := {
  token_endpoint : list Event -> string -> string -> Settled (HttpResult value);
  states_endpoint : list Event -> value -> Settled (HttpResult StatesBody);
  store_get : list Event -> string -> Settled StoreResult
}.

(** ** Asynchronous computations *)

Definition M (A : Type) : Type := World -> result A * World.

Definition ret {A} (a : A) : M A := fun w => (Ok a, w).

Definition bind {A B} (m : M A) (k : A -> M B) : M B :=
  fun w =>
    match m w with
    | (Ok a, w') => k a w'
    | (Throw e, w') => (Throw e, w')
    end.

Definition throw {A} (e : error) : M A := fun w => (Throw e, w).

(** [try { body } catch (error) { handler }]: the handler runs in the world
    the body left behind. *)
Definition try_catch {A} (body : M A) (handler : error -> M A) : M A :=
  fun w =>
    match body w with
    | (Ok a, w') => (Ok a, w')
    | (Throw e, w') => handler e w'
    end.

Definition lift {A} (r : result A) : M A := fun w => (r, w).

Definition read {A} (f : World -> A) : M A := fun w => (Ok (f w), w).

Definition modify (f : World -> World) : M unit := fun w => (Ok tt, f w).

Definition Date_now : M Z := read clock.

Declare Scope async_scope.
Delimit Scope async_scope with async.
Notation "x <- m ;; k" := (bind m (fun x => k))
  (at level 61, m at next level, right associativity) : async_scope.
Notation "m ;; k" := (bind m (fun _ => k))
  (at level 61, right associativity) : async_scope.

(** [response.ok] *)
Definition response_ok (status : Z) : bool := (200 <=? status) && (status <=? 299).

(** [await response.json()] *)
Definition json_of {B} (body : option B) : M B :=
  match body with
  | Some data => ret data
  | None => throw (Error "Unexpected token in JSON")
  end.

Section Worker.

Variable P : Platform.
Variable C : Collaborators.

Local Open Scope async_scope.

(** [await fetch(tokenUrl, ..)] *)
Definition fetch_token (clientId clientSecret : string) : M (Z * option value) :=
  fun w =>
    let r := token_endpoint C (trace w) clientId clientSecret in
    let w' := await_io (TokenRequest clientId clientSecret) (settles r) w in
    match outcome r with
    | Rejected e => (Throw e, w')
    | Response status body => (Ok (status, body), w')
    end.

(** [await fetch(url, { headers: { Authorization: `Bearer ${token}` } })]:
    the template literal converts the token before [fetch] is called. *)
Definition fetch_states (accessToken : value) : M (Z * option StatesBody) :=
  fun w =>
    match ToPrimitive accessToken with
    | Throw e => (Throw e, w)
    | Ok _ =>
        let r := states_endpoint C (trace w) accessToken in
        let w' := await_io (StatesRequest accessToken) (settles r) w in
        match outcome r with
        | Rejected e => (Throw e, w')
        | Response status body => (Ok (status, body), w')
        end
    end.

Definition clear_tokenCache : M unit :=
  modify (set_tokenCache {| TokenCache.token := Null; TokenCache.expiresAt := 0 |}).

(** [getAccessToken] *)
Definition getAccessToken (clientId clientSecret : string) : M value :=
  now <- Date_now ;;
  cache <- read tokenCache ;;
  if truthy (TokenCache.token cache) && (TokenCache.expiresAt cache >? now + TOKEN_EXPIRY_BUFFER)
  then ret (TokenCache.token cache)
  else
    try_catch
      (response <- fetch_token clientId clientSecret ;;
       if negb (response_ok (fst response))
       then throw (Error "Failed to obtain OAuth2 token")
       else
         data <- json_of (snd response) ;;
         accessToken <- lift (get data "access_token") ;;
         if negb (truthy accessToken)
         then throw (Error "No access_token in OAuth2 response")
         else
           modify (set_tokenCache {| TokenCache.token := accessToken;
                                     TokenCache.expiresAt := now + TOKEN_EXPIRY_TIME |}) ;;
           ret accessToken)
      (fun error => clear_tokenCache ;; throw error).

(** [data.states || []] *)
Definition states_or_empty (data : StatesBody) : list Report :=
  match data with
  | Some states => states
  | None => []
  end.

(** [fetchOpenSkyData]; [None] is the source's [null]. *)
Definition fetchOpenSkyData (clientId clientSecret : string) (isMapChange : bool)
  : M (option (list Report)) :=
  now <- Date_now ;;
  rateLimitInterval <- read (fun w => if isMapChange then MAP_CHANGE_API_INTERVAL
                                      else API_CALL_INTERVAL w) ;;
  lastCallTime <- read (fun w => if isMapChange then lastMapChangeApiCall w
                                 else lastApiCall w) ;;
  if now - lastCallTime <? rateLimitInterval
  then ret None
  else
    try_catch
      (accessToken <- getAccessToken clientId clientSecret ;;
       response <- fetch_states accessToken ;;
       modify (if isMapChange then set_lastMapChangeApiCall now else set_lastApiCall now) ;;
       if negb (response_ok (fst response))
       then
         if fst response =? 401
         then
           clear_tokenCache ;;
           newToken <- getAccessToken clientId clientSecret ;;
           retryResponse <- fetch_states newToken ;;
           if negb (response_ok (fst retryResponse))
           then throw (Error "OpenSky API error after token refresh")
           else
             data <- json_of (snd retryResponse) ;;
             ret (Some (states_or_empty data))
         else throw (Error "OpenSky API error")
       else
         data <- json_of (snd response) ;;
         ret (Some (states_or_empty data)))
      (fun error => ret None).

(** *** The aircraft record cache *)

(** [s.toLowerCase()] on a value: a method of strings only. *)
Definition js_toLowerCase (v : value) : result string :=
  match v with
  | Str s => Ok (toLowerCase s)
  | Undefined => Throw (TypeError "Cannot read properties of undefined (reading 'toLowerCase')")
  | Null => Throw (TypeError "Cannot read properties of null (reading 'toLowerCase')")
  | _ => Throw (TypeError "toLowerCase is not a function")
  end.

(** The eviction step of [getAircraftInfoOnDemand]: drop the oldest tenth
    of the entries when the cache is full and
    [!aircraftRecordCache.records[normalizedIcao24]] holds. *)
Definition evict_oldest (normalizedIcao24 : string) (cache : AircraftRecordCache.t)
  : list (string * CacheEntry.t) :=
  let records := AircraftRecordCache.records cache in
  let cacheKeys := Object_keys records in
  if (Nat.leb (AircraftRecordCache.maxSize cache) (List.length cacheKeys)
      && negb (member_truthy (records_get normalizedIcao24 cache)))%bool
  then
    let entriesToRemove := Math_floor_count (length_to_number (List.length cacheKeys) * 0.1)%float in
    let sortedByTime :=
      firstn entriesToRemove
        (sort_by_time (map (fun kv => (fst kv, CacheEntry.timestamp (snd kv))) records)) in
    fold_left (fun recs kt => obj_delete (fst kt) recs) sortedByTime records
  else records.

(** How far a lookup gets before it first yields: it has returned or thrown,
    or it is suspended on [r2Bucket.get] with the answer on its way. *)
Inductive Lookup : Type :=
| Returned (r : result value)
| Awaiting (normalizedIcao24 : string) (now : Z) (answer : Settled StoreResult).

(** [if (cached && (now - cached.timestamp) < AIRCRAFT_RECORD_CACHE_MAX_AGE)
    return cached.data]: [Some] of what is returned, [None] when the test
    fails.  An entry has its own fields; an inherited [data] is whatever the
    store held, read as any value is, and the subtraction throws when its
    [timestamp] does not convert; an inherited [timestamp] is a number, a
    built-in is a function or [Object.prototype], and neither has a
    [timestamp], so that the difference is [NaN]. *)
Definition cached_answer (now : Z) (cached : Member) : option (result value) :=
  match cached with
  | AnEntry e =>
      if now - CacheEntry.timestamp e <? AIRCRAFT_RECORD_CACHE_MAX_AGE
      then Some (Ok (CacheEntry.data e))
      else None
  | InheritedData v =>
      if truthy v then
        match rbind (get v "timestamp") ToPrimitive with
        | Ok timestamp =>
            if (time_to_number now - ToNumber P timestamp
                <? time_to_number AIRCRAFT_RECORD_CACHE_MAX_AGE)%float
            then Some (get v "data")
            else None
        | Throw e => Some (Throw e)
        end
      else None
  | InheritedTimestamp _ | BuiltIn | NoMember => None
  end.

(** [getAircraftInfoOnDemand] up to its first [await]. *)
Definition lookup_start (r2Bucket : bool) (icao24 : value) (w : World) : Lookup * World :=
  if (negb r2Bucket || negb (truthy icao24))%bool then (Returned (Ok Null), w)
  else
    let now := clock w in
    match js_toLowerCase icao24 with
    | Throw e => (Returned (Throw e), w)
    | Ok normalizedIcao24 =>
        match cached_answer now (records_get normalizedIcao24 (aircraftRecordCache w)) with
        | Some r => (Returned r, w)
        | None =>
            let objectKey := "aircraft/" ++ normalizedIcao24 ++ ".json" in
            (Awaiting normalizedIcao24 now (store_get C (trace w) objectKey),
             send (StoreGet objectKey) w)
        end
    end.

(** [aircraftRecordCache.records[normalizedIcao24] = entry] *)
Definition assign_record (normalizedIcao24 : string) (entry : CacheEntry.t) : M unit :=
  cache <- read aircraftRecordCache ;;
  if sets_prototype normalizedIcao24 cache
  then modify (set_prototype (Some entry))
  else modify (set_records (obj_set normalizedIcao24 entry (AircraftRecordCache.records cache))).

(** [getAircraftInfoOnDemand] from the moment [r2Bucket.get] settles; the
    [catch] clause turns every failure into [null]. *)
Definition lookup_finish (normalizedIcao24 : string) (now : Z) (answer : Settled StoreResult)
  : M value :=
  modify (resume (settles answer)) ;;
  match outcome answer with
  | StoreRejected e => ret Null
  | StoreMissing =>
      assign_record normalizedIcao24
        {| CacheEntry.data := Null; CacheEntry.timestamp := now |} ;;
      ret Null
  | StoreObject (Throw e) => ret Null
  | StoreObject (Ok aircraftInfo) =>
      cache <- read aircraftRecordCache ;;
      modify (set_records (evict_oldest normalizedIcao24 cache)) ;;
      assign_record normalizedIcao24
        {| CacheEntry.data := aircraftInfo; CacheEntry.timestamp := now |} ;;
      ret aircraftInfo
  end.

(** [getAircraftInfoOnDemand], awaited by its caller. *)
Definition getAircraftInfoOnDemand (r2Bucket : bool) (icao24 : value) : M value :=
  fun w =>
    match lookup_start r2Bucket icao24 w with
    | (Returned r, w') => (r, w')
    | (Awaiting normalizedIcao24 now answer, w') =>
        lookup_finish normalizedIcao24 now answer w'
    end.

(** *** Scanning the upstream reports *)

(** [getAirportInfo] *)
Definition getAirportInfo (icao24 callsign : value) : result (string * string) :=
  if truthy callsign then
    match callsign with
    | Str s => Ok (substring 0 4 s, "Unknown")
    | _ => Throw (TypeError "callsign.substring is not a function")
    end
  else Ok ("Unknown", "Unknown").

(** The card built from a report, before enrichment. *)
Definition flightData (flight : Report) (airportInfo : string * string) (inRegion : bool)
  : Flight :=
  {| icao24 := at_index flight 0;
     callsign := js_or (at_index flight 1) Null;
     origin := fst airportInfo;
     destination := snd airportInfo;
     latitude := at_index flight 6;
     longitude := at_index flight 5;
     baroAltitude := at_index flight 7;
     velocity := at_index flight 9;
     heading := at_index flight 10;
     verticalRate := at_index flight 11;
     inRegion := inRegion;
     registration := None;
     aircraftType := None;
     owner := None;
     operator := None;
     manufacturer := None;
     model := None;
     serialNumber := None;
     operatorCallsign := None;
     built := None |}.

Local Open Scope result_scope.

(** [if (info.k) card.field = info.k] *)
Definition assign_if (info : value) (k : string) (old : option value) : result (option value) :=
  let? v := get info k in
  Ok (if truthy v then Some v else old).

(** The block that copies the aircraft database fields onto a card. *)
Definition enrich (aircraftInfo : value) (f : Flight) : result Flight :=
  if truthy aircraftInfo then
    let? registration' := assign_if aircraftInfo "registration" (registration f) in
    let? aircraftType' := assign_if aircraftInfo "typecode" (aircraftType f) in
    let? owner' := assign_if aircraftInfo "owner" (owner f) in
    let? operator' := assign_if aircraftInfo "operator" (operator f) in
    let? manufacturer' := assign_if aircraftInfo "manufacturerName" (manufacturer f) in
    let? model' := assign_if aircraftInfo "model" (model f) in
    let? serialNumber' := assign_if aircraftInfo "serialNumber" (serialNumber f) in
    let? operatorCallsign' := assign_if aircraftInfo "operatorCallsign" (operatorCallsign f) in
    let? built' := assign_if aircraftInfo "built" (built f) in
    Ok {| icao24 := icao24 f;
          callsign := callsign f;
          origin := origin f;
          destination := destination f;
          latitude := latitude f;
          longitude := longitude f;
          baroAltitude := baroAltitude f;
          velocity := velocity f;
          heading := heading f;
          verticalRate := verticalRate f;
          inRegion := inRegion f;
          registration := registration';
          aircraftType := aircraftType';
          owner := owner';
          operator := operator';
          manufacturer := manufacturer';
          model := model';
          serialNumber := serialNumber';
          operatorCallsign := operatorCallsign';
          built := built' |}
  else Ok f.

Local Close Scope result_scope.

(** [onGround === true] *)
Definition is_true (v : value) : bool :=
  match v with
  | Bool true => true
  | _ => false
  end.

(** The loop of [processFlights]. *)
Fixpoint processFlights_loop (r2Bucket : bool) (flights : list Report) : M (option Flight) :=
  match flights with
  | [] => ret None
  | flight :: rest =>
      let latitude := at_index flight 6 in
      let longitude := at_index flight 5 in
      let onGround := at_index flight 8 in
      if is_true onGround then processFlights_loop r2Bucket rest
      else if (truthy latitude && truthy longitude)%bool then
        region <- read MONITORING_REGION ;;
        inRegion <- lift (isPointInRegion P latitude longitude region) ;;
        if inRegion : bool then
          airportInfo <- lift (getAirportInfo (at_index flight 0) (at_index flight 1)) ;;
          let icao24 := at_index flight 0 in
          aircraftInfo <- (if r2Bucket then getAircraftInfoOnDemand r2Bucket icao24
                           else ret Null) ;;
          card <- lift (enrich aircraftInfo (flightData flight airportInfo true)) ;;
          ret (Some card)
        else processFlights_loop r2Bucket rest
      else processFlights_loop r2Bucket rest
  end.

(** [processFlights]; [flights] is an array here, since the caller tests it
    before the call. *)
Definition processFlights (flights : list Report) (r2Bucket : bool) : M (option Flight) :=
  match flights with
  | [] => ret None
  | _ => processFlights_loop r2Bucket flights
  end.

(** The first pass of [processMultipleFlights]: the cards selected so far
    and the addresses to look up. *)
Fixpoint collect (maxFlights : nat) (bounds : option Bounds) (r2Bucket : bool)
    (flights : list Report) (flightsInBounds : list Flight) (icao24sToLookup : list value)
  : M (list Flight * list value) :=
  match flights with
  | [] => ret (flightsInBounds, icao24sToLookup)
  | flight :: rest =>
      let latitude := at_index flight 6 in
      let longitude := at_index flight 5 in
      let onGround := at_index flight 8 in
      if is_true onGround
      then collect maxFlights bounds r2Bucket rest flightsInBounds icao24sToLookup
      else if (truthy latitude && truthy longitude)%bool then
        region <- read MONITORING_REGION ;;
        inRegion <- lift (isPointInRegion P latitude longitude region) ;;
        inArea <- lift match bounds with
                       | Some _ => isPointInBounds P latitude longitude bounds
                       | None => Ok inRegion
                       end ;;
        if inArea : bool then
          airportInfo <- lift (getAirportInfo (at_index flight 0) (at_index flight 1)) ;;
          let icao24 := at_index flight 0 in
          let card := flightData flight airportInfo inRegion in
          let icao24sToLookup' :=
            if (r2Bucket && truthy icao24)%bool then (icao24sToLookup ++ [icao24])%list
            else icao24sToLookup in
          let flightsInBounds' := (flightsInBounds ++ [card])%list in
          if Nat.leb maxFlights (List.length flightsInBounds')
          then ret (flightsInBounds', icao24sToLookup')
          else collect maxFlights bounds r2Bucket rest flightsInBounds' icao24sToLookup'
        else collect maxFlights bounds r2Bucket rest flightsInBounds icao24sToLookup
      else collect maxFlights bounds r2Bucket rest flightsInBounds icao24sToLookup
  end.

(** [icao24sToLookup.map(icao24 => getAircraftInfoOnDemand(..))]: every
    lookup runs to its first [await] before any of them resumes. *)
Fixpoint start_all (r2Bucket : bool) (icao24s : list value) (w : World)
  : list (value * Lookup) * World :=
  match icao24s with
  | [] => ([], w)
  | icao24 :: rest =>
      let (l, w1) := lookup_start r2Bucket icao24 w in
      let (ls, w2) := start_all r2Bucket rest w1 in
      ((icao24, l) :: ls, w2)
  end.

Fixpoint first_rejection (started : list (value * Lookup)) : option error :=
  match started with
  | [] => None
  | (_, Returned (Throw e)) :: _ => Some e
  | _ :: rest => first_rejection rest
  end.

(** The suspended lookups resume, here in the order they were issued, and
    each yields its [{ icao24, info }]. *)
Fixpoint finish_all (started : list (value * Lookup)) : M (list (value * value)) :=
  match started with
  | [] => ret []
  | (icao24, l) :: rest =>
      info <- match l with
              | Returned r => lift r
              | Awaiting normalizedIcao24 now answer =>
                  lookup_finish normalizedIcao24 now answer
              end ;;
      infos <- finish_all rest ;;
      ret ((icao24, info) :: infos)
  end.

(** [await Promise.all(lookupPromises)]: it rejects as soon as one lookup
    has, which only a lookup that threw before yielding can do. *)
Definition Promise_all_lookups (r2Bucket : bool) (icao24s : list value)
  : M (list (value * value)) :=
  fun w =>
    let (started, w') := start_all r2Bucket icao24s w in
    match first_rejection started with
    | Some e => (Throw e, w')
    | None => finish_all started w'
    end.

Local Open Scope result_scope.

(** [new Map(lookupResults.map(({ icao24, info }) => [icao24.toLowerCase(), info]))],
    as the list of its insertions. *)
Fixpoint infoMap_of (lookupResults : list (value * value)) : result (list (string * value)) :=
  match lookupResults with
  | [] => Ok []
  | (icao24, info) :: rest =>
      let? k := js_toLowerCase icao24 in
      let? m := infoMap_of rest in
      Ok ((k, info) :: m)
  end.

(** [infoMap.get(k)]: the value of the last insertion under [k]. *)
Definition infoMap_get (k : string) (infoMap : list (string * value)) : value :=
  match obj_get k (rev infoMap) with
  | Some info => info
  | None => Undefined
  end.

(** [infoMap.get(flightData.icao24?.toLowerCase())] *)
Definition info_for (infoMap : list (string * value)) (icao24 : value) : result value :=
  match icao24 with
  | Undefined | Null => Ok Undefined
  | _ => let? k := js_toLowerCase icao24 in Ok (infoMap_get k infoMap)
  end.

Fixpoint enrich_all (infoMap : list (string * value)) (flightsInBounds : list Flight)
  : result (list Flight) :=
  match flightsInBounds with
  | [] => Ok []
  | card :: rest =>
      let? aircraftInfo := info_for infoMap (icao24 card) in
      let? card' := enrich aircraftInfo card in
      let? rest' := enrich_all infoMap rest in
      Ok (card' :: rest')
  end.

Local Close Scope result_scope.

(** [processMultipleFlights] *)
Definition processMultipleFlights (flights : list Report) (maxFlights : nat)
    (bounds : option Bounds) (r2Bucket : bool) : M (list Flight) :=
  match flights with
  | [] => ret []
  | _ =>
      selected <- collect maxFlights bounds r2Bucket flights [] [] ;;
      let flightsInBounds := fst selected in
      let icao24sToLookup := snd selected in
      if (r2Bucket && Nat.ltb 0 (List.length icao24sToLookup))%bool then
        lookupResults <- Promise_all_lookups r2Bucket icao24sToLookup ;;
        infoMap <- lift (infoMap_of lookupResults) ;;
        lift (enrich_all infoMap flightsInBounds)
      else ret flightsInBounds
  end.

(** *** The request handler *)

(** The bindings of [env] the handler reads. *)
Record Env : Type := {
  OPENSKY_CLIENT_ID : option string;
  OPENSKY_CLIENT_SECRET : option string;
  AIRCRAFT_DB : bool
}.

(** [env.X || ''] *)
Definition or_empty (x : option string) : string :=
  match x with
  | Some s => s
  | None => ""
  end.

(** What [JSON.stringify] is given for the body of a response (the
    [timestamp] and [usingSyntheticData] members are left out). *)
Inductive Body : Type :=
| FlightsBody (flights : list Flight) (error : option string)
| FlightBody (flight : option Flight) (error : option string)
| RegionUpdated (message : string) (region : value)
| RegionBody (region : value)
| ErrorBody (error : string).

Record HttpResponse : Type := { status : Z; body : Body }.

Definition credentials_missing : string :=
  "OpenSky credentials not configured. Please set OPENSKY_CLIENT_ID and OPENSKY_CLIENT_SECRET secrets.".

(** [GET /api/check-flights], with [USE_SYNTHETIC_DATA] false as the module
    sets it.  Both log lines about a card write
    [flight.callsign || flight.icao24] into a template literal. *)
Definition check_flights (env : Env) : M HttpResponse :=
  let clientId := or_empty (OPENSKY_CLIENT_ID env) in
  let clientSecret := or_empty (OPENSKY_CLIENT_SECRET env) in
  if (String.eqb clientId "" || String.eqb clientSecret "")%bool
  then ret {| status := 200; body := FlightBody None (Some credentials_missing) |}
  else
    flights <- fetchOpenSkyData clientId clientSecret false ;;
    flight <- match flights with
              | Some flights =>
                  flight <- processFlights flights (AIRCRAFT_DB env) ;;
                  match flight with
                  | Some card =>
                      region <- read MONITORING_REGION ;;
                      verifiedInRegion <-
                        lift (isPointInRegion P (latitude card) (longitude card) region) ;;
                      _ <- lift (ToPrimitive (js_or (callsign card) (icao24 card))) ;;
                      if verifiedInRegion : bool then ret (Some card) else ret None
                  | None => ret None
                  end
              | None => ret None
              end ;;
    ret {| status := 200; body := FlightBody flight None |}.

(** The query of [GET /api/map-flights]: what [url.searchParams.get] gives
    for each name. *)
Record MapQuery : Type := {
  q_north : option string;
  q_south : option string;
  q_east : option string;
  q_west : option string;
  q_mapChanged : option string
}.

Definition nonempty (x : option string) : bool :=
  match x with
  | Some s => negb (String.eqb s "")
  | None => false
  end.

Definition bounds_of (q : MapQuery) : option Bounds :=
  if (nonempty (q_north q) && nonempty (q_south q)
      && nonempty (q_east q) && nonempty (q_west q))%bool
  then Some {| north := parseFloat P (or_empty (q_north q));
               south := parseFloat P (or_empty (q_south q));
               east := parseFloat P (or_empty (q_east q));
               west := parseFloat P (or_empty (q_west q)) |}
  else None.

Definition mapChanged_of (q : MapQuery) : bool :=
  match q_mapChanged q with
  | Some s => String.eqb s "true"
  | None => false
  end.

(** [Math.abs(x - y) < 1] *)
Definition within_one (x y : float) : bool := (PrimFloat.abs (x - y) <? 1)%float.

(** The [boundsMatch] test of the fallback. *)
Definition boundsMatch (bounds cached : option Bounds) : bool :=
  match bounds, cached with
  | None, _ => true
  | _, None => true
  | Some b, Some c =>
      within_one (north b) (north c) && within_one (south b) (south c)
      && within_one (east b) (east c) && within_one (west b) (west c)
  end.

(** The fallback branch: the flights served when the fetch cycle gave
    nothing. *)
Definition serve_snapshot (bounds : option Bounds) : M (list Flight) :=
  now <- Date_now ;;
  cache <- read lastFlightsCache ;;
  let cacheAge := now - FlightsCache.timestamp cache in
  if (Nat.ltb 0 (List.length (FlightsCache.flights cache))
      && (cacheAge <? FLIGHTS_CACHE_MAX_AGE))%bool
  then
    if boundsMatch bounds (FlightsCache.bounds cache)
    then ret (FlightsCache.flights cache)
    else ret []
  else ret [].

(** [GET /api/map-flights] once the query is read, with
    [USE_SYNTHETIC_DATA] false as the module sets it. *)
Definition map_flights_for (env : Env) (bounds : option Bounds) (mapChanged : bool)
  : M HttpResponse :=
  let clientId := or_empty (OPENSKY_CLIENT_ID env) in
  let clientSecret := or_empty (OPENSKY_CLIENT_SECRET env) in
  if (String.eqb clientId "" || String.eqb clientSecret "")%bool
  then ret {| status := 200; body := FlightsBody [] (Some credentials_missing) |}
  else
    openSkyFlights <- fetchOpenSkyData clientId clientSecret mapChanged ;;
    flights <- match openSkyFlights with
               | Some openSkyFlights =>
                   flights <- processMultipleFlights openSkyFlights 50 bounds (AIRCRAFT_DB env) ;;
                   now <- Date_now ;;
                   modify (set_lastFlightsCache
                             {| FlightsCache.flights := flights;
                                FlightsCache.timestamp := now;
                                FlightsCache.bounds := bounds |}) ;;
                   ret flights
               | None => serve_snapshot bounds
               end ;;
    ret {| status := 200; body := FlightsBody flights None |}.

Definition map_flights (env : Env) (q : MapQuery) : M HttpResponse :=
  map_flights_for env (bounds_of q) (mapChanged_of q).

Definition bad_request (msg : string) : HttpResponse :=
  {| status := 400; body := ErrorBody msg |}.

(** [POST /api/region]; [request_json] is what [await request.json()]
    gives, or the exception it throws. *)
Definition post_region (request_json : result value) : M HttpResponse :=
  try_catch
    (body <- lift request_json ;;
     center <- lift (get body "center") ;;
     radiusMiles <- lift (get body "radiusMiles") ;;
     center_bad <-
       (if negb (truthy center) then ret true else
        lat <- lift (get center "lat") ;;
        if negb (typeof_number lat) then ret true else
        lon <- lift (get center "lon") ;;
        ret (negb (typeof_number lon))) ;;
     if center_bad : bool
     then ret (bad_request "Invalid center: must have lat and lon properties")
     else
       lat <- lift (get center "lat") ;;
       lon <- lift (get center "lon") ;;
       if ((ToNumber P lat <? -90) || (90 <? ToNumber P lat)
           || (ToNumber P lon <? -180) || (180 <? ToNumber P lon))%float
       then ret (bad_request
                   "Invalid coordinates: lat must be -90 to 90, lon must be -180 to 180")
       else
         let radius := js_or radiusMiles (Num 3) in
         _ <- lift (ToPrimitive radius) ;;
         if ((ToNumber P radius <=? 0) || (100 <? ToNumber P radius))%float
         then ret (bad_request "Invalid radius: must be between 0 and 100 miles")
         else
           modify (set_MONITORING_REGION
                     (Obj [("center", Obj [("lat", lat); ("lon", lon)]);
                           ("radiusMiles", radius)])) ;;
           region <- read MONITORING_REGION ;;
           ret {| status := 200;
                  body := RegionUpdated "Monitoring region updated successfully" region |})
    (fun err => ret (bad_request "Failed to parse request")).

(** [GET /api/region] *)
Definition get_region : M HttpResponse :=
  region <- read MONITORING_REGION ;;
  ret {| status := 200; body := RegionBody region |}.

End Worker.

(** * The earlier worker module

    [src/unnamed/part_003] opens with an earlier revision of the worker.
    Its [calculateDistance] is the one above; its circle test has no
    guards. *)

Module Earlier.

Local Open Scope result_scope.

(** [isPointInRegion] of the earlier module *)
Definition isPointInRegion (P : Platform) (latitude longitude region : value) : result bool :=
  let? center := get region "center" in
  let? lat := get center "lat" in
  let? center' := get region "center" in
  let? lon := get center' "lon" in
  let? distance := calculateDistance P lat lon latitude longitude in
  let? radiusMiles := get region "radiusMiles" in
  let? _ := ToPrimitive radiusMiles in
  Ok (distance <=? ToNumber P radiusMiles)%float.

End Earlier.


(** * The vocabulary of the properties *)

(** ** TokenBroker *)

(** The branch [getAccessToken] takes is decided by the cached token alone. *)
Definition token_usable (w : World) : bool :=
  truthy (TokenCache.token (tokenCache w))
  && (TokenCache.expiresAt (tokenCache w) >? clock w + TOKEN_EXPIRY_BUFFER).

(** The world with a token cached until [expiresAt]. *)
Definition with_token (expiresAt : Z) (w : World) : World :=
  set_tokenCache {| TokenCache.token := Str "eyJhbGciOi"; TokenCache.expiresAt := expiresAt |} w.

(** ** RateLimiter *)

(** The gate of [fetchOpenSkyData] for a category, at the time on the clock. *)
Definition gate_open (isMapChange : bool) (w : World) : bool :=
  negb (clock w - (if isMapChange then lastMapChangeApiCall w else lastApiCall w)
        <? (if isMapChange then MAP_CHANGE_API_INTERVAL else API_CALL_INTERVAL w)).

(** The timestamp of the last call in a category. *)
Definition last_call (isMapChange : bool) (w : World) : Z :=
  if isMapChange then lastMapChangeApiCall w else lastApiCall w.

(** ** The scans *)

(** A report whose latitude or longitude is the number zero. *)
Definition on_zero_line (flight : Report) : bool :=
  match at_index flight 6 with Num x => is_zero x | _ => false end
  || match at_index flight 5 with Num y => is_zero y | _ => false end.

(** The same for a card. *)
Definition card_on_zero_line (card : Flight) : bool :=
  match latitude card with Num x => is_zero x | _ => false end
  || match longitude card with Num y => is_zero y | _ => false end.

(** A card that passed the position check. *)
Definition positioned (card : Flight) : Prop :=
  truthy (latitude card) = true /\ truthy (longitude card) = true.

(** An engine whose functions take at zero and one the values ECMAScript
    gives for [Math.sin], [Math.cos] and [Math.atan2] at zero, and IEEE 754
    for the square root. *)
Definition exact_at_zero (P : Platform) : Prop :=
  Math_sin P 0 = 0%float
  /\ Math_cos P 0 = 1%float
  /\ Math_sqrt P 0 = 0%float
  /\ Math_sqrt P 1 = 1%float
  /\ Math_atan2 P 0 1 = 0%float.

(** The reports that remain when those are removed. *)
Definition off_zero_line (flight : Report) : bool := negb (on_zero_line flight).

(** ** The request handler *)

(** Both upstream credentials are configured. *)
Definition has_credentials (env : Env) : Prop :=
  or_empty (OPENSKY_CLIENT_ID env) <> "" /\ or_empty (OPENSKY_CLIENT_SECRET env) <> "".

(** What the fallback accepts as matching bounds: a request without bounds,
    a snapshot without bounds, or four edges each less than one degree
    apart. *)
Definition bounds_similar (bounds cached : option Bounds) : Prop :=
  match bounds, cached with
  | Some b, Some c =>
      (PrimFloat.abs (north b - north c) <? 1)%float = true
      /\ (PrimFloat.abs (south b - south c) <? 1)%float = true
      /\ (PrimFloat.abs (east b - east c) <? 1)%float = true
      /\ (PrimFloat.abs (west b - west c) <? 1)%float = true
  | _, _ => True
  end.

(** The condition as the specification words it: the snapshot is younger
    than 30 seconds and each of its stored bounds is within one degree of
    the corresponding requested bound, so that both sets of bounds are
    there to compare. *)
Definition spec_snapshot_served (bounds : option Bounds) (w : World) : bool :=
  (clock w - FlightsCache.timestamp (lastFlightsCache w) <? 30 * 1000)
  && match bounds, FlightsCache.bounds (lastFlightsCache w) with
     | Some b, Some c =>
         within_one (north b) (north c) && within_one (south b) (south c)
         && within_one (east b) (east c) && within_one (west b) (west c)
     | _, _ => false
     end.

(** ** Counting what a cycle sends *)

Definition is_states_request (ev : Event) : bool :=
  match ev with
  | StatesRequest _ => true
  | _ => false
  end.



(** What the feed answers to the first request of a cycle, when the cycle
    gets as far as sending it: it has a token, and the token can be written
    into the header. *)
Definition first_answer (C : Collaborators) (clientId clientSecret : string) (w : World)
  : option (HttpResult StatesBody) :=
  match getAccessToken C clientId clientSecret w with
  | (Ok accessToken, w1) =>
      if unconvertible accessToken then None
      else Some (outcome (states_endpoint C (trace w1) accessToken))
  | (Throw _, _) => None
  end.

(** That answer is a response with status 401. *)
Definition answered_401 (C : Collaborators) (clientId clientSecret : string) (w : World)
  : bool :=
  match first_answer C clientId clientSecret w with
  | Some (Response status _) => status =? 401
  | _ => false
  end.

(** How many of the events satisfy [f]. *)
Definition count (f : Event -> bool) (sent : list Event) : nat :=
  List.length (filter f sent).

(** What a lookup caches from the answer of the object store: [null] for a
    missing object, the parsed record for a readable one, and nothing when
    the store or the parse failed. *)
Definition cacheable (answer : StoreResult) : option value :=
  match answer with
  | StoreMissing => Some Null
  | StoreObject (Ok aircraftInfo) => Some aircraftInfo
  | StoreObject (Throw _) => None
  | StoreRejected _ => None
  end.

(** The cache does not answer for the key: what it holds under it, if
    anything, fails the test of age. *)
Definition cache_miss (P : Platform) (normalizedIcao24 : string) (w : World) : Prop :=
  cached_answer P (clock w) (records_get normalizedIcao24 (aircraftRecordCache w)) = None.

(** [aircraftRecordCache.records[normalizedIcao24]] is the entry [e]. *)
Definition remembered (normalizedIcao24 : string) (e : CacheEntry.t) (w : World) : Prop :=
  records_get normalizedIcao24 (aircraftRecordCache w) = AnEntry e.

(** The keys of the record cache. *)
Definition cached_keys (w : World) : list string :=
  Object_keys (AircraftRecordCache.records (aircraftRecordCache w)).

(** A report the single-flight scan would return: airborne, with a
    position, and inside the region. *)
Definition in_region_candidate (P : Platform) (region : value) (flight : Report) : bool :=
  negb (is_true (at_index flight 8))
  && truthy (at_index flight 6) && truthy (at_index flight 5)
  && match isPointInRegion P (at_index flight 6) (at_index flight 5) region with
     | Ok true => true
     | _ => false
     end.

(** A report the single-flight scan passes over: on the ground, without a
    position, or outside the region. *)
Definition passed_over (P : Platform) (region : value) (flight : Report) : bool :=
  is_true (at_index flight 8)
  || negb (truthy (at_index flight 6) && truthy (at_index flight 5))
  || match isPointInRegion P (at_index flight 6) (at_index flight 5) region with
     | Ok false => true
     | _ => false
     end.

(** The coordinates of the region's center, where it has one, convert to
    primitives: they are not objects with a [toString] of their own. *)
Definition center_converts (region : value) : Prop :=
  forall center clat clon,
    get region "center" = Ok center ->
    get center "lat" = Ok clat ->
    get center "lon" = Ok clon ->
    unconvertible clat = false /\ unconvertible clon = false.

(** A card made from a report: its identity and position are the report's. *)
Definition card_of_report (card : Flight) (flight : Report) : Prop :=
  icao24 card = at_index flight 0
  /\ callsign card = js_or (at_index flight 1) Null
  /\ latitude card = at_index flight 6
  /\ longitude card = at_index flight 5
  /\ baroAltitude card = at_index flight 7
  /\ velocity card = at_index flight 9
  /\ heading card = at_index flight 10
  /\ verticalRate card = at_index flight 11.

(** A report on the ground. *)
Definition on_ground (flight : Report) : bool := is_true (at_index flight 8).

(** What the multi-flight scan promises of a card it selected: its
    [inRegion] flag is the circle test against the region, and it passed the
    test the scan selects by, the viewport when there is one and the circle
    otherwise. *)
Definition selected_by (P : Platform) (region : value) (bounds : option Bounds)
    (card : Flight) : Prop :=
  isPointInRegion P (latitude card) (longitude card) region = Ok (inRegion card)
  /\ match bounds with
     | Some _ => isPointInBounds P (latitude card) (longitude card) bounds = Ok true
     | None => inRegion card = true
     end.

(** Two worlds that differ at most in the record cache, the clock and the
    list of requests sent. *)
Definition same_but_record_cache (w w' : World) : Prop :=
  lastApiCall w' = lastApiCall w
  /\ lastMapChangeApiCall w' = lastMapChangeApiCall w
  /\ API_CALL_INTERVAL w' = API_CALL_INTERVAL w
  /\ tokenCache w' = tokenCache w
  /\ MONITORING_REGION w' = MONITORING_REGION w
  /\ lastFlightsCache w' = lastFlightsCache w.

(** * Worked scenarios

    Concrete collaborators and worlds, on which the worker is run. *)

Module Scenario.

(** A wall-clock time, in milliseconds. *)
Definition t0 : Z := 1700000000000.

Definition env : Env :=
  {| OPENSKY_CLIENT_ID := Some "client";
     OPENSKY_CLIENT_SECRET := Some "secret";
     AIRCRAFT_DB := true |}.

(** A stand-in for the engine: sine, cosine and arc tangent by the leading
    terms of their series, the square root of IEEE 754.  It is exact at
    zero and good to a few feet over the few miles of the scenarios; it
    reads no number from text. *)
Definition engine : Platform :=
  {| Math_sin := fun x => (x - x * x * x / 6)%float;
     Math_cos := fun x => (1 - x * x / 2 + x * x * x * x / 24)%float;
     Math_atan2 := fun y x => (y / x - y / x * (y / x) * (y / x) / 3)%float;
     Math_sqrt := PrimFloat.sqrt;
     StringToNumber := fun _ => PrimFloat.nan;
     parseFloat := fun _ => PrimFloat.nan |}.

(** The token endpoint grants a token. *)
Definition granting (_ : list Event) (_ _ : string) : Settled (HttpResult value) :=
  {| settles := t0 + 150;
     outcome := Response 200 (Some (Obj [("access_token", Str "eyJhbGciOi");
                                         ("expires_in", Num 1800%float)])) |}.

(** The position feed cannot be reached: [fetch] rejects. *)
Definition unreachable (_ : list Event) (_ : value) : Settled (HttpResult StatesBody) :=
  {| settles := t0 + 400; outcome := Rejected (TypeError "fetch failed") |}.

(** The position feed answers 503. *)
Definition unavailable (_ : list Event) (_ : value) : Settled (HttpResult StatesBody) :=
  {| settles := t0 + 400; outcome := Response 503 None |}.

(** The object store has no record under any key. *)
Definition no_record (_ : list Event) (_ : string) : Settled StoreResult :=
  {| settles := t0 + 30; outcome := StoreMissing |}.

(** The object store has a record under every key. *)
Definition some_record (_ : list Event) (_ : string) : Settled StoreResult :=
  {| settles := t0 + 30;
     outcome := StoreObject (Ok (Obj [("registration", Str "N12345");
                                      ("typecode", Str "B738")])) |}.

Definition feed_down : Collaborators :=
  {| token_endpoint := granting; states_endpoint := unreachable; store_get := no_record |}.

Definition feed_503 : Collaborators :=
  {| token_endpoint := granting; states_endpoint := unavailable; store_get := no_record |}.

Definition store_full_of_records : Collaborators :=
  {| token_endpoint := granting; states_endpoint := unreachable; store_get := some_record |}.

(** *** A record cache at capacity *)

Definition hex_digit (d : N) : ascii :=
  nth (N.to_nat d) (list_ascii_of_string "0123456789abcdef") "0"%char.

(** The six hexadecimal digits of a 24-bit transponder address. *)
Definition hex6 (n : N) : string :=
  string_of_list_ascii
    (map (fun i => hex_digit ((n / 16 ^ i) mod 16)) [5; 4; 3; 2; 1; 0]%N).

(** Addresses a00000, a00001, ..., each cached one millisecond after the
    one before. *)
Definition cached_records (count : nat) : list (string * CacheEntry.t) :=
  map (fun i => (hex6 (10485760 + N.of_nat i),
                 {| CacheEntry.data := Obj [("registration", Str "N12345")];
                    CacheEntry.timestamp := t0 + Z.of_nat i |}))
      (seq 0 count).

Definition world_at_capacity : World :=
  set_records (cached_records 1000) (initial_world (t0 + 5000)).

(** *** A snapshot of the last map response *)

Definition card : Flight :=
  {| icao24 := Str "a1b2c3";
     callsign := Str "SWA1234 ";
     origin := "SWA1";
     destination := "Unknown";
     latitude := Num 33.5%float;
     longitude := Num (-111.5)%float;
     baroAltitude := Num 3048%float;
     velocity := Num 120%float;
     heading := Num 270%float;
     verticalRate := Num 0%float;
     inRegion := false;
     registration := None;
     aircraftType := None;
     owner := None;
     operator := None;
     manufacturer := None;
     model := None;
     serialNumber := None;
     operatorCallsign := None;
     built := None |}.

Definition snapshot_bounds : Bounds :=
  {| north := 34; south := 33; east := -111; west := -112 |}.

(** Twenty seconds after a successful map response: the snapshot is that
    old, and the steady gate is closed. *)
Definition world_with_snapshot : World :=
  set_lastFlightsCache
    {| FlightsCache.flights := [card];
       FlightsCache.timestamp := t0;
       FlightsCache.bounds := Some snapshot_bounds |}
    (set_lastApiCall t0 (initial_world (t0 + 20000))).

(** A request half a degree away on every edge, and one two degrees away on
    the northern edge. *)
Definition bounds_nearby : Bounds :=
  {| north := 34.5; south := 33.5; east := -110.5; west := -111.5 |}.

Definition bounds_far_north : Bounds :=
  {| north := 36; south := 33; east := -111; west := -112 |}.

(** *** A cached "not found" *)

Definition world_with_sentinel : World :=
  set_records [("abc123", {| CacheEntry.data := Null; CacheEntry.timestamp := t0 |})]
              (initial_world (t0 + 59 * 60 * 1000)).

End Scenario.

(** * Further scenarios *)

Module Cases.

(** The token endpoint refuses the credentials. *)
Definition refusing_token (_ : list Event) (_ _ : string) : Settled (HttpResult value) :=
  {| settles := Scenario.t0 + 150; outcome := Response 401 None |}.

(** The position feed answers 200 with the given state vectors. *)
Definition answering (states : list Report) (_ : list Event) (_ : value)
  : Settled (HttpResult StatesBody) :=
  {| settles := Scenario.t0 + 400; outcome := Response 200 (Some (Some states)) |}.

(** The object store cannot be reached. *)
Definition store_unreachable (_ : list Event) (_ : string) : Settled StoreResult :=
  {| settles := Scenario.t0 + 30; outcome := StoreRejected (Error "Network connection lost") |}.

Definition token_refused : Collaborators :=
  {| token_endpoint := refusing_token;
     states_endpoint := Scenario.unreachable;
     store_get := Scenario.no_record |}.

Definition feed_answering (states : list Report) : Collaborators :=
  {| token_endpoint := Scenario.granting;
     states_endpoint := answering states;
     store_get := Scenario.no_record |}.

Definition store_down : Collaborators :=
  {| token_endpoint := Scenario.granting;
     states_endpoint := Scenario.unreachable;
     store_get := store_unreachable |}.

(** An aircraft parked at the gate, and one in the air over Mesa. *)
Definition parked : Report :=
  [Str "a0f1e2"; Str "AAL2211 "; Str "United States"; Num 1700000000; Num 1700000000;
   Num (-112.0116); Num 33.4342; Null; Bool true; Num 0; Num 90; Null].

Definition airborne : Report :=
  [Str "A1B2C3"; Str "SWA1234 "; Str "United States"; Num 1700000000; Num 1700000000;
   Num (-111.5); Num 33.5; Num 3048; Bool false; Num 120; Num 270; Num 0].

Definition viewport : Bounds :=
  {| north := 34; south := 33; east := -111; west := -112 |}.

(** An aircraft in the air a mile north of the center of the default
    region. *)
Definition overhead : Report :=
  [Str "A1B2C3"; Str "SWA1234 "; Str "United States"; Num 1700000000; Num 1700000000;
   Num (-111.70391851974681); Num 33.49029; Num 3048; Bool false; Num 120; Num 270; Num 0].

(** What [JSON.parse] gives for [{"toString": 1}]: an object that no
    operator can convert to a primitive. *)
Definition no_primitive : value := Obj [("toString", Num 1)].

(** The same aircraft, reported with such an object for its address and
    without a call sign. *)
Definition nameless : Report :=
  [no_primitive; Null; Str "United States"; Num 1700000000; Num 1700000000;
   Num (-111.70391851974681); Num 33.49029; Num 3048; Bool false; Num 120; Num 270; Num 0].

(** The position feed answers 401 to the first request it gets and 200,
    with the given state vectors, to every later one. *)
Definition answering_after_401 (states : list Report) (sent : list Event) (_ : value)
  : Settled (HttpResult StatesBody) :=
  {| settles := Scenario.t0 + 400;
     outcome := if existsb is_states_request sent
                then Response 200 (Some (Some states))
                else Response 401 None |}.

Definition feed_refusing_once (states : list Report) : Collaborators :=
  {| token_endpoint := Scenario.granting;
     states_endpoint := answering_after_401 states;
     store_get := Scenario.no_record |}.

(** A record as the object store may hold it, with a [timestamp] and a
    [data] member of its own. *)
Definition stamped_record : value :=
  Obj [("registration", Str "N12345");
       ("timestamp", Num 1700000000000);
       ("data", Str "ex-N54321")].

Definition store_of_stamped_records (_ : list Event) (_ : string) : Settled StoreResult :=
  {| settles := Scenario.t0 + 30; outcome := StoreObject (Ok stamped_record) |}.

Definition stamped_store : Collaborators :=
  {| token_endpoint := Scenario.granting;
     states_endpoint := Scenario.unreachable;
     store_get := store_of_stamped_records |}.

(** The region a body with [radiusMiles: true] leaves behind. *)
Definition region_with_boolean_radius : value :=
  Obj [("center", Obj [("lat", Num 33.5); ("lon", Num (-111.5))]);
       ("radiusMiles", Bool true)].

Definition world_with_boolean_radius : World :=
  set_MONITORING_REGION region_with_boolean_radius (initial_world Scenario.t0).

Definition env_without_bucket : Env :=
  {| OPENSKY_CLIENT_ID := Some "client";
     OPENSKY_CLIENT_SECRET := Some "secret";
     AIRCRAFT_DB := false |}.

(** The card the multi-flight scan makes of [airborne] in that world. *)
Definition airborne_card : Flight :=
  flightData airborne ("SWA1", "Unknown") false.


Definition body_with_radius (radiusMiles : value) : value :=
  Obj [("center", Obj [("lat", Num 33.5); ("lon", Num (-111.5))]);
       ("radiusMiles", radiusMiles)].

End Cases.

(** * Properties *)

(** ** GeoMath *)

Section GeoMathFacts.

Variable P : Platform.

Lemma get_truthy (v : value) (k : string) :
  truthy v = true -> exists x, get v k = Ok x.
Proof.
  destruct v; simpl; intros H; try discriminate; eauto.
Qed.



(** The stand-in engine is exact at zero. *)
Example engine_exact_at_zero : exact_at_zero Scenario.engine.
Proof. repeat split; reflexivity. Qed.

(** Whatever is missing or of the wrong type, the answer is [false]. *)
Example isPointInRegion_malformed (latitude longitude : value) :
  isPointInRegion P latitude longitude Undefined = Ok false
  /\ isPointInRegion P latitude longitude Null = Ok false
  /\ isPointInRegion P latitude longitude (Obj [("radiusMiles", Num 3)]) = Ok false
  /\ isPointInRegion P latitude longitude
       (Obj [("center", Obj [("lat", Num 33); ("lon", Num (-111))]);
             ("radiusMiles", Str "3")]) = Ok false
  /\ isPointInRegion P (Str "33") longitude DEFAULT_REGION = Ok false
  /\ isPointInRegion P (Num PrimFloat.nan) (Num (-111)) DEFAULT_REGION = Ok false.
Proof. repeat split; reflexivity. Qed.

(** With every edge of the viewport non-zero and the longitude in
    [-180, 180], [isPointInBounds] is the range test on latitude and, on
    longitude, the range test or (west > east) the union of [west, 180] and
    [-180, east]; a latitude that does not convert makes the comparison
    throw. *)
Lemma isPointInBounds_ranges (latitude longitude : value) (b : Bounds) :
  truthy (Num (north b)) = true -> truthy (Num (south b)) = true ->
  truthy (Num (east b)) = true -> truthy (Num (west b)) = true ->
  (ToNumber P longitude <=? 180)%float = true ->
  (-180 <=? ToNumber P longitude)%float = true ->
  isPointInBounds P latitude longitude (Some b)
  = if unconvertible latitude
    then Throw (TypeError "Cannot convert object to primitive value")
    else
      Ok ((south b <=? ToNumber P latitude)%float && (ToNumber P latitude <=? north b)%float
          && (if (west b <=? east b)%float
              then (west b <=? ToNumber P longitude)%float
                   && (ToNumber P longitude <=? east b)%float
              else ((west b <=? ToNumber P longitude)%float
                    && (ToNumber P longitude <=? 180)%float)
                   || ((-180 <=? ToNumber P longitude)%float
                       && (ToNumber P longitude <=? east b)%float))).
Proof.
  intros Hn Hs He Hw H180 Hm180. unfold isPointInBounds.
  rewrite Hn, Hs, He, Hw. simpl.
  assert (Hlon : unconvertible longitude = false)
    by (destruct longitude; try reflexivity; discriminate).
  unfold ToPrimitive. rewrite Hlon. simpl.
  destruct (unconvertible latitude); simpl; [reflexivity|].
  rewrite H180, Hm180. rewrite andb_true_r. reflexivity.
Qed.

(** C10. A viewport with an edge equal to zero contains no point: the guard
    of [isPointInBounds] answers [false] for it as it does for missing
    bounds. *)
Theorem isPointInBounds_zero_edge (latitude longitude : value) (b : Bounds) :
  is_zero (north b) = true \/ is_zero (south b) = true
  \/ is_zero (east b) = true \/ is_zero (west b) = true ->
  isPointInBounds P latitude longitude (Some b) = Ok false
  /\ isPointInBounds P latitude longitude (Some b) = isPointInBounds P latitude longitude None.
Proof.
  intros H. unfold isPointInBounds. simpl.
  destruct H as [H|[H|[H|H]]]; rewrite H; simpl;
    rewrite ?orb_true_r; simpl; auto.
Qed.

End GeoMathFacts.

(** ** TokenBroker *)

Section TokenBrokerFacts.

Variable C : Collaborators.

Ltac step :=
  unfold getAccessToken, fetch_token, clear_tokenCache, json_of,
    bind, try_catch, Date_now, read, modify, ret, throw, lift; simpl.

Lemma token_usable_spec (w : World) :
  token_usable w = true <->
  truthy (TokenCache.token (tokenCache w)) = true
  /\ TokenCache.expiresAt (tokenCache w) > clock w + 5 * 60 * 1000.
Proof.
  unfold token_usable, TOKEN_EXPIRY_BUFFER. rewrite andb_true_iff.
  rewrite Z.gtb_ltb, Z.ltb_lt. intuition lia.
Qed.

Lemma getAccessToken_cached (clientId clientSecret : string) (w : World) :
  token_usable w = true ->
  getAccessToken C clientId clientSecret w = (Ok (TokenCache.token (tokenCache w)), w).
Proof.
  unfold token_usable. intros H. step. rewrite H. reflexivity.
Qed.

Lemma getAccessToken_refresh_trace (clientId clientSecret : string) (w : World) :
  token_usable w = false ->
  trace (snd (getAccessToken C clientId clientSecret w))
  = TokenRequest clientId clientSecret :: trace w.
Proof.
  unfold token_usable. intros H. step. rewrite H.
  destruct (outcome (token_endpoint C (trace w) clientId clientSecret)) as [e|status [data|]];
    simpl; try reflexivity.
  - destruct (response_ok status); simpl; try reflexivity.
    destruct (get data "access_token") as [tok|e]; simpl; try reflexivity.
    destruct (truthy tok); reflexivity.
  - destruct (response_ok status); reflexivity.
Qed.

Lemma getAccessToken_granted (clientId clientSecret : string) (w : World)
    (status : Z) (data accessToken : value) :
  token_usable w = false ->
  outcome (token_endpoint C (trace w) clientId clientSecret) = Response status (Some data) ->
  response_ok status = true ->
  get data "access_token" = Ok accessToken ->
  truthy accessToken = true ->
  fst (getAccessToken C clientId clientSecret w) = Ok accessToken
  /\ tokenCache (snd (getAccessToken C clientId clientSecret w))
     = {| TokenCache.token := accessToken;
          TokenCache.expiresAt := clock w + 30 * 60 * 1000 |}.
Proof.
  unfold token_usable. intros H Hout Hok Hget Htok. step. rewrite H, Hout. simpl.
  rewrite Hok. simpl. rewrite Hget. simpl. rewrite Htok. simpl. split; reflexivity.
Qed.

(** C5. [getAccessToken] answers from the cache, sending nothing, exactly
    when the cached token exists and expires more than five minutes from
    now.  Otherwise it sends one client-credentials request, and the token
    the grant returns is cached with [expiresAt] thirty minutes after the
    call.  A token expiring in four minutes is refreshed; one expiring in ten
    minutes is not. *)
Theorem getAccessToken_cache_policy :
  forall (clientId clientSecret : string) (w : World),
    let cached := tokenCache w in
    let now := clock w in
    let fresh := truthy (TokenCache.token cached) = true
                 /\ TokenCache.expiresAt cached > now + 5 * 60 * 1000 in
    let run := getAccessToken C clientId clientSecret w in
    (fresh <-> trace (snd run) = trace w)
    /\ (fresh -> run = (Ok (TokenCache.token cached), w))
    /\ (~ fresh ->
        trace (snd run) = TokenRequest clientId clientSecret :: trace w
        /\ forall status data accessToken,
             outcome (token_endpoint C (trace w) clientId clientSecret)
             = Response status (Some data) ->
             response_ok status = true ->
             get data "access_token" = Ok accessToken ->
             truthy accessToken = true ->
             fst run = Ok accessToken
             /\ tokenCache (snd run)
                = {| TokenCache.token := accessToken;
                     TokenCache.expiresAt := now + 30 * 60 * 1000 |})
    /\ (TokenCache.expiresAt cached = now + 4 * 60 * 1000 ->
        trace (snd run) = TokenRequest clientId clientSecret :: trace w)
    /\ (truthy (TokenCache.token cached) = true ->
        TokenCache.expiresAt cached = now + 10 * 60 * 1000 ->
        run = (Ok (TokenCache.token cached), w)).
Proof.
  intros clientId clientSecret w cached now fresh run.
  assert (Hfresh : fresh <-> token_usable w = true)
    by (symmetry; apply token_usable_spec).
  assert (Hstale : ~ fresh -> token_usable w = false).
  { intros Hn. destruct (token_usable w) eqn:E; [|reflexivity].
    exfalso. apply Hn, Hfresh. reflexivity. }
  split; [split|split; [|split; [|split]]].
  - intros Hf. unfold run. rewrite getAccessToken_cached by (apply Hfresh, Hf). reflexivity.
  - destruct (token_usable w) eqn:E.
    + intros _. apply (proj1 (token_usable_spec w) E).
    + unfold run. rewrite (getAccessToken_refresh_trace clientId clientSecret w E).
      intros Habs. exfalso.
      assert (Hlen : List.length (TokenRequest clientId clientSecret :: trace w)
                     = List.length (trace w)) by (rewrite Habs; reflexivity).
      simpl in Hlen. lia.
  - intros Hf. apply getAccessToken_cached, Hfresh, Hf.
  - intros Hn. split.
    + apply getAccessToken_refresh_trace, Hstale, Hn.
    + intros status data accessToken Hout Hok Hget Htok.
      apply (getAccessToken_granted clientId clientSecret w status data accessToken); auto.
  - intros Hexp. apply getAccessToken_refresh_trace, Hstale.
    intros [_ Hgt]. unfold cached, now in *. lia.
  - intros Htok Hexp. apply getAccessToken_cached, Hfresh. split; [exact Htok|].
    unfold cached, now in *. lia.
Qed.

(** Whatever the token endpoint does, [getAccessToken] leaves both call
    timestamps as they were. *)
Lemma getAccessToken_keeps_timestamps (clientId clientSecret : string) (w : World) :
  lastApiCall (snd (getAccessToken C clientId clientSecret w)) = lastApiCall w
  /\ lastMapChangeApiCall (snd (getAccessToken C clientId clientSecret w))
     = lastMapChangeApiCall w
  /\ API_CALL_INTERVAL (snd (getAccessToken C clientId clientSecret w)) = API_CALL_INTERVAL w.
Proof.
  step.
  destruct (truthy _ && _); simpl; auto.
  destruct (outcome (token_endpoint C (trace w) clientId clientSecret)) as [e|status [data|]];
    simpl; auto.
  - destruct (response_ok status); simpl; auto.
    destruct (get data "access_token") as [tok|e]; simpl; auto.
    destruct (truthy tok); simpl; auto.
  - destruct (response_ok status); simpl; auto.
Qed.

Lemma getAccessToken_keeps_snapshot (clientId clientSecret : string) (w : World) :
  lastFlightsCache (snd (getAccessToken C clientId clientSecret w)) = lastFlightsCache w.
Proof.
  step.
  destruct (truthy _ && _); simpl; auto.
  destruct (outcome (token_endpoint C (trace w) clientId clientSecret)) as [e|status [data|]];
    simpl; auto.
  - destruct (response_ok status); simpl; auto.
    destruct (get data "access_token") as [tok|e]; simpl; auto.
    destruct (truthy tok); simpl; auto.
  - destruct (response_ok status); simpl; auto.
Qed.

End TokenBrokerFacts.

(** ** RateLimiter and the fetch cycle *)

Section FetchCycleFacts.

Variable C : Collaborators.

Ltac open_cycle :=
  unfold fetchOpenSkyData, bind, try_catch, Date_now, read, ret; simpl.

Lemma fetch_states_run (accessToken : value) (w : World) :
  fetch_states C accessToken w
  = if unconvertible accessToken
    then (Throw (TypeError "Cannot convert object to primitive value"), w)
    else
      match outcome (states_endpoint C (trace w) accessToken) with
      | Rejected e =>
          (Throw e, await_io (StatesRequest accessToken)
                      (settles (states_endpoint C (trace w) accessToken)) w)
      | Response status body =>
          (Ok (status, body),
           await_io (StatesRequest accessToken)
             (settles (states_endpoint C (trace w) accessToken)) w)
      end.
Proof.
  unfold fetch_states, ToPrimitive. destruct (unconvertible accessToken); reflexivity.
Qed.

(** A closed gate is a skip: nothing is sent and nothing changes. *)
Lemma fetchOpenSkyData_gate_closed (clientId clientSecret : string) (isMapChange : bool)
    (w : World) :
  gate_open isMapChange w = false ->
  fetchOpenSkyData C clientId clientSecret isMapChange w = (Ok None, w).
Proof.
  unfold gate_open. intros H. apply negb_false_iff in H.
  open_cycle. destruct isMapChange; rewrite H; reflexivity.
Qed.

(** When the token cannot be obtained the cycle ends in [null] and neither
    timestamp moves. *)
Lemma fetchOpenSkyData_without_token (clientId clientSecret : string) (isMapChange : bool)
    (w w1 : World) (e : error) :
  gate_open isMapChange w = true ->
  getAccessToken C clientId clientSecret w = (Throw e, w1) ->
  fetchOpenSkyData C clientId clientSecret isMapChange w = (Ok None, w1)
  /\ lastApiCall w1 = lastApiCall w
  /\ lastMapChangeApiCall w1 = lastMapChangeApiCall w.
Proof.
  unfold gate_open. intros H Htok. apply negb_true_iff in H.
  destruct (getAccessToken_keeps_timestamps C clientId clientSecret w) as (K1 & K2 & _).
  rewrite Htok in K1, K2. simpl in K1, K2.
  split; [|auto].
  open_cycle. destruct isMapChange; rewrite H; rewrite Htok; reflexivity.
Qed.

(** When [fetch] itself rejects (the feed cannot be reached) the cycle ends
    in [null] and neither timestamp moves: the assignment comes after the
    [await].  The same holds when the token cannot be written into the
    header. *)
Lemma fetchOpenSkyData_fetch_rejected (clientId clientSecret : string) (isMapChange : bool)
    (w w1 : World) (accessToken : value) (e : error) :
  gate_open isMapChange w = true ->
  getAccessToken C clientId clientSecret w = (Ok accessToken, w1) ->
  outcome (states_endpoint C (trace w1) accessToken) = Rejected e ->
  fst (fetchOpenSkyData C clientId clientSecret isMapChange w) = Ok None
  /\ lastApiCall (snd (fetchOpenSkyData C clientId clientSecret isMapChange w))
     = lastApiCall w
  /\ lastMapChangeApiCall (snd (fetchOpenSkyData C clientId clientSecret isMapChange w))
     = lastMapChangeApiCall w.
Proof.
  unfold gate_open. intros H Htok Hout. apply negb_true_iff in H.
  destruct (getAccessToken_keeps_timestamps C clientId clientSecret w) as (K1 & K2 & _).
  rewrite Htok in K1, K2. simpl in K1, K2.
  open_cycle. destruct isMapChange; rewrite H; rewrite Htok;
    rewrite fetch_states_run; rewrite Hout;
    destruct (unconvertible accessToken); simpl; auto.
Qed.

(** When [fetch] resolves, with whatever status, the timestamp of the
    category used is the time the cycle started. *)
Lemma fetchOpenSkyData_response_closes_gate (clientId clientSecret : string)
    (isMapChange : bool) (w w1 : World) (accessToken : value) (status : Z)
    (json : option StatesBody) :
  gate_open isMapChange w = true ->
  getAccessToken C clientId clientSecret w = (Ok accessToken, w1) ->
  unconvertible accessToken = false ->
  outcome (states_endpoint C (trace w1) accessToken) = Response status json ->
  last_call isMapChange (snd (fetchOpenSkyData C clientId clientSecret isMapChange w))
  = clock w.
Proof.
  unfold gate_open, last_call. intros H Htok Hconv Hout. apply negb_true_iff in H.
  open_cycle.
  destruct isMapChange; rewrite H; rewrite Htok;
    rewrite fetch_states_run; rewrite Hconv, Hout; unfold modify, json_of, throw, ret; simpl.
  all: destruct (response_ok status); simpl;
    [destruct json; reflexivity|].
  all: destruct (status =? 401); simpl; [|reflexivity].
  all: unfold clear_tokenCache, modify; simpl.
  all: match goal with
       | |- context [getAccessToken C ?id ?secret ?w2] =>
           destruct (getAccessToken_keeps_timestamps C id secret w2)
             as (K1 & K2 & _);
           destruct (getAccessToken C id secret w2) as [[newToken|e2] w3];
           simpl in K1, K2 |- *
       end; auto.
  all: rewrite fetch_states_run; destruct (unconvertible newToken); simpl; auto.
  all: match goal with
       | |- context [outcome ?o] => destruct (outcome o) as [e3|status3 json3]
       end; simpl; auto.
  all: destruct (response_ok status3); simpl; auto.
  all: destruct json3; simpl; auto.
Qed.

(** A fetch cycle never touches the snapshot of the last map response. *)
Lemma fetchOpenSkyData_keeps_snapshot (clientId clientSecret : string) (isMapChange : bool)
    (w : World) :
  lastFlightsCache (snd (fetchOpenSkyData C clientId clientSecret isMapChange w))
  = lastFlightsCache w.
Proof.
  open_cycle.
  match goal with
  | |- context [if ?closed then _ else _] => destruct closed
  end; [reflexivity|].
  pose proof (getAccessToken_keeps_snapshot C clientId clientSecret w) as K.
  destruct (getAccessToken C clientId clientSecret w) as [[accessToken|e] w1];
    simpl in K |- *; [|exact K].
  rewrite fetch_states_run. destruct (unconvertible accessToken); simpl; [exact K|].
  destruct (outcome (states_endpoint C (trace w1) accessToken)) as [e|status json];
    simpl; [exact K|].
  unfold modify, json_of, throw, ret; simpl.
  destruct (response_ok status); simpl.
  { destruct json; destruct isMapChange; simpl; exact K. }
  destruct (status =? 401); simpl; [|destruct isMapChange; exact K].
  unfold clear_tokenCache, modify; simpl.
  match goal with
  | |- context [getAccessToken C ?id ?secret ?w2] =>
      pose proof (getAccessToken_keeps_snapshot C id secret w2) as K2;
      destruct (getAccessToken C id secret w2) as [[newToken|e2] w3];
      simpl in K2 |- *
  end.
  2:{ rewrite K2. destruct isMapChange; exact K. }
  rewrite fetch_states_run. destruct (unconvertible newToken); simpl.
  1:{ rewrite K2. destruct isMapChange; exact K. }
  match goal with
  | |- context [outcome ?o] => destruct (outcome o) as [e3|status3 json3]
  end; simpl.
  1:{ rewrite K2. destruct isMapChange; exact K. }
  destruct (response_ok status3); simpl; [destruct json3; simpl|];
    rewrite K2; destruct isMapChange; exact K.
Qed.

End FetchCycleFacts.

(** ** AircraftRecordCache *)

Section ObjectFacts.

Context {V : Type}.

Lemma obj_insert_index_length (n : N) (k : string) (v : V) (obj : list (string * V)) :
  List.length (obj_insert_index n k v obj) = S (List.length obj).
Proof.
  induction obj as [|[k' v'] obj IH]; simpl; [reflexivity|].
  destruct (array_index k') as [n'|]; [|reflexivity].
  destruct (n' <? n)%N; simpl; [rewrite IH|]; reflexivity.
Qed.

(** Assigning under a key the object does not have adds one entry. *)
Lemma obj_set_new_length (k : string) (v : V) (obj : list (string * V)) :
  has_own k obj = false ->
  List.length (obj_set k v obj) = S (List.length obj).
Proof.
  unfold has_own, obj_set. destruct (obj_get k obj); [discriminate|]. intros _.
  destruct (array_index k).
  - apply obj_insert_index_length.
  - rewrite length_app. simpl. lia.
Qed.

Lemma has_own_In (k : string) (obj : list (string * V)) :
  has_own k obj = true <-> In k (Object_keys obj).
Proof.
  unfold has_own. induction obj as [|[k' v'] obj IH]; simpl.
  - split; [discriminate|contradiction].
  - destruct (String.eqb_spec k k') as [->|Hne].
    + split; auto.
    + rewrite IH. split; [auto|]. intros [H|H]; [congruence|exact H].
Qed.



(** What is left after a deletion was there before, under another key. *)
Lemma obj_delete_In (k : string) (obj : list (string * V)) (kv : string * V) :
  NoDup (Object_keys obj) ->
  In kv (obj_delete k obj) -> In kv obj /\ fst kv <> k.
Proof.
  unfold Object_keys. induction obj as [|[k' v'] obj IH]; simpl; [contradiction|].
  intros Hnd Hin. inversion Hnd as [|? ? Hnotin Hnd']; subst.
  destruct (String.eqb_spec k k') as [->|Hne].
  - split; [auto|]. intros <-. apply Hnotin. apply in_map. exact Hin.
  - destruct Hin as [<-|Hin]; [split; auto|].
    destruct (IH Hnd' Hin). auto.
Qed.

Lemma obj_delete_NoDup (k : string) (obj : list (string * V)) :
  NoDup (Object_keys obj) -> NoDup (Object_keys (obj_delete k obj)).
Proof.
  unfold Object_keys. induction obj as [|[k' v'] obj IH]; simpl; [auto|].
  intros Hnd. inversion Hnd as [|? ? Hnotin Hnd']; subst.
  destruct (String.eqb_spec k k'); [exact Hnd'|].
  simpl. constructor; [|auto].
  intros Hin. apply Hnotin. apply in_map_iff in Hin. destruct Hin as ([k0 v0] & <- & Hin).
  apply (in_map fst). apply (obj_delete_In k obj (k0, v0) Hnd' Hin).
Qed.

Lemma obj_replace_keys (k : string) (v : V) (obj : list (string * V)) :
  Object_keys (obj_replace k v obj) = Object_keys obj.
Proof.
  unfold Object_keys. induction obj as [|[k' v'] obj IH]; simpl; [reflexivity|].
  destruct (String.eqb k k'); simpl; [reflexivity|]. rewrite IH. reflexivity.
Qed.

Lemma obj_insert_index_keys (n : N) (k : string) (v : V) (obj : list (string * V)) :
  Permutation (k :: Object_keys obj) (Object_keys (obj_insert_index n k v obj)).
Proof.
  unfold Object_keys. induction obj as [|[k' v'] obj IH]; simpl; [reflexivity|].
  destruct (array_index k') as [n'|]; [|reflexivity].
  destruct (n' <? n)%N; simpl; [|reflexivity].
  rewrite perm_swap. constructor. exact IH.
Qed.

(** Assignments keep the keys of the object distinct. *)
Lemma obj_set_NoDup (k : string) (v : V) (obj : list (string * V)) :
  NoDup (Object_keys obj) -> NoDup (Object_keys (obj_set k v obj)).
Proof.
  intros Hnd. unfold obj_set.
  destruct (obj_get k obj) eqn:Hget.
  - rewrite obj_replace_keys. exact Hnd.
  - assert (Hnew : ~ In k (Object_keys obj)).
    { intros Hin. apply has_own_In in Hin. unfold has_own in Hin.
      rewrite Hget in Hin. discriminate. }
    destruct (array_index k).
    + eapply Permutation_NoDup; [apply obj_insert_index_keys|].
      constructor; assumption.
    + unfold Object_keys. rewrite map_app. simpl.
      eapply Permutation_NoDup; [apply Permutation_cons_append|].
      constructor; assumption.
Qed.

End ObjectFacts.

(** *** Eviction *)









Section RecordCacheFacts.

Variable P : Platform.
Variable C : Collaborators.

(** C8. A key whose cached entry is the "not found" sentinel, younger than
    one hour, is answered with that [null]: the world, and with it the list
    of requests sent to the object store, is left as it was. *)
Theorem cached_not_found_is_served (r2Bucket : bool) (icao24 : string) (ts : Z) (w : World) :
  obj_get (toLowerCase icao24) (AircraftRecordCache.records (aircraftRecordCache w))
  = Some {| CacheEntry.data := Null; CacheEntry.timestamp := ts |} ->
  clock w - ts < 60 * 60 * 1000 ->
  getAircraftInfoOnDemand P C r2Bucket (Str icao24) w = (Ok Null, w)
  /\ trace (snd (getAircraftInfoOnDemand P C r2Bucket (Str icao24) w)) = trace w.
Proof.
  intros Hcached Hage.
  assert (Hrun : getAircraftInfoOnDemand P C r2Bucket (Str icao24) w = (Ok Null, w)).
  { unfold getAircraftInfoOnDemand, lookup_start.
    destruct (negb r2Bucket || negb (truthy (Str icao24)))%bool; [reflexivity|].
    simpl. unfold records_get. rewrite Hcached. simpl.
    unfold AIRCRAFT_RECORD_CACHE_MAX_AGE.
    destruct (Z.ltb_spec (clock w - ts) (60 * 60 * 1000)); [reflexivity|lia]. }
  rewrite Hrun. split; reflexivity.
Qed.

(** The "not found" branch caches its sentinel without looking at the size
    of the cache: a key the object has no member for always adds an entry,
    also at capacity. *)
Lemma not_found_insert_grows (icao24 : string) (w : World) :
  icao24 <> "" ->
  records_get (toLowerCase icao24) (aircraftRecordCache w) = NoMember ->
  outcome (store_get C (trace w) ("aircraft/" ++ toLowerCase icao24 ++ ".json")) = StoreMissing ->
  let w' := snd (getAircraftInfoOnDemand P C true (Str icao24) w) in
  fst (getAircraftInfoOnDemand P C true (Str icao24) w) = Ok Null
  /\ List.length (AircraftRecordCache.records (aircraftRecordCache w'))
     = S (List.length (AircraftRecordCache.records (aircraftRecordCache w))).
Proof.
  intros Hne Hnew Hmiss. simpl.
  unfold getAircraftInfoOnDemand, lookup_start. simpl.
  destruct (String.eqb_spec icao24 ""); [contradiction|]. simpl.
  rewrite Hnew. simpl.
  unfold lookup_finish, assign_record, bind, modify, read, ret. simpl. simpl in Hmiss.
  rewrite Hmiss. simpl.
  assert (Hown : has_own (toLowerCase icao24)
                   (AircraftRecordCache.records (aircraftRecordCache w)) = false).
  { unfold records_get in Hnew. unfold has_own.
    destruct (obj_get (toLowerCase icao24)
                (AircraftRecordCache.records (aircraftRecordCache w))); [discriminate|reflexivity]. }
  assert (Hproto : sets_prototype (toLowerCase icao24) (aircraftRecordCache w) = false).
  { unfold sets_prototype. destruct (String.eqb_spec (toLowerCase icao24) "__proto__") as [E|];
      [|reflexivity].
    exfalso. unfold records_get in Hnew. rewrite E in Hnew.
    destruct (obj_get "__proto__" (AircraftRecordCache.records (aircraftRecordCache w)));
      [discriminate|].
    destruct (AircraftRecordCache.prototype (aircraftRecordCache w)); discriminate. }
  unfold sets_prototype in *. simpl. rewrite Hproto. simpl.
  split; [reflexivity|].
  apply obj_set_new_length. exact Hown.
Qed.

End RecordCacheFacts.

(** ** The scans of the upstream reports *)

Lemma positioned_off_zero_line (card : Flight) :
  positioned card -> card_on_zero_line card = false.
Proof.
  unfold positioned, card_on_zero_line. intros [Hlat Hlon].
  destruct (latitude card), (longitude card); simpl in *; try reflexivity;
    try discriminate;
    repeat match goal with
           | H : negb (is_zero ?x || _) = true |- _ =>
               apply negb_true_iff, orb_false_iff in H; destruct H as [H _]; rewrite H
           end; reflexivity.
Qed.

Lemma on_zero_line_position_check (flight : Report) :
  on_zero_line flight = true ->
  (truthy (at_index flight 6) && truthy (at_index flight 5))%bool = false.
Proof.
  unfold on_zero_line. intros H. apply orb_true_iff in H. destruct H as [H|H].
  - destruct (at_index flight 6); try discriminate. simpl. rewrite H. reflexivity.
  - destruct (at_index flight 5); try discriminate. simpl. rewrite H. simpl.
    apply andb_false_r.
Qed.

Lemma enrich_keeps_position (aircraftInfo : value) (f f' : Flight) :
  enrich aircraftInfo f = Ok f' ->
  latitude f' = latitude f /\ longitude f' = longitude f.
Proof.
  unfold enrich. destruct (truthy aircraftInfo).
  - unfold assign_if.
    repeat match goal with
           | |- context [get aircraftInfo ?k] => destruct (get aircraftInfo k); simpl
           end; intros H; try discriminate; injection H as <-; auto.
  - intros H. injection H as <-. auto.
Qed.

Section ScanFacts.

Variable P : Platform.
Variable C : Collaborators.

Ltac scan_step :=
  unfold bind, read, lift, ret; simpl.

Lemma processFlights_loop_skips (r2Bucket : bool) (flights : list Report) (w : World) :
  processFlights_loop P C r2Bucket (filter off_zero_line flights) w
  = processFlights_loop P C r2Bucket flights w.
Proof.
  induction flights as [|flight rest IH]; [reflexivity|].
  simpl. unfold off_zero_line at 1. destruct (on_zero_line flight) eqn:Hz; simpl.
  - rewrite (on_zero_line_position_check flight Hz).
    destruct (is_true (at_index flight 8)); exact IH.
  - destruct (is_true (at_index flight 8)); [exact IH|].
    destruct (truthy (at_index flight 6) && truthy (at_index flight 5))%bool; [|exact IH].
    scan_step.
    destruct (isPointInRegion P (at_index flight 6) (at_index flight 5) (MONITORING_REGION w))
      as [[|]|e]; simpl; auto.
Qed.

Lemma processFlights_loop_positioned (r2Bucket : bool) (flights : list Report)
    (w w' : World) (card : Flight) :
  processFlights_loop P C r2Bucket flights w = (Ok (Some card), w') -> positioned card.
Proof.
  induction flights as [|flight rest IH]; simpl.
  - unfold ret. intros H. discriminate.
  - destruct (is_true (at_index flight 8)); [exact IH|].
    destruct (truthy (at_index flight 6) && truthy (at_index flight 5))%bool eqn:Hpos;
      [|exact IH].
    scan_step.
    destruct (isPointInRegion P (at_index flight 6) (at_index flight 5) (MONITORING_REGION w))
      as [[|]|e]; simpl; [|exact IH|discriminate].
    destruct (getAirportInfo (at_index flight 0) (at_index flight 1)) as [airportInfo|e];
      simpl; [|discriminate].
    match goal with
    | |- context [match ?m w with _ => _ end] => destruct (m w) as [[aircraftInfo|e] w1]
    end; simpl; [|discriminate].
    destruct (enrich aircraftInfo (flightData flight airportInfo true)) as [card'|e] eqn:He;
      simpl; [|discriminate].
    intros H. injection H as <- _.
    destruct (enrich_keeps_position _ _ _ He) as [Hlat Hlon].
    unfold positioned. rewrite Hlat, Hlon. simpl.
    apply andb_true_iff in Hpos. exact Hpos.
Qed.

Lemma collect_skips (maxFlights : nat) (bounds : option Bounds) (r2Bucket : bool)
    (flights : list Report) :
  forall (flightsInBounds : list Flight) (icao24sToLookup : list value) (w : World),
    collect P maxFlights bounds r2Bucket (filter off_zero_line flights)
      flightsInBounds icao24sToLookup w
    = collect P maxFlights bounds r2Bucket flights flightsInBounds icao24sToLookup w.
Proof.
  induction flights as [|flight rest IH]; intros acc lookups w; [reflexivity|].
  simpl. unfold off_zero_line at 1. destruct (on_zero_line flight) eqn:Hz; simpl.
  - rewrite (on_zero_line_position_check flight Hz).
    destruct (is_true (at_index flight 8)); apply IH.
  - destruct (is_true (at_index flight 8)); [apply IH|].
    destruct (truthy (at_index flight 6) && truthy (at_index flight 5))%bool; [|apply IH].
    scan_step.
    destruct (isPointInRegion P (at_index flight 6) (at_index flight 5) (MONITORING_REGION w))
      as [inRegion|e]; simpl; [|reflexivity].
    destruct (match bounds with
              | Some _ => isPointInBounds P (at_index flight 6) (at_index flight 5) bounds
              | None => Ok inRegion
              end) as [[|]|e']; simpl; [|apply IH|reflexivity].
    destruct (getAirportInfo (at_index flight 0) (at_index flight 1)) as [airportInfo|e];
      simpl; [|reflexivity].
    match goal with
    | |- context [if Nat.leb ?a ?b then _ else _] => destruct (Nat.leb a b)
    end; [reflexivity|apply IH].
Qed.

Lemma collect_positioned (maxFlights : nat) (bounds : option Bounds) (r2Bucket : bool)
    (flights : list Report) :
  forall (flightsInBounds : list Flight) (icao24sToLookup : list value) (w w' : World)
         (selected : list Flight * list value),
    Forall positioned flightsInBounds ->
    collect P maxFlights bounds r2Bucket flights flightsInBounds icao24sToLookup w
    = (Ok selected, w') ->
    Forall positioned (fst selected).
Proof.
  induction flights as [|flight rest IH]; intros acc lookups w w' selected Hacc; simpl.
  - unfold ret. intros H. injection H as <- _. exact Hacc.
  - destruct (is_true (at_index flight 8)); [apply IH; exact Hacc|].
    destruct (truthy (at_index flight 6) && truthy (at_index flight 5))%bool eqn:Hpos;
      [|apply IH; exact Hacc].
    scan_step.
    destruct (isPointInRegion P (at_index flight 6) (at_index flight 5) (MONITORING_REGION w))
      as [inRegion|e]; simpl; [|discriminate].
    destruct (match bounds with
              | Some _ => isPointInBounds P (at_index flight 6) (at_index flight 5) bounds
              | None => Ok inRegion
              end) as [[|]|e']; simpl; [|apply IH; exact Hacc|discriminate].
    destruct (getAirportInfo (at_index flight 0) (at_index flight 1)) as [airportInfo|e];
      simpl; [|discriminate].
    assert (Hacc' : Forall positioned (acc ++ [flightData flight airportInfo inRegion])).
    { apply Forall_app. split; [exact Hacc|]. constructor; [|constructor].
      unfold positioned. simpl. apply andb_true_iff in Hpos. exact Hpos. }
    match goal with
    | |- context [if Nat.leb ?a ?b then _ else _] => destruct (Nat.leb a b)
    end.
    + intros H. injection H as <- _. exact Hacc'.
    + apply IH. exact Hacc'.
Qed.

Lemma enrich_all_positioned (infoMap : list (string * value)) (cards : list Flight) :
  forall cards', enrich_all infoMap cards = Ok cards' ->
  Forall positioned cards -> Forall positioned cards'.
Proof.
  induction cards as [|card rest IH]; simpl; intros cards' H Hall.
  - injection H as <-. constructor.
  - destruct (info_for infoMap (icao24 card)) as [info|e]; simpl in H; [|discriminate].
    destruct (enrich info card) as [card'|e] eqn:He; simpl in H; [|discriminate].
    destruct (enrich_all infoMap rest) as [rest'|e]; simpl in H; [|discriminate].
    injection H as <-. inversion Hall as [|? ? Hcard Hrest]; subst.
    constructor; [|apply IH; auto].
    destruct (enrich_keeps_position _ _ _ He) as [Hlat Hlon].
    unfold positioned in *. rewrite Hlat, Hlon. exact Hcard.
Qed.

(** C9. A report whose latitude or longitude is exactly zero takes no part
    in either scan: [processFlights] and [processMultipleFlights] give the
    same outcome with those reports removed, whatever region and bounds are
    in force, and no card they return lies on the equator or the prime
    meridian. *)
Theorem zero_coordinate_reports_are_skipped :
  forall (flights : list Report) (r2Bucket : bool) (maxFlights : nat)
         (bounds : option Bounds) (w : World),
    processFlights P C flights r2Bucket w
    = processFlights P C (filter off_zero_line flights) r2Bucket w
    /\ processMultipleFlights P C flights maxFlights bounds r2Bucket w
       = processMultipleFlights P C (filter off_zero_line flights) maxFlights bounds r2Bucket w
    /\ (forall card w',
          processFlights P C flights r2Bucket w = (Ok (Some card), w') ->
          card_on_zero_line card = false)
    /\ (forall cards w',
          processMultipleFlights P C flights maxFlights bounds r2Bucket w = (Ok cards, w') ->
          Forall (fun card => card_on_zero_line card = false) cards).
Proof.
  intros flights r2Bucket maxFlights bounds w.
  assert (Hsingle : forall l, processFlights P C l r2Bucket w
                              = processFlights_loop P C r2Bucket l w)
    by (intros [|? ?]; reflexivity).
  assert (Hmulti : forall l,
    processMultipleFlights P C l maxFlights bounds r2Bucket w
    = (selected <- collect P maxFlights bounds r2Bucket l [] [] ;;
       if (r2Bucket && Nat.ltb 0 (List.length (snd selected)))%bool then
         lookupResults <- Promise_all_lookups P C r2Bucket (snd selected) ;;
         infoMap <- lift (infoMap_of lookupResults) ;;
         lift (enrich_all infoMap (fst selected))
       else ret (fst selected))%async w).
  { intros [|? ?]; [|reflexivity]. unfold bind, ret. simpl.
    rewrite andb_false_r. reflexivity. }
  split; [|split; [|split]].
  - rewrite !Hsingle. symmetry. apply processFlights_loop_skips.
  - rewrite !Hmulti. unfold bind. rewrite collect_skips. reflexivity.
  - intros card w'. rewrite Hsingle. intros H.
    apply positioned_off_zero_line. eapply processFlights_loop_positioned. exact H.
  - intros cards w'. rewrite Hmulti. unfold bind.
    destruct (collect P maxFlights bounds r2Bucket flights [] [] w) as [[selected|e] w1] eqn:Hc;
      [|discriminate].
    assert (Hsel : Forall positioned (fst selected))
      by (eapply collect_positioned; [constructor|exact Hc]).
    intros H.
    assert (Hpos : Forall positioned cards).
    { destruct (r2Bucket && Nat.ltb 0 (List.length (snd selected)))%bool.
      - destruct (Promise_all_lookups P C r2Bucket (snd selected) w1) as [[results|e] w2];
          [|discriminate].
        unfold lift in H.
        destruct (infoMap_of results) as [infoMap|e]; [|discriminate].
        destruct (enrich_all infoMap (fst selected)) as [cards'|e] eqn:He; [|discriminate].
        injection H as <- _. eapply enrich_all_positioned; eauto.
      - unfold ret in H. injection H as <- _. exact Hsel. }
    eapply Forall_impl; [|exact Hpos]. apply positioned_off_zero_line.
Qed.

End ScanFacts.

(** ** The request handler *)

Section GatewayFacts.

Variable P : Platform.
Variable C : Collaborators.

Lemma boundsMatch_spec (bounds cached : option Bounds) :
  boundsMatch bounds cached = true <-> bounds_similar bounds cached.
Proof.
  unfold boundsMatch, bounds_similar, within_one.
  destruct bounds as [b|], cached as [c|]; try (split; auto; fail).
  rewrite !andb_true_iff. tauto.
Qed.

(** The fallback branch alone. *)
Lemma serve_snapshot_spec (bounds : option Bounds) (w : World) :
  let snapshot := lastFlightsCache w in
  let age := clock w - FlightsCache.timestamp snapshot in
  exists flights,
    serve_snapshot bounds w = (Ok flights, w)
    /\ (age < 30 * 1000 /\ bounds_similar bounds (FlightsCache.bounds snapshot) ->
        flights = FlightsCache.flights snapshot)
    /\ (~ (age < 30 * 1000 /\ bounds_similar bounds (FlightsCache.bounds snapshot)) ->
        flights = []).
Proof.
  simpl. unfold serve_snapshot, bind, Date_now, read, ret, FLIGHTS_CACHE_MAX_AGE. simpl.
  destruct (Z.ltb_spec (clock w - FlightsCache.timestamp (lastFlightsCache w)) 30000)
    as [Hage|Hage].
  - assert (Hage' : clock w - FlightsCache.timestamp (lastFlightsCache w) < 30 * 1000) by lia.
    destruct (boundsMatch bounds (FlightsCache.bounds (lastFlightsCache w))) eqn:Hb.
    + apply boundsMatch_spec in Hb.
      destruct (FlightsCache.flights (lastFlightsCache w)) as [|card cards] eqn:Hfl; simpl.
      * exists []. split; [reflexivity|]. split; auto.
      * exists (card :: cards). split; [reflexivity|]. split; [auto|].
        intros Hn. exfalso. apply Hn. auto.
    + assert (Hnb : ~ bounds_similar bounds (FlightsCache.bounds (lastFlightsCache w))).
      { intros Hs. apply boundsMatch_spec in Hs. congruence. }
      exists []. rewrite andb_true_r.
      destruct (Nat.ltb 0 _); (split; [reflexivity|]; split; [|auto]).
      all: intros [_ Hs]; contradiction.
  - exists []. rewrite andb_false_r. split; [reflexivity|]. split; [|auto].
    intros [Hlt _]. lia.
Qed.

(** C2 (as the code has it). When the fetch cycle yields nothing, because
    the gate is closed or because the upstream call failed, the map handler
    answers 200 with the snapshot's flights if the snapshot is younger than
    30 seconds and either the request has no bounds, or the snapshot has
    none, or each of north, south, east and west is less than one degree
    from the snapshot's; otherwise it answers with the empty list. *)
Theorem map_flights_fallback (env : Env) (bounds : option Bounds) (mapChanged : bool)
    (w w1 : World) :
  has_credentials env ->
  fetchOpenSkyData C (or_empty (OPENSKY_CLIENT_ID env)) (or_empty (OPENSKY_CLIENT_SECRET env))
    mapChanged w = (Ok None, w1) ->
  let snapshot := lastFlightsCache w in
  let age := clock w1 - FlightsCache.timestamp snapshot in
  exists flights,
    map_flights_for P C env bounds mapChanged w
    = (Ok {| status := 200; body := FlightsBody flights None |}, w1)
    /\ (age < 30 * 1000 /\ bounds_similar bounds (FlightsCache.bounds snapshot) ->
        flights = FlightsCache.flights snapshot)
    /\ (~ (age < 30 * 1000 /\ bounds_similar bounds (FlightsCache.bounds snapshot)) ->
        flights = []).
Proof.
  intros [Hid Hsecret] Hfetch. simpl.
  pose proof (fetchOpenSkyData_keeps_snapshot C (or_empty (OPENSKY_CLIENT_ID env))
                (or_empty (OPENSKY_CLIENT_SECRET env)) mapChanged w) as Hkeep.
  rewrite Hfetch in Hkeep. simpl in Hkeep. rewrite <- Hkeep.
  destruct (serve_snapshot_spec bounds w1) as (flights & Hrun & Hyes & Hno).
  exists flights. split; [|split; assumption].
  unfold map_flights_for.
  destruct (String.eqb_spec (or_empty (OPENSKY_CLIENT_ID env)) ""); [contradiction|].
  destruct (String.eqb_spec (or_empty (OPENSKY_CLIENT_SECRET env)) ""); [contradiction|].
  simpl. unfold bind. rewrite Hfetch. rewrite Hrun. reflexivity.
Qed.

(** [POST /api/region] always answers; a 400 leaves the world as it was, and
    a 200 changes nothing but the region. *)
Lemma post_region_outcomes (request_json : result value) (w : World) :
  exists response w',
    post_region P request_json w = (Ok response, w')
    /\ ((status response = 400 /\ w' = w)
        \/ (status response = 200
            /\ exists region, w' = set_MONITORING_REGION region w)).
Proof.
  unfold post_region, try_catch, bind, lift, ret, modify, read, bad_request.
  destruct request_json as [body|e]; simpl; [|eauto 6].
  destruct (get body "center") as [center|e]; simpl; [|eauto 6].
  destruct (get body "radiusMiles") as [radiusMiles|e]; simpl; [|eauto 6].
  destruct (truthy center) eqn:Hcenter; simpl; [|eauto 6].
  destruct (get_truthy center "lat" Hcenter) as [lat Hlat].
  destruct (get_truthy center "lon" Hcenter) as [lon Hlon].
  rewrite Hlat; simpl.
  destruct (typeof_number lat); simpl; [|eauto 6].
  rewrite Hlon; simpl.
  destruct (typeof_number lon); simpl; [|eauto 6].
  match goal with |- context [if ?c then _ else _] => destruct c end; simpl; [eauto 6|].
  destruct (ToPrimitive (js_or radiusMiles (Num 3))) as [radius|e]; simpl; [|eauto 6].
  match goal with |- context [if ?c then _ else _] => destruct c end; simpl; [eauto 6|].
  do 2 eexists. split; [reflexivity|]. right. simpl. eauto.
Qed.

(** Every region the worker stores has a center whose coordinates convert:
    the default region has numbers there, and [POST /api/region] stores
    only numbers there. *)
Lemma stored_region_converts (request_json : result value) (w : World) :
  center_converts DEFAULT_REGION
  /\ (center_converts (MONITORING_REGION w) ->
      center_converts (MONITORING_REGION (snd (post_region P request_json w)))).
Proof.
  split.
  - intros center clat clon Hc Hlat Hlon.
    injection Hc as <-. injection Hlat as <-. injection Hlon as <-. split; reflexivity.
  - intros Hw.
    unfold post_region, try_catch, bind, lift, ret, modify, read, bad_request.
    destruct request_json as [body|e]; simpl; [|exact Hw].
    destruct (get body "center") as [center|e]; simpl; [|exact Hw].
    destruct (get body "radiusMiles") as [radiusMiles|e]; simpl; [|exact Hw].
    destruct (truthy center) eqn:Hcenter; simpl; [|exact Hw].
    destruct (get_truthy center "lat" Hcenter) as [lat Hlat].
    destruct (get_truthy center "lon" Hcenter) as [lon Hlon].
    rewrite Hlat; simpl.
    destruct (typeof_number lat) eqn:Hnlat; simpl; [|exact Hw].
    rewrite Hlon; simpl.
    destruct (typeof_number lon) eqn:Hnlon; simpl; [|exact Hw].
    match goal with |- context [if ?c then _ else _] => destruct c end; simpl; [exact Hw|].
    destruct (ToPrimitive (js_or radiusMiles (Num 3))) as [radius|e]; simpl; [|exact Hw].
    match goal with |- context [if ?c then _ else _] => destruct c end; simpl; [exact Hw|].
    intros c clat clon Hc Hclat Hclon.
    injection Hc as <-. injection Hclat as <-. injection Hclon as <-.
    destruct lat; try discriminate. destruct lon; try discriminate. split; reflexivity.
Qed.

(** A body whose numeric coordinates or numeric, non-zero radius are out of
    range is answered 400, and the stored region stays. *)
Lemma post_region_rejects_out_of_range (lat lon r : float) (others : list (string * value))
    (w : World) :
  truthy (Num r) = true ->
  ((lat <? -90) || (90 <? lat) || (lon <? -180) || (180 <? lon)
   || (r <=? 0) || (100 <? r))%float = true ->
  exists msg,
    post_region P
      (Ok (Obj (("center", Obj [("lat", Num lat); ("lon", Num lon)])
                :: ("radiusMiles", Num r) :: others))) w
    = (Ok (bad_request msg), w).
Proof.
  intros Hr Hbad.
  unfold post_region, try_catch, bind, lift, ret, modify, read. simpl.
  destruct ((lat <? -90) || (90 <? lat) || (lon <? -180) || (180 <? lon))%float eqn:Hc;
    simpl; [eauto|].
  unfold js_or. rewrite Hr. simpl.
  simpl in Hbad. rewrite Hbad. eauto.
Qed.

End GatewayFacts.

(** ** RateLimiter: scenarios *)

(** With the feed answering 503 the first cycle stamps the steady
    timestamp and the next request, at once, is skipped. *)
Example failing_status_closes_gate :
  let first := fetchOpenSkyData Scenario.feed_503 "client" "secret" false
                 (initial_world Scenario.t0) in
  fst first = Ok None
  /\ lastApiCall (snd first) = Scenario.t0
  /\ fetchOpenSkyData Scenario.feed_503 "client" "secret" false (snd first)
     = (Ok None, snd first).
Proof. vm_compute. repeat split; reflexivity. Qed.

(** C1. With the feed unreachable the gate is open, the cycle sends its
    request and ends in [null], and the steady timestamp is not updated: the
    gate is still open, and the next cycle sends the request again. *)
Theorem unreachable_feed_leaves_gate_open :
  let w := initial_world Scenario.t0 in
  let first := fetchOpenSkyData Scenario.feed_down "client" "secret" false w in
  let second := fetchOpenSkyData Scenario.feed_down "client" "secret" false (snd first) in
  gate_open false w = true
  /\ fst first = Ok None
  /\ trace (snd first) = [StatesRequest (Str "eyJhbGciOi"); TokenRequest "client" "secret"]
  /\ lastApiCall (snd first) = lastApiCall w
  /\ gate_open false (snd first) = true
  /\ trace (snd second)
     = [StatesRequest (Str "eyJhbGciOi"); StatesRequest (Str "eyJhbGciOi");
        TokenRequest "client" "secret"].
Proof. vm_compute. repeat split; reflexivity. Qed.

(** ** TokenBroker: scenarios *)

(** A token with four minutes left is refreshed; one with ten minutes left
    is returned as it is. *)
Example token_refresh_at_four_and_ten_minutes :
  let now := Scenario.t0 in
  trace (snd (getAccessToken Scenario.feed_down "client" "secret"
                (with_token (now + 4 * 60 * 1000) (initial_world now))))
  = [TokenRequest "client" "secret"]
  /\ trace (snd (getAccessToken Scenario.feed_down "client" "secret"
                   (with_token (now + 10 * 60 * 1000) (initial_world now))))
     = [].
Proof. vm_compute. split; reflexivity. Qed.

(** A granted token is cached for thirty minutes counted from the moment
    [getAccessToken] was entered, whenever the grant settles. *)
Example token_granted_and_cached :
  let now := Scenario.t0 in
  let run := getAccessToken Scenario.feed_down "client" "secret" (initial_world now) in
  fst run = Ok (Str "eyJhbGciOi")
  /\ tokenCache (snd run)
     = {| TokenCache.token := Str "eyJhbGciOi";
          TokenCache.expiresAt := now + 30 * 60 * 1000 |}
  /\ clock (snd run) = now + 150.
Proof. vm_compute. repeat split; reflexivity. Qed.

(** ** GeoMath: scenarios *)

(** A viewport across the antimeridian takes longitudes 175 and -175 and
    leaves out longitude 0. *)
Example antimeridian_viewport (P : Platform) :
  let b := {| north := 10; south := -10; east := -170; west := 170 |} in
  isPointInBounds P (Num 5) (Num 175) (Some b) = Ok true
  /\ isPointInBounds P (Num 5) (Num (-175)) (Some b) = Ok true
  /\ isPointInBounds P (Num 5) (Num 0) (Some b) = Ok false.
Proof. repeat split; reflexivity. Qed.

(** C6. A viewport whose southern edge is the equator, and a point inside
    it by both range tests: [isPointInBounds] answers [false], because its
    guard takes the edge at zero for a missing one. *)
Theorem isPointInBounds_misses_equator_viewport (P : Platform) :
  let b := {| north := 10; south := 0; east := 20; west := 10 |} in
  ((south b <=? 5) && (5 <=? north b) && (west b <=? east b)
   && (west b <=? 15) && (15 <=? east b))%float = true
  /\ isPointInBounds P (Num 5) (Num 15) (Some b) = Ok false.
Proof. split; reflexivity. Qed.

Lemma isPointInBounds_zero_edge_witness :
  is_zero (north {| north := 0; south := -10; east := -100; west := -110 |}) = true
  /\ forall P : Platform,
       isPointInBounds P (Num (-5)) (Num (-105))
         (Some {| north := 0; south := -10; east := -100; west := -110 |}) = Ok false.
Proof.
  split; [reflexivity|]. intros P.
  apply (isPointInBounds_zero_edge P (Num (-5)) (Num (-105))
           {| north := 0; south := -10; east := -100; west := -110 |}).
  left. reflexivity.
Defined.

(** ** AircraftRecordCache: scenarios *)

Lemma cached_not_found_is_served_witness :
  getAircraftInfoOnDemand Scenario.engine Scenario.store_full_of_records true (Str "ABC123")
    Scenario.world_with_sentinel
  = (Ok Null, Scenario.world_with_sentinel).
Proof.
  apply (cached_not_found_is_served Scenario.engine Scenario.store_full_of_records true "ABC123"
           Scenario.t0 Scenario.world_with_sentinel).
  - reflexivity.
  - vm_compute. reflexivity.
Defined.

(** After an hour the sentinel no longer answers: the store is asked
    again. *)
Example expired_not_found_is_fetched_again (P : Platform) :
  let w := set_records [("abc123", {| CacheEntry.data := Null;
                                      CacheEntry.timestamp := Scenario.t0 |})]
             (initial_world (Scenario.t0 + 60 * 60 * 1000)) in
  trace (snd (getAircraftInfoOnDemand P Scenario.feed_down true (Str "ABC123") w))
  = [StoreGet "aircraft/abc123.json"].
Proof. vm_compute. reflexivity. Qed.

(** The found branch at capacity: the hundred oldest entries go, and the new
    record is added. *)
Example found_insert_evicts_a_tenth (P : Platform) :
  let w := Scenario.world_at_capacity in
  let w' := snd (getAircraftInfoOnDemand P Scenario.store_full_of_records true (Str "FFFFFF") w) in
  Object_keys (AircraftRecordCache.records (aircraftRecordCache w'))
  = (skipn 100 (Object_keys (AircraftRecordCache.records (aircraftRecordCache w)))
     ++ ["ffffff"])%list.
Proof. vm_compute. reflexivity. Qed.

(** C4. The "not found" branch at capacity: the cache holds [maxSize] =
    1000 keys, the key is new, and the sentinel is added without evicting
    anything; the cache now holds 1001 keys. *)
Theorem not_found_insert_skips_eviction (P : Platform) :
  let w := Scenario.world_at_capacity in
  let run := getAircraftInfoOnDemand P Scenario.feed_down true (Str "FFFFFF") w in
  let before := AircraftRecordCache.records (aircraftRecordCache w) in
  let after := AircraftRecordCache.records (aircraftRecordCache (snd run)) in
  AircraftRecordCache.maxSize (aircraftRecordCache w) = 1000%nat
  /\ List.length before = 1000%nat
  /\ has_own "ffffff" before = false
  /\ member_truthy (records_get "ffffff" (aircraftRecordCache w)) = false
  /\ fst run = Ok Null
  /\ Object_keys after = (Object_keys before ++ ["ffffff"])%list
  /\ List.length after = 1001%nat.
Proof. vm_compute. repeat split; reflexivity. Qed.

(** ** RegionStore: scenarios *)

(** Latitude 91 is answered 400 and the region stays. *)
Example post_region_latitude_91 (P : Platform) (w : World) :
  post_region P
    (Ok (Obj [("center", Obj [("lat", Num 91); ("lon", Num 0)]); ("radiusMiles", Num 3)])) w
  = (Ok (bad_request "Invalid coordinates: lat must be -90 to 90, lon must be -180 to 180"), w).
Proof. reflexivity. Qed.

(** C3. A body with [radiusMiles = 0] is answered 200, and the region is
    replaced, with radius 3: the default [radiusMiles || 3] is taken before
    the range check can see the zero. *)
Theorem post_region_accepts_zero_radius (P : Platform) (w : World) :
  let body := Obj [("center", Obj [("lat", Num 40); ("lon", Num (-74))]);
                   ("radiusMiles", Num 0)] in
  let region := Obj [("center", Obj [("lat", Num 40); ("lon", Num (-74))]);
                     ("radiusMiles", Num 3)] in
  post_region P (Ok body) w
  = (Ok {| status := 200;
           body := RegionUpdated "Monitoring region updated successfully" region |},
     set_MONITORING_REGION region w)
  /\ fst (get_region (snd (post_region P (Ok body) w)))
     = Ok {| status := 200; body := RegionBody region |}.
Proof. split; reflexivity. Qed.

(** ** The map fallback: scenarios *)

(** A request that names no bounds is served the snapshot, which was taken
    for bounds of its own. *)
Lemma snapshot_served_without_bounds :
  spec_snapshot_served None Scenario.world_with_snapshot = false
  /\ forall (P : Platform) (C : Collaborators),
       fst (map_flights_for P C Scenario.env None false Scenario.world_with_snapshot)
       = Ok {| status := 200; body := FlightsBody [Scenario.card] None |}.
Proof. split; [reflexivity|]. intros P C. reflexivity. Qed.

Lemma map_flights_fallback_witness :
  (forall (P : Platform) (C : Collaborators),
     fst (map_flights_for P C Scenario.env (Some Scenario.bounds_nearby) false
            Scenario.world_with_snapshot)
     = Ok {| status := 200; body := FlightsBody [Scenario.card] None |})
  /\ (forall (P : Platform) (C : Collaborators),
        fst (map_flights_for P C Scenario.env (Some Scenario.bounds_far_north) false
               Scenario.world_with_snapshot)
        = Ok {| status := 200; body := FlightsBody [] None |}).
Proof.
  assert (Hcred : has_credentials Scenario.env) by (split; discriminate).
  assert (Hclosed : forall C,
    fetchOpenSkyData C (or_empty (OPENSKY_CLIENT_ID Scenario.env))
      (or_empty (OPENSKY_CLIENT_SECRET Scenario.env)) false Scenario.world_with_snapshot
    = (Ok None, Scenario.world_with_snapshot))
    by (intros C; apply fetchOpenSkyData_gate_closed; reflexivity).
  split; intros P C.
  - destruct (map_flights_fallback P C Scenario.env (Some Scenario.bounds_nearby) false
                _ _ Hcred (Hclosed C)) as (flights & Hrun & Hyes & _).
    rewrite Hrun. simpl. rewrite Hyes; [reflexivity|].
    split; [vm_compute; reflexivity|]. repeat split; reflexivity.
  - destruct (map_flights_fallback P C Scenario.env (Some Scenario.bounds_far_north) false
                _ _ Hcred (Hclosed C)) as (flights & Hrun & _ & Hno).
    rewrite Hrun. simpl. rewrite Hno; [reflexivity|].
    intros [_ [Hnorth _]]. vm_compute in Hnorth. discriminate.
Defined.

(** Two degrees away on any one edge, the answer is the empty list. *)
Example snapshot_not_served_two_degrees_away (P : Platform) (C : Collaborators) :
  let answer bounds :=
    fst (map_flights_for P C Scenario.env (Some bounds) false Scenario.world_with_snapshot) in
  let empty := Ok {| status := 200; body := FlightsBody [] None |} in
  answer {| north := 36; south := 33; east := -111; west := -112 |} = empty
  /\ answer {| north := 34; south := 31; east := -111; west := -112 |} = empty
  /\ answer {| north := 34; south := 33; east := -109; west := -112 |} = empty
  /\ answer {| north := 34; south := 33; east := -111; west := -114 |} = empty.
Proof. repeat split; reflexivity. Qed.

(** With the gate closed and nothing cached yet, the answer is 200 with an
    empty list. *)
Example no_snapshot_yet (P : Platform) (C : Collaborators) :
  fst (map_flights_for P C Scenario.env None false
         (set_lastApiCall Scenario.t0 (initial_world (Scenario.t0 + 1000))))
  = Ok {| status := 200; body := FlightsBody [] None |}.
Proof. reflexivity. Qed.

(** ** The scans: scenarios *)

(** An airborne report on the equator, inside the requested viewport, is
    not selected. *)
Example equator_report_not_selected (P : Platform) (C : Collaborators) (w : World) :
  let flight := [Str "a1b2c3"; Str "SWA1234 "; Str "United States"; Null; Null;
                 Num 15; Num 0; Num 3048; Bool false; Num 120; Num 270; Num 0] in
  let b := {| north := 10; south := -10; east := 20; west := 10 |} in
  isPointInBounds P (at_index flight 6) (at_index flight 5) (Some b) = Ok true
  /\ processMultipleFlights P C [flight] 50 (Some b) true w = (Ok [], w).
Proof. split; reflexivity. Qed.

(** * Further properties of the worker *)

(** ** What a fetch cycle can and cannot change *)

Section Frames.

Variable C : Collaborators.

(** A property of the world that requests, resumptions and assignments to
    the token cache keep is kept by [getAccessToken]. *)
Lemma getAccessToken_keeps (I : World -> Prop) (clientId clientSecret : string) (w : World) :
  (forall w ev t, I w -> I (await_io ev t w)) ->
  (forall w tc, I w -> I (set_tokenCache tc w)) ->
  I w -> I (snd (getAccessToken C clientId clientSecret w)).
Proof.
  intros Hio Htc Hw.
  unfold getAccessToken, fetch_token, clear_tokenCache, json_of,
    bind, try_catch, Date_now, read, modify, ret, throw, lift; simpl.
  destruct (truthy _ && _); simpl; auto.
  destruct (outcome (token_endpoint C (trace w) clientId clientSecret)) as [e|status [data|]];
    simpl; auto.
  - destruct (response_ok status); simpl; auto.
    destruct (get data "access_token") as [tok|e]; simpl; auto.
    destruct (truthy tok); simpl; auto.
  - destruct (response_ok status); simpl; auto.
Qed.

(** The same for a whole cycle, which besides may stamp the timestamp of its
    own category. *)
Lemma fetchOpenSkyData_keeps (I : World -> Prop) (clientId clientSecret : string)
    (isMapChange : bool) (w : World) :
  (forall w ev t, I w -> I (await_io ev t w)) ->
  (forall w tc, I w -> I (set_tokenCache tc w)) ->
  (forall w', I w' ->
     I ((if isMapChange then set_lastMapChangeApiCall (clock w)
         else set_lastApiCall (clock w)) w')) ->
  I w -> I (snd (fetchOpenSkyData C clientId clientSecret isMapChange w)).
Proof.
  intros Hio Htc Hstamp Hw.
  unfold fetchOpenSkyData, bind, try_catch, Date_now, read, ret; simpl.
  match goal with
  | |- context [if ?closed then _ else _] => destruct closed
  end; [exact Hw|].
  pose proof (getAccessToken_keeps I clientId clientSecret w Hio Htc Hw) as K.
  destruct (getAccessToken C clientId clientSecret w) as [[accessToken|e] w1];
    simpl in K |- *; [|exact K].
  rewrite fetch_states_run. destruct (unconvertible accessToken); simpl; [exact K|].
  pose proof (Hio w1 (StatesRequest accessToken)
                (settles (states_endpoint C (trace w1) accessToken)) K) as K1.
  destruct (outcome (states_endpoint C (trace w1) accessToken)) as [e|status json];
    simpl; [exact K1|].
  pose proof (Hstamp _ K1) as K2.
  unfold modify, json_of, throw, ret; simpl.
  destruct (response_ok status); simpl.
  { destruct json; simpl; destruct isMapChange; exact K2. }
  destruct (status =? 401); simpl; [|destruct isMapChange; exact K2].
  unfold clear_tokenCache, modify; simpl.
  assert (K3 : I (set_tokenCache {| TokenCache.token := Null; TokenCache.expiresAt := 0 |}
                    ((if isMapChange then set_lastMapChangeApiCall (clock w)
                      else set_lastApiCall (clock w))
                       (await_io (StatesRequest accessToken)
                          (settles (states_endpoint C (trace w1) accessToken)) w1))))
    by (apply Htc; exact K2).
  destruct isMapChange.
  all: match goal with
       | |- context [getAccessToken C ?id ?secret ?w2] =>
           pose proof (getAccessToken_keeps I id secret w2 Hio Htc K3) as K4;
           destruct (getAccessToken C id secret w2) as [[newToken|e2] w3];
           simpl in K4 |- *
       end; try exact K4.
  all: rewrite fetch_states_run; destruct (unconvertible newToken); simpl; try exact K4.
  all: match goal with
       | |- context [outcome (states_endpoint C ?tr ?tok)] =>
           pose proof (Hio w3 (StatesRequest tok) (settles (states_endpoint C tr tok)) K4)
             as K5;
           destruct (outcome (states_endpoint C tr tok)) as [e3|status3 json3]
       end; simpl; try exact K5.
  all: destruct (response_ok status3); simpl; [destruct json3; simpl|]; exact K5.
Qed.

End Frames.

(** ** RateLimiter and TokenBroker, over a whole cycle *)

Section CycleFacts.

Variable C : Collaborators.




(** X4. When [getAccessToken] fails, the token cache is left empty. *)
Theorem failed_grant_clears_the_token (clientId clientSecret : string) (w : World) (e : error) :
  fst (getAccessToken C clientId clientSecret w) = Throw e ->
  tokenCache (snd (getAccessToken C clientId clientSecret w))
  = {| TokenCache.token := Null; TokenCache.expiresAt := 0 |}.
Proof.
  unfold getAccessToken, fetch_token, clear_tokenCache, json_of,
    bind, try_catch, Date_now, read, modify, ret, throw, lift; simpl.
  destruct (truthy _ && _); simpl; [discriminate|].
  destruct (outcome (token_endpoint C (trace w) clientId clientSecret)) as [e'|status [data|]];
    simpl; auto.
  - destruct (response_ok status); simpl; auto.
    destruct (get data "access_token") as [tok|e']; simpl; auto.
    destruct (truthy tok); simpl; [discriminate|auto].
  - destruct (response_ok status); simpl; auto.
Qed.

(** A token obtained by a grant is truthy and is cached for thirty minutes
    from the call. *)
Lemma granted_token_is_cached (clientId clientSecret : string) (w : World) (tok : value) :
  token_usable w = false ->
  fst (getAccessToken C clientId clientSecret w) = Ok tok ->
  truthy tok = true
  /\ tokenCache (snd (getAccessToken C clientId clientSecret w))
     = {| TokenCache.token := tok; TokenCache.expiresAt := clock w + TOKEN_EXPIRY_TIME |}.
Proof.
  unfold token_usable. intros Hstale.
  unfold getAccessToken, fetch_token, clear_tokenCache, json_of,
    bind, try_catch, Date_now, read, modify, ret, throw, lift; simpl.
  rewrite Hstale.
  destruct (outcome (token_endpoint C (trace w) clientId clientSecret)) as [e'|status [data|]];
    simpl; try discriminate.
  - destruct (response_ok status); simpl; try discriminate.
    destruct (get data "access_token") as [tok'|e']; simpl; try discriminate.
    destruct (truthy tok') eqn:Ht; simpl; try discriminate.
    intros H. injection H as <-. auto.
  - destruct (response_ok status); simpl; discriminate.
Qed.

(** X5. A token obtained by a grant is cached with the time the call
    started plus thirty minutes as its expiry.  In every state whose token
    cache is still the one the grant left, and less than twenty-five minutes
    after that time, a call of [getAccessToken], with whatever credentials,
    returns that token, and nothing is sent or changed.  The state the grant
    leaves is such a state, whatever the clock moves to. *)
Theorem granted_token_is_reused (clientId clientSecret : string) (w : World) (tok : value) :
  token_usable w = false ->
  fst (getAccessToken C clientId clientSecret w) = Ok tok ->
  let granted := snd (getAccessToken C clientId clientSecret w) in
  tokenCache granted
  = {| TokenCache.token := tok; TokenCache.expiresAt := clock w + 30 * 60 * 1000 |}
  /\ (forall t, tokenCache (resume t granted) = tokenCache granted)
  /\ (forall (later : World) (clientId' clientSecret' : string),
        tokenCache later = tokenCache granted ->
        clock later < clock w + 25 * 60 * 1000 ->
        getAccessToken C clientId' clientSecret' later = (Ok tok, later)).
Proof.
  intros Hstale Hok granted.
  destruct (granted_token_is_cached clientId clientSecret w tok Hstale Hok) as [Htruthy Hcache].
  split; [exact Hcache|]. split; [reflexivity|].
  intros later clientId' clientSecret' Hsame Hage.
  assert (Husable : token_usable later = true).
  { unfold token_usable. rewrite Hsame. unfold granted. rewrite Hcache. simpl.
    rewrite Htruthy. simpl.
    unfold TOKEN_EXPIRY_TIME, TOKEN_EXPIRY_BUFFER. apply Z.gtb_lt. lia. }
  rewrite (getAccessToken_cached C clientId' clientSecret' later Husable).
  rewrite Hsame. unfold granted. rewrite Hcache. reflexivity.
Qed.




(** X2. A cycle changes no state but the token cache and the timestamp of its
    own category, which it leaves alone or sets to the time it started: the
    other category, the steady interval, the region and both caches are as
    before. *)
Theorem cycle_touches_only_its_own_timestamp (clientId clientSecret : string)
    (isMapChange : bool) (w : World) :
  let w' := snd (fetchOpenSkyData C clientId clientSecret isMapChange w) in
  last_call (negb isMapChange) w' = last_call (negb isMapChange) w
  /\ (last_call isMapChange w' = last_call isMapChange w
      \/ last_call isMapChange w' = clock w)
  /\ API_CALL_INTERVAL w' = API_CALL_INTERVAL w
  /\ MONITORING_REGION w' = MONITORING_REGION w
  /\ lastFlightsCache w' = lastFlightsCache w
  /\ aircraftRecordCache w' = aircraftRecordCache w.
Proof.
  simpl. repeat split.
  - apply (fetchOpenSkyData_keeps C
             (fun w' => last_call (negb isMapChange) w' = last_call (negb isMapChange) w));
      auto; intros; destruct isMapChange; assumption.
  - apply (fetchOpenSkyData_keeps C
             (fun w' => last_call isMapChange w' = last_call isMapChange w
                        \/ last_call isMapChange w' = clock w));
      auto; intros; destruct isMapChange; auto.
  - apply (fetchOpenSkyData_keeps C (fun w' => API_CALL_INTERVAL w' = API_CALL_INTERVAL w));
      auto; intros; destruct isMapChange; assumption.
  - apply (fetchOpenSkyData_keeps C (fun w' => MONITORING_REGION w' = MONITORING_REGION w));
      auto; intros; destruct isMapChange; assumption.
  - apply (fetchOpenSkyData_keeps C (fun w' => lastFlightsCache w' = lastFlightsCache w));
      auto; intros; destruct isMapChange; assumption.
  - apply (fetchOpenSkyData_keeps C (fun w' => aircraftRecordCache w' = aircraftRecordCache w));
      auto; intros; destruct isMapChange; assumption.
Qed.

(** X3. Once a cycle's request to the feed was answered, whatever the status,
    the category stays closed until a full interval has passed since that
    cycle started: a call before then is skipped without sending anything,
    and from then on the gate is open again. *)
Theorem answered_cycle_closes_gate_for_interval (clientId clientSecret : string)
    (isMapChange : bool) (w : World) (status : Z) (json : option StatesBody) (t : Z) :
  gate_open isMapChange w = true ->
  first_answer C clientId clientSecret w = Some (Response status json) ->
  let later := resume t (snd (fetchOpenSkyData C clientId clientSecret isMapChange w)) in
  let interval := if isMapChange then 3000 else API_CALL_INTERVAL w in
  (t - clock w < interval ->
   fetchOpenSkyData C clientId clientSecret isMapChange later = (Ok None, later))
  /\ (interval <= t - clock w -> gate_open isMapChange later = true).
Proof.
  intros Hopen Hanswer later interval.
  assert (Hstamp : last_call isMapChange
                     (snd (fetchOpenSkyData C clientId clientSecret isMapChange w))
                   = clock w).
  { unfold first_answer in Hanswer.
    destruct (getAccessToken C clientId clientSecret w) as [[accessToken|e] w1] eqn:Htok;
      [|discriminate].
    destruct (unconvertible accessToken) eqn:Hconv; [discriminate|].
    injection Hanswer as Hout.
    exact (fetchOpenSkyData_response_closes_gate C clientId clientSecret isMapChange
             w w1 accessToken status json Hopen Htok Hconv Hout). }
  assert (Hint : API_CALL_INTERVAL (snd (fetchOpenSkyData C clientId clientSecret isMapChange w))
                 = API_CALL_INTERVAL w).
  { apply (fetchOpenSkyData_keeps C (fun w' => API_CALL_INTERVAL w' = API_CALL_INTERVAL w));
      auto; intros; destruct isMapChange; assumption. }
  assert (Hgate : gate_open isMapChange later = negb (t - clock w <? interval)).
  { unfold gate_open, later, interval, last_call in *. simpl.
    destruct isMapChange; simpl in *; rewrite Hstamp; try rewrite Hint; reflexivity. }
  split.
  - intros Hlt. apply fetchOpenSkyData_gate_closed. rewrite Hgate.
    apply negb_false_iff, Z.ltb_lt. exact Hlt.
  - intros Hge. rewrite Hgate. apply negb_true_iff, Z.ltb_ge. exact Hge.
Qed.

End CycleFacts.

(** ** AircraftRecordCache, over repeated lookups *)

Section MapFacts.

Context {V : Type}.

Lemma obj_get_replace (k : string) (v : V) (obj : list (string * V)) :
  has_own k obj = true -> obj_get k (obj_replace k v obj) = Some v.
Proof.
  unfold has_own. induction obj as [|[k' v'] obj IH]; simpl; [discriminate|].
  destruct (String.eqb k k') eqn:E; simpl; rewrite E; auto.
Qed.

Lemma obj_get_insert_index (n : N) (k : string) (v : V) (obj : list (string * V)) :
  has_own k obj = false -> obj_get k (obj_insert_index n k v obj) = Some v.
Proof.
  unfold has_own. induction obj as [|[k' v'] obj IH]; simpl.
  - rewrite String.eqb_refl. reflexivity.
  - destruct (String.eqb k k') eqn:E; [discriminate|]. intros H.
    destruct (array_index k') as [n'|]; simpl.
    + destruct (n' <? n)%N; simpl; [rewrite E; auto|rewrite String.eqb_refl; reflexivity].
    + rewrite String.eqb_refl. reflexivity.
Qed.

Lemma obj_get_app_new (k : string) (v : V) (obj : list (string * V)) :
  has_own k obj = false -> obj_get k (obj ++ [(k, v)])%list = Some v.
Proof.
  unfold has_own. induction obj as [|[k' v'] obj IH]; simpl.
  - rewrite String.eqb_refl. reflexivity.
  - destruct (String.eqb k k'); [discriminate|auto].
Qed.

(** Reading back what was assigned. *)
Lemma obj_get_set (k : string) (v : V) (obj : list (string * V)) :
  obj_get k (obj_set k v obj) = Some v.
Proof.
  unfold obj_set. destruct (obj_get k obj) eqn:Hget.
  - apply obj_get_replace. unfold has_own. rewrite Hget. reflexivity.
  - assert (Hnew : has_own k obj = false) by (unfold has_own; rewrite Hget; reflexivity).
    destruct (array_index k); [apply obj_get_insert_index|apply obj_get_app_new]; exact Hnew.
Qed.

Lemma delete_all_NoDup (victims : list (string * Z)) :
  forall obj : list (string * V),
    NoDup (Object_keys obj) ->
    NoDup (Object_keys (fold_left (fun recs kt => obj_delete (fst kt) recs) victims obj)).
Proof.
  induction victims as [|v victims IH]; simpl; intros obj Hnd; [exact Hnd|].
  apply IH, obj_delete_NoDup, Hnd.
Qed.

End MapFacts.

Lemma lower_ascii_idempotent (c : ascii) : lower_ascii (lower_ascii c) = lower_ascii c.
Proof.
  destruct c as [[] [] [] [] [] [] [] []]; reflexivity.
Qed.

Lemma toLowerCase_idempotent (s : string) : toLowerCase (toLowerCase s) = toLowerCase s.
Proof.
  induction s as [|c s IH]; simpl; [reflexivity|].
  rewrite lower_ascii_idempotent, IH. reflexivity.
Qed.

Lemma toLowerCase_empty (s : string) : String.eqb (toLowerCase s) "" = String.eqb s "".
Proof.
  destruct s; reflexivity.
Qed.

Section LookupFacts.

Variable P : Platform.
Variable C : Collaborators.

(** What the cache answers with is a value, unless the member is an
    inherited [data] whose [timestamp] does not convert: then the
    subtraction throws. *)
Lemma cached_answer_outcome (now : Z) (cached : Member) (r : result value) :
  cached_answer P now cached = Some r ->
  (exists v, r = Ok v)
  \/ (exists e v timestamp,
        r = Throw e /\ cached = InheritedData v /\ truthy v = true
        /\ get v "timestamp" = Ok timestamp /\ unconvertible timestamp = true).
Proof.
  destruct cached as [e|v|t| |]; simpl; try discriminate.
  - destruct (now - CacheEntry.timestamp e <? AIRCRAFT_RECORD_CACHE_MAX_AGE); [|discriminate].
    intros H. injection H as <-. eauto.
  - destruct (truthy v) eqn:Hv; [|discriminate].
    destruct (get_truthy v "timestamp" Hv) as [ts Hts]. rewrite Hts. simpl.
    destruct (get_truthy v "data" Hv) as [d Hd]. rewrite Hd.
    unfold ToPrimitive. destruct (unconvertible ts) eqn:Hconv.
    + intros H. injection H as <-. right. eauto 10.
    + match goal with |- context [if ?c then _ else _] => destruct c end; [|discriminate].
      intros H. injection H as <-. eauto.
Qed.

Lemma cached_answer_throws (now : Z) (v timestamp : value) :
  truthy v = true -> get v "timestamp" = Ok timestamp -> unconvertible timestamp = true ->
  cached_answer P now (InheritedData v)
  = Some (Throw (TypeError "Cannot convert object to primitive value")).
Proof.
  intros Hv Hts Hconv. simpl. rewrite Hv, Hts. simpl.
  unfold ToPrimitive. rewrite Hconv. reflexivity.
Qed.

(** After [records[k] = e], [records[k]] is [e]. *)
Lemma assign_record_remembered (k : string) (e : CacheEntry.t) (w : World) :
  remembered k e (snd (assign_record k e w)).
Proof.
  unfold remembered, assign_record, bind, read, modify. simpl.
  destruct (sets_prototype k (aircraftRecordCache w)) eqn:Hp; simpl.
  - unfold sets_prototype in Hp. apply andb_true_iff in Hp. destruct Hp as [Hk Hown].
    apply String.eqb_eq in Hk. subst k.
    unfold records_get. simpl. unfold has_own in Hown.
    destruct (obj_get "__proto__" (AircraftRecordCache.records (aircraftRecordCache w)));
      [discriminate|reflexivity].
  - unfold records_get. simpl. rewrite obj_get_set. reflexivity.
Qed.

Lemma assign_record_run (k : string) (e : CacheEntry.t) (w : World) :
  assign_record k e w
  = (Ok tt,
     if sets_prototype k (aircraftRecordCache w)
     then set_prototype (Some e) w
     else set_records (obj_set k e (AircraftRecordCache.records (aircraftRecordCache w))) w).
Proof.
  unfold assign_record, bind, read, modify. simpl.
  destruct (sets_prototype k (aircraftRecordCache w)); reflexivity.
Qed.

(** A property of the world that requests, resumptions and assignments to
    the record cache keep is kept by a lookup. *)
Lemma getAircraftInfoOnDemand_keeps (I : World -> Prop) (r2Bucket : bool) (icao24 : value)
    (w : World) :
  (forall w ev, I w -> I (send ev w)) ->
  (forall w t, I w -> I (resume t w)) ->
  (forall w recs, I w -> I (set_records recs w)) ->
  (forall w e, I w -> I (set_prototype e w)) ->
  I w -> I (snd (getAircraftInfoOnDemand P C r2Bucket icao24 w)).
Proof.
  intros Hsend Hresume Hrecs Hproto Hw.
  unfold getAircraftInfoOnDemand, lookup_start.
  destruct (negb r2Bucket || negb (truthy icao24))%bool; [exact Hw|].
  destruct (js_toLowerCase icao24) as [k|e]; [|exact Hw].
  destruct (cached_answer P (clock w) (records_get k (aircraftRecordCache w))) as [r|];
    [exact Hw|].
  unfold lookup_finish, bind, modify, read, ret. simpl.
  match goal with
  | |- context [outcome ?a] => destruct (outcome a) as [e| |[info|e]]
  end; simpl; auto;
    match goal with
    | |- context [assign_record ?k ?e ?w0] => rewrite (assign_record_run k e w0)
    end; simpl;
    match goal with |- context [sets_prototype ?k ?c] => destruct (sets_prototype k c) end;
    simpl; auto.
Qed.

(** On a miss, the lookup asks the store once and goes on from its answer. *)
Lemma getAircraftInfoOnDemand_miss (icao24 : string) (w : World) :
  icao24 <> "" ->
  cache_miss P (toLowerCase icao24) w ->
  getAircraftInfoOnDemand P C true (Str icao24) w
  = lookup_finish (toLowerCase icao24) (clock w)
      (store_get C (trace w) ("aircraft/" ++ toLowerCase icao24 ++ ".json"))
      (send (StoreGet ("aircraft/" ++ toLowerCase icao24 ++ ".json")) w).
Proof.
  intros Hne Hmiss. unfold getAircraftInfoOnDemand, lookup_start. simpl.
  destruct (String.eqb_spec icao24 ""); [contradiction|]. simpl.
  unfold cache_miss in Hmiss. rewrite Hmiss. reflexivity.
Qed.

(** While [records[k]] is an entry younger than an hour, a lookup of [k],
    in whatever letter case, is answered with the entry's data and changes
    nothing. *)
Lemma remembered_is_served (again : string) (e : CacheEntry.t) (w : World) :
  again <> "" ->
  remembered (toLowerCase again) e w ->
  clock w - CacheEntry.timestamp e < 60 * 60 * 1000 ->
  getAircraftInfoOnDemand P C true (Str again) w = (Ok (CacheEntry.data e), w).
Proof.
  intros Hne Hentry Hage. unfold getAircraftInfoOnDemand, lookup_start. simpl.
  destruct (String.eqb_spec again ""); [contradiction|]. simpl.
  unfold remembered in Hentry. rewrite Hentry. simpl.
  unfold AIRCRAFT_RECORD_CACHE_MAX_AGE.
  destruct (Z.ltb_spec (clock w - CacheEntry.timestamp e) (60 * 60 * 1000));
    [reflexivity|lia].
Qed.

(** X6. What a lookup learned from the store, a record or the absence of
    one, is returned and stored as the entry of the address, stamped with
    the time the lookup started.  In every state in which that entry is
    still what the cache holds for the address, and less than an hour after
    that time, a lookup of the address, in whatever letter case, is answered
    with it, and nothing is sent or changed.  The state the lookup leaves is
    such a state, whatever the clock moves to. *)
Theorem lookup_is_remembered_for_an_hour (icao24 again : string) (data : value)
    (w : World) :
  icao24 <> "" ->
  cache_miss P (toLowerCase icao24) w ->
  cacheable (outcome (store_get C (trace w) ("aircraft/" ++ toLowerCase icao24 ++ ".json")))
  = Some data ->
  toLowerCase again = toLowerCase icao24 ->
  let first := getAircraftInfoOnDemand P C true (Str icao24) w in
  let entry := {| CacheEntry.data := data; CacheEntry.timestamp := clock w |} in
  fst first = Ok data
  /\ (forall t, remembered (toLowerCase icao24) entry (resume t (snd first)))
  /\ (forall later : World,
        remembered (toLowerCase icao24) entry later ->
        clock later - clock w < 60 * 60 * 1000 ->
        getAircraftInfoOnDemand P C true (Str again) later = (Ok data, later)).
Proof.
  intros Hne Hmiss Hdata Hsame first entry.
  assert (Hfirst : fst first = Ok data /\ remembered (toLowerCase icao24) entry (snd first)).
  { unfold first. rewrite (getAircraftInfoOnDemand_miss icao24 w Hne Hmiss).
    remember (store_get C (trace w) ("aircraft/" ++ toLowerCase icao24 ++ ".json"))
      as answer eqn:Hanswer.
    clear Hanswer. unfold lookup_finish, bind, modify, read, ret. simpl.
    destruct (outcome answer) as [e| |[info|e]]; simpl in Hdata |- *; try discriminate;
      injection Hdata as <-;
      match goal with
      | |- context [assign_record ?k ?e ?w0] =>
          pose proof (assign_record_remembered k e w0) as Hrem;
          rewrite (assign_record_run k e w0) in Hrem |- *
      end; simpl in *; split; [reflexivity|exact Hrem|reflexivity|exact Hrem]. }
  destruct Hfirst as [Hres Hentry]. split; [exact Hres|].
  split; [intros t; exact Hentry|].
  intros later Hlater Hage.
  assert (Hagain : again <> "").
  { intros ->. simpl in Hsame. destruct icao24; [contradiction|discriminate]. }
  rewrite <- Hsame in Hlater.
  apply (remembered_is_served again entry later Hagain Hlater). exact Hage.
Qed.

(** X7. When the store or the parse fails, the lookup answers [null] and caches
    nothing, so that the next lookup asks again. *)
Theorem failed_lookup_is_not_cached (icao24 : string) (w : World) :
  icao24 <> "" ->
  cache_miss P (toLowerCase icao24) w ->
  cacheable (outcome (store_get C (trace w) ("aircraft/" ++ toLowerCase icao24 ++ ".json")))
  = None ->
  let run := getAircraftInfoOnDemand P C true (Str icao24) w in
  fst run = Ok Null
  /\ aircraftRecordCache (snd run) = aircraftRecordCache w
  /\ trace (snd run) = StoreGet ("aircraft/" ++ toLowerCase icao24 ++ ".json") :: trace w.
Proof.
  intros Hne Hmiss Hdata run. unfold run.
  rewrite (getAircraftInfoOnDemand_miss icao24 w Hne Hmiss).
  remember (store_get C (trace w) ("aircraft/" ++ toLowerCase icao24 ++ ".json"))
    as answer eqn:Hanswer.
  clear Hanswer. unfold lookup_finish, bind, modify, read, ret. simpl.
  destruct (outcome answer) as [e| |[info|e]]; simpl in Hdata |- *; try discriminate;
    repeat split.
Qed.

(** Once the store has answered, a lookup returns. *)
Lemma lookup_finish_returns (k : string) (now : Z) (answer : Settled StoreResult)
    (w : World) :
  exists v, fst (lookup_finish k now answer w) = Ok v.
Proof.
  unfold lookup_finish, bind, modify, read, ret. simpl.
  destruct (outcome answer) as [e| |[info|e]]; simpl; eauto;
    match goal with
    | |- context [assign_record ?k ?e ?w0] => rewrite (assign_record_run k e w0)
    end; simpl; eauto.
Qed.

(** With a bucket, the lookup of a string throws exactly when the test on
    the cached member does. *)
Lemma lookup_of_string_throws (s : string) (w : World) :
  (exists e, fst (getAircraftInfoOnDemand P C true (Str s) w) = Throw e)
  <-> s <> ""
      /\ exists e, cached_answer P (clock w)
                     (records_get (toLowerCase s) (aircraftRecordCache w))
                   = Some (Throw e).
Proof.
  unfold getAircraftInfoOnDemand, lookup_start. simpl.
  destruct (String.eqb_spec s "") as [->|Hne]; simpl.
  { split; [intros [e H]; discriminate|intros [H _]; contradiction]. }
  destruct (cached_answer P (clock w) (records_get (toLowerCase s) (aircraftRecordCache w)))
    as [r|]; simpl.
  - split.
    + intros [e ->]. split; [exact Hne|eauto].
    + intros [_ [e H]]. injection H as ->. eauto.
  - split.
    + intros [e H]. exfalso.
      match goal with
      | H : fst (lookup_finish ?k ?now ?a ?w0) = Throw _ |- _ =>
          destruct (lookup_finish_returns k now a w0) as [v Hv]; congruence
      end.
    + intros [_ [e H]]. discriminate.
Qed.

(** X8. A lookup throws for an address that is truthy and not a string, when
    there is a bucket.  For a string it throws only in one case: the cache
    object inherits a truthy member under the address from an entry that an
    assignment to [__proto__] made its prototype, and the [timestamp] of
    that member does not convert to a primitive.  While the prototype of
    the cache object is [Object.prototype], a lookup throws only for an
    address that is not a string.  Without a bucket, or for a falsy address,
    it answers [null] and touches nothing. *)
Theorem lookup_guards (r2Bucket : bool) (icao24 : value) (w : World) :
  let run := getAircraftInfoOnDemand P C r2Bucket icao24 w in
  ((exists e, fst run = Throw e) <->
   r2Bucket = true /\ truthy icao24 = true
   /\ ((forall s, icao24 <> Str s)
       \/ exists s v timestamp,
            icao24 = Str s
            /\ records_get (toLowerCase s) (aircraftRecordCache w) = InheritedData v
            /\ truthy v = true
            /\ get v "timestamp" = Ok timestamp
            /\ unconvertible timestamp = true))
  /\ (AircraftRecordCache.prototype (aircraftRecordCache w) = None ->
      ((exists e, fst run = Throw e) <->
       r2Bucket = true /\ truthy icao24 = true /\ forall s, icao24 <> Str s))
  /\ (r2Bucket = false \/ truthy icao24 = false -> run = (Ok Null, w)).
Proof.
  simpl.
  assert (Hskip : r2Bucket = false \/ truthy icao24 = false ->
                  getAircraftInfoOnDemand P C r2Bucket icao24 w = (Ok Null, w)).
  { unfold getAircraftInfoOnDemand, lookup_start.
    intros [-> | ->]; simpl; [reflexivity|]. rewrite orb_true_r. reflexivity. }
  assert (Hiff : (exists e, fst (getAircraftInfoOnDemand P C r2Bucket icao24 w) = Throw e) <->
                 r2Bucket = true /\ truthy icao24 = true
                 /\ ((forall s, icao24 <> Str s)
                     \/ exists s v timestamp,
                          icao24 = Str s
                          /\ records_get (toLowerCase s) (aircraftRecordCache w)
                             = InheritedData v
                          /\ truthy v = true
                          /\ get v "timestamp" = Ok timestamp
                          /\ unconvertible timestamp = true)).
  { destruct r2Bucket.
    2:{ rewrite (Hskip (or_introl eq_refl)).
        split; [intros [e H]; discriminate|intros [H _]; discriminate]. }
    destruct (truthy icao24) eqn:Htruthy.
    2:{ rewrite (Hskip (or_intror eq_refl)).
        split; [intros [e H]; discriminate|intros (_ & H & _); discriminate]. }
    destruct icao24 as [| |b|x|s|fs]; simpl in Htruthy; try discriminate.
    - split.
      + intros _. split; [reflexivity|]. split; [reflexivity|]. left. intros s. discriminate.
      + intros _. unfold getAircraftInfoOnDemand, lookup_start. simpl. rewrite Htruthy.
        simpl. eauto.
    - split.
      + intros _. split; [reflexivity|]. split; [reflexivity|]. left. intros s. discriminate.
      + intros _. unfold getAircraftInfoOnDemand, lookup_start. simpl. rewrite Htruthy.
        simpl. eauto.
    - rewrite lookup_of_string_throws. split.
      + intros [Hne [e Hthrow]]. split; [reflexivity|]. split; [reflexivity|]. right.
        destruct (cached_answer_outcome _ _ _ Hthrow)
          as [[v Hv]|(e' & v & ts & _ & Hm & Hv & Hts & Hconv)]; [discriminate|].
        exists s, v, ts. auto.
      + intros (_ & _ & [Hnot|(s' & v & ts & Hs & Hm & Hv & Hts & Hconv)]).
        * exfalso. apply (Hnot s). reflexivity.
        * injection Hs as <-.
          split; [intros ->; discriminate|].
          rewrite Hm. rewrite (cached_answer_throws _ v ts Hv Hts Hconv). eauto.
    - split.
      + intros _. split; [reflexivity|]. split; [reflexivity|]. left. intros s. discriminate.
      + intros _. unfold getAircraftInfoOnDemand, lookup_start. simpl. eauto. }
  split; [exact Hiff|]. split; [|exact Hskip].
  intros Hproto. rewrite Hiff. split.
  - intros (Hb & Ht & [Hnot|(s & v & ts & _ & Hm & _)]); [auto|].
    exfalso. unfold records_get in Hm. rewrite Hproto in Hm.
    destruct (obj_get (toLowerCase s) (AircraftRecordCache.records (aircraftRecordCache w)));
      [discriminate|].
    destruct (is_Object_prototype_name (toLowerCase s)); discriminate.
  - intros (Hb & Ht & Hnot). auto.
Qed.

(** X9. The letter case of the address makes no difference to a lookup. *)
Theorem lookup_ignores_letter_case (r2Bucket : bool) (icao24 : string) (w : World) :
  getAircraftInfoOnDemand P C r2Bucket (Str icao24) w
  = getAircraftInfoOnDemand P C r2Bucket (Str (toLowerCase icao24)) w.
Proof.
  unfold getAircraftInfoOnDemand, lookup_start. simpl.
  rewrite toLowerCase_empty, toLowerCase_idempotent. reflexivity.
Qed.

(** X10. A lookup keeps the keys of the record cache distinct. *)
Theorem lookup_keeps_keys_distinct (r2Bucket : bool) (icao24 : value) (w : World) :
  NoDup (cached_keys w) ->
  NoDup (cached_keys (snd (getAircraftInfoOnDemand P C r2Bucket icao24 w))).
Proof.
  intros Hnd. unfold cached_keys in *.
  unfold getAircraftInfoOnDemand, lookup_start.
  destruct (negb r2Bucket || negb (truthy icao24))%bool; [exact Hnd|].
  destruct (js_toLowerCase icao24) as [k|e]; [|exact Hnd].
  destruct (cached_answer P (clock w) (records_get k (aircraftRecordCache w))) as [r|];
    [exact Hnd|].
  unfold lookup_finish, bind, modify, read, ret. simpl.
  match goal with
  | |- context [outcome ?a] => destruct (outcome a) as [e| |[info|e]]
  end; simpl; auto;
    match goal with
    | |- context [assign_record ?k ?e ?w0] => rewrite (assign_record_run k e w0)
    end; simpl;
    match goal with |- context [sets_prototype ?k ?c] => destruct (sets_prototype k c) end;
    simpl.
  - exact Hnd.
  - apply obj_set_NoDup, Hnd.
  - unfold evict_oldest.
    match goal with
    | |- context [if ?c then _ else _] => destruct c
    end; [apply delete_all_NoDup|]; exact Hnd.
  - apply obj_set_NoDup. unfold evict_oldest.
    match goal with
    | |- context [if ?c then _ else _] => destruct c
    end; [apply delete_all_NoDup|]; exact Hnd.
Qed.

End LookupFacts.

(** ** The scans, report by report *)

Lemma enrich_keeps_card (aircraftInfo : value) (f f' : Flight) (flight : Report) :
  enrich aircraftInfo f = Ok f' ->
  (card_of_report f flight -> card_of_report f' flight) /\ inRegion f' = inRegion f.
Proof.
  unfold enrich, card_of_report. destruct (truthy aircraftInfo).
  - unfold assign_if.
    repeat match goal with
           | |- context [get aircraftInfo ?k] => destruct (get aircraftInfo k); simpl
           end; intros H; try discriminate; injection H as <-; simpl; auto.
  - intros H. injection H as <-. auto.
Qed.

Lemma enrich_all_length (infoMap : list (string * value)) (cards : list Flight) :
  forall cards', enrich_all infoMap cards = Ok cards' -> List.length cards' = List.length cards.
Proof.
  induction cards as [|card rest IH]; simpl; intros cards' H.
  - injection H as <-. reflexivity.
  - destruct (info_for infoMap (icao24 card)) as [info|e]; simpl in H; [|discriminate].
    destruct (enrich info card) as [card'|e]; simpl in H; [|discriminate].
    destruct (enrich_all infoMap rest) as [rest'|e]; simpl in H; [|discriminate].
    injection H as <-. simpl. rewrite (IH rest' eq_refl). reflexivity.
Qed.

Section ScanOrderFacts.

Variable P : Platform.
Variable C : Collaborators.

Ltac scan_step := unfold bind, read, lift, ret; simpl.

(** X12. Both scans pass over reports that are on the ground. *)
Theorem on_ground_reports_are_skipped (flights : list Report) (r2Bucket : bool)
    (maxFlights : nat) (bounds : option Bounds) (w : World) :
  let airborne := filter (fun flight => negb (on_ground flight)) flights in
  processFlights P C flights r2Bucket w = processFlights P C airborne r2Bucket w
  /\ processMultipleFlights P C flights maxFlights bounds r2Bucket w
     = processMultipleFlights P C airborne maxFlights bounds r2Bucket w.
Proof.
  simpl. unfold on_ground.
  assert (Hloop : forall l w,
            processFlights_loop P C r2Bucket
              (filter (fun flight => negb (is_true (at_index flight 8))) l) w
            = processFlights_loop P C r2Bucket l w).
  { induction l as [|flight rest IH]; intros w0; [reflexivity|].
    simpl. destruct (is_true (at_index flight 8)) eqn:Hg; simpl; [apply IH|].
    rewrite Hg.
    destruct (truthy (at_index flight 6) && truthy (at_index flight 5))%bool; [|apply IH].
    scan_step.
    destruct (isPointInRegion P (at_index flight 6) (at_index flight 5) (MONITORING_REGION w0))
      as [[|]|e]; simpl; auto. }
  assert (Hcollect : forall l acc lookups w,
            collect P maxFlights bounds r2Bucket
              (filter (fun flight => negb (is_true (at_index flight 8))) l) acc lookups w
            = collect P maxFlights bounds r2Bucket l acc lookups w).
  { induction l as [|flight rest IH]; intros acc lookups w0; [reflexivity|].
    simpl. destruct (is_true (at_index flight 8)) eqn:Hg; simpl; [apply IH|].
    rewrite Hg.
    destruct (truthy (at_index flight 6) && truthy (at_index flight 5))%bool; [|apply IH].
    scan_step.
    destruct (isPointInRegion P (at_index flight 6) (at_index flight 5) (MONITORING_REGION w0))
      as [inRegion|e]; simpl; [|reflexivity].
    destruct (match bounds with
              | Some _ => isPointInBounds P (at_index flight 6) (at_index flight 5) bounds
              | None => Ok inRegion
              end) as [[|]|e']; simpl; [|apply IH|reflexivity].
    destruct (getAirportInfo (at_index flight 0) (at_index flight 1)) as [airportInfo|e];
      simpl; [|reflexivity].
    match goal with
    | |- context [if Nat.leb ?a ?b then _ else _] => destruct (Nat.leb a b)
    end; [reflexivity|apply IH]. }
  split.
  - transitivity (processFlights_loop P C r2Bucket flights w);
      [destruct flights; reflexivity|].
    rewrite <- Hloop.
    destruct (filter (fun flight => negb (is_true (at_index flight 8))) flights); reflexivity.
  - assert (Hmulti : forall l,
      processMultipleFlights P C l maxFlights bounds r2Bucket w
      = (selected <- collect P maxFlights bounds r2Bucket l [] [] ;;
         if (r2Bucket && Nat.ltb 0 (List.length (snd selected)))%bool then
           lookupResults <- Promise_all_lookups P C r2Bucket (snd selected) ;;
           infoMap <- lift (infoMap_of lookupResults) ;;
           lift (enrich_all infoMap (fst selected))
         else ret (fst selected))%async w).
    { intros [|? ?]; [|reflexivity]. unfold bind, ret. simpl.
      rewrite andb_false_r. reflexivity. }
    rewrite !Hmulti. unfold bind. rewrite Hcollect. reflexivity.
Qed.

(** With a center whose coordinates convert, the circle test returns. *)
Lemma isPointInRegion_returns (latitude longitude region : value) :
  center_converts region ->
  exists b, isPointInRegion P latitude longitude region = Ok b.
Proof.
  intros Hconv. unfold isPointInRegion.
  destruct (truthy region) eqn:Hregion; simpl; [|eauto].
  destruct (get_truthy region "center" Hregion) as [center Hc].
  destruct (get_truthy region "radiusMiles" Hregion) as [rad Hr].
  rewrite Hc; simpl.
  destruct (truthy center) eqn:Hcenter; simpl; [|eauto].
  rewrite Hr; simpl.
  destruct (get_truthy center "lat" Hcenter) as [clat Hlat].
  destruct (get_truthy center "lon" Hcenter) as [clon Hlon].
  destruct (typeof_number rad); simpl; [|eauto].
  destruct (typeof_number latitude) eqn:Hla; simpl; [|eauto].
  destruct (typeof_number longitude) eqn:Hlo; simpl; [|eauto].
  match goal with |- context [if ?c then _ else _] => destruct c end; [eauto|].
  rewrite Hlat; simpl. rewrite Hlon; simpl.
  destruct (Hconv center clat clon Hc Hlat Hlon) as [H1 H2].
  destruct latitude; try discriminate. destruct longitude; try discriminate.
  unfold calculateDistance, ToPrimitive. simpl. rewrite H1, H2. simpl. eauto.
Qed.

Lemma processFlights_loop_first_match (r2Bucket : bool) (flights : list Report) :
  forall (w w' : World) (card : Flight),
    processFlights_loop P C r2Bucket flights w = (Ok (Some card), w') ->
    exists before flight after,
      flights = (before ++ flight :: after)%list
      /\ Forall (fun r => passed_over P (MONITORING_REGION w) r = true) before
      /\ in_region_candidate P (MONITORING_REGION w) flight = true
      /\ card_of_report card flight
      /\ inRegion card = true.
Proof.
  induction flights as [|flight rest IH]; intros w w' card; simpl.
  - unfold ret. intros H. discriminate.
  - assert (Hskip : passed_over P (MONITORING_REGION w) flight = true ->
              processFlights_loop P C r2Bucket rest w = (Ok (Some card), w') ->
              exists before flight0 after,
                flight :: rest = (before ++ flight0 :: after)%list
                /\ Forall (fun r => passed_over P (MONITORING_REGION w) r = true) before
                /\ in_region_candidate P (MONITORING_REGION w) flight0 = true
                /\ card_of_report card flight0
                /\ inRegion card = true).
    { intros Hno Hrest.
      destruct (IH w w' card Hrest) as (before & f0 & after & -> & Hb & Hc & Hcard & Hin).
      exists (flight :: before), f0, after.
      split; [reflexivity|]. split; [constructor; assumption|]. auto. }
    unfold passed_over in Hskip.
    destruct (is_true (at_index flight 8)) eqn:Hg; [apply Hskip; reflexivity|].
    destruct (truthy (at_index flight 6) && truthy (at_index flight 5))%bool eqn:Hpos;
      [|apply Hskip; reflexivity].
    scan_step.
    destruct (isPointInRegion P (at_index flight 6) (at_index flight 5) (MONITORING_REGION w))
      as [[|]|e] eqn:Hreg; simpl;
      [|apply Hskip; reflexivity|discriminate].
    destruct (getAirportInfo (at_index flight 0) (at_index flight 1)) as [airportInfo|e];
      simpl; [|discriminate].
    match goal with
    | |- context [match ?m w with _ => _ end] => destruct (m w) as [[aircraftInfo|e] w1]
    end; simpl; [|discriminate].
    destruct (enrich aircraftInfo (flightData flight airportInfo true)) as [card'|e] eqn:He;
      simpl; [|discriminate].
    intros H. injection H as <- _.
    destruct (enrich_keeps_card _ _ _ flight He) as [Hcard Hin].
    exists [], flight, rest. split; [reflexivity|]. split; [constructor|].
    split; [unfold in_region_candidate; rewrite Hg, Hreg; simpl; rewrite Hpos; reflexivity|].
    split; [apply Hcard; unfold card_of_report; simpl; repeat split|].
    rewrite Hin. reflexivity.
Qed.

Lemma processFlights_loop_no_match (r2Bucket : bool) (flights : list Report) (w : World) :
  Forall (fun r => passed_over P (MONITORING_REGION w) r = true) flights <->
  processFlights_loop P C r2Bucket flights w = (Ok None, w).
Proof.
  induction flights as [|flight rest IH]; simpl; [split; [reflexivity|constructor]|].
  assert (Hcons : passed_over P (MONITORING_REGION w) flight = true ->
            (Forall (fun r => passed_over P (MONITORING_REGION w) r = true) (flight :: rest)
             <-> processFlights_loop P C r2Bucket rest w = (Ok None, w))).
  { intros Hover. rewrite <- IH. split.
    - intros H. inversion H; assumption.
    - intros H. constructor; assumption. }
  assert (Hstop : passed_over P (MONITORING_REGION w) flight = false ->
            ~ Forall (fun r => passed_over P (MONITORING_REGION w) r = true) (flight :: rest)).
  { intros Hover H. inversion H as [|? ? Hhead _]. congruence. }
  unfold passed_over in Hcons, Hstop.
  destruct (is_true (at_index flight 8)); [apply Hcons; reflexivity|].
  destruct (truthy (at_index flight 6) && truthy (at_index flight 5))%bool eqn:Hpos;
    [|apply Hcons; reflexivity].
  scan_step.
  destruct (isPointInRegion P (at_index flight 6) (at_index flight 5) (MONITORING_REGION w))
    as [[|]|e] eqn:Hreg; simpl; [| apply Hcons; reflexivity |].
  - split.
    + intros H. exfalso. exact (Hstop eq_refl H).
    + intros H. exfalso.
      destruct (getAirportInfo (at_index flight 0) (at_index flight 1)) as [airportInfo|e];
        simpl in H; [|discriminate].
      match type of H with
      | context [match ?m w with _ => _ end] => destruct (m w) as [[aircraftInfo|e] w1]
      end; simpl in H; [|discriminate].
      destruct (enrich aircraftInfo (flightData flight airportInfo true)); discriminate.
  - split; [|discriminate].
    intros H. exfalso. exact (Hstop eq_refl H).
Qed.

(** A report that is passed over is no candidate; and with a center whose
    coordinates convert, as every region the worker stores has, a report
    that is no candidate is passed over. *)
Lemma passed_over_candidate (region : value) (flight : Report) :
  (passed_over P region flight = true -> in_region_candidate P region flight = false)
  /\ (center_converts region ->
      in_region_candidate P region flight = false -> passed_over P region flight = true).
Proof.
  unfold passed_over, in_region_candidate. split.
  - destruct (is_true (at_index flight 8)), (truthy (at_index flight 6)),
      (truthy (at_index flight 5)),
      (isPointInRegion P (at_index flight 6) (at_index flight 5) region) as [[|]|e];
      simpl; auto; discriminate.
  - intros Hconv.
    destruct (isPointInRegion_returns (at_index flight 6) (at_index flight 5) region Hconv)
      as [b ->].
    destruct (is_true (at_index flight 8)), (truthy (at_index flight 6)),
      (truthy (at_index flight 5)), b; simpl; auto.
Qed.

(** X13. The single-flight scan returns the first report, in upstream order, that
    is airborne, has a position and lies in the region, having passed over
    the reports before it; the card carries that report's identity and
    position and is flagged in-region.  The scan returns [null], and then
    changes nothing, exactly when it passes over every report; with a
    region whose center has coordinates that convert, as every region the
    worker stores has, that is when no report qualifies. *)
Theorem single_scan_returns_first_match (flights : list Report) (r2Bucket : bool)
    (w : World) :
  (forall card w',
     processFlights P C flights r2Bucket w = (Ok (Some card), w') ->
     exists before flight after,
       flights = (before ++ flight :: after)%list
       /\ Forall (fun r => in_region_candidate P (MONITORING_REGION w) r = false) before
       /\ Forall (fun r => passed_over P (MONITORING_REGION w) r = true) before
       /\ in_region_candidate P (MONITORING_REGION w) flight = true
       /\ card_of_report card flight
       /\ inRegion card = true)
  /\ (Forall (fun r => passed_over P (MONITORING_REGION w) r = true) flights <->
      processFlights P C flights r2Bucket w = (Ok None, w))
  /\ (center_converts (MONITORING_REGION w) ->
      Forall (fun r => in_region_candidate P (MONITORING_REGION w) r = false) flights ->
      processFlights P C flights r2Bucket w = (Ok None, w)).
Proof.
  assert (Hsingle : processFlights P C flights r2Bucket w
                    = processFlights_loop P C r2Bucket flights w)
    by (destruct flights; reflexivity).
  rewrite Hsingle. split; [|split].
  - intros card w' H.
    destruct (processFlights_loop_first_match r2Bucket flights w w' card H)
      as (before & flight & after & Hsplit & Hover & Hrest).
    exists before, flight, after. split; [exact Hsplit|]. split; [|split; assumption].
    eapply Forall_impl; [|exact Hover].
    intros r. apply passed_over_candidate.
  - apply processFlights_loop_no_match.
  - intros Hconv Hnone. apply processFlights_loop_no_match.
    eapply Forall_impl; [|exact Hnone].
    intros r. apply passed_over_candidate. exact Hconv.
Qed.

(** The first pass reads the world and leaves it as it is. *)
Lemma collect_world (maxFlights : nat) (bounds : option Bounds) (r2Bucket : bool)
    (flights : list Report) :
  forall (acc : list Flight) (lookups : list value) (w : World),
    snd (collect P maxFlights bounds r2Bucket flights acc lookups w) = w.
Proof.
  induction flights as [|flight rest IH]; intros acc lookups w; simpl; [reflexivity|].
  destruct (is_true (at_index flight 8)); [apply IH|].
  destruct (truthy (at_index flight 6) && truthy (at_index flight 5))%bool; [|apply IH].
  scan_step.
  destruct (isPointInRegion P (at_index flight 6) (at_index flight 5) (MONITORING_REGION w))
    as [inRegion|e]; simpl; [|reflexivity].
  destruct (match bounds with
            | Some _ => isPointInBounds P (at_index flight 6) (at_index flight 5) bounds
            | None => Ok inRegion
            end) as [[|]|e']; simpl; [|apply IH|reflexivity].
  destruct (getAirportInfo (at_index flight 0) (at_index flight 1)) as [airportInfo|e];
    simpl; [|reflexivity].
  match goal with
  | |- context [if Nat.leb ?a ?b then _ else _] => destruct (Nat.leb a b)
  end; [reflexivity|apply IH].
Qed.

Lemma collect_selected (maxFlights : nat) (bounds : option Bounds) (r2Bucket : bool)
    (flights : list Report) :
  forall (acc : list Flight) (lookups : list value) (w w' : World)
         (selected : list Flight * list value),
    Forall (selected_by P (MONITORING_REGION w) bounds) acc ->
    (List.length acc < Nat.max 1 maxFlights)%nat ->
    collect P maxFlights bounds r2Bucket flights acc lookups w = (Ok selected, w') ->
    Forall (selected_by P (MONITORING_REGION w) bounds) (fst selected)
    /\ (List.length (fst selected) <= Nat.max 1 maxFlights)%nat
    /\ (List.length (fst selected) <= List.length acc + List.length flights)%nat.
Proof.
  pose proof (Nat.le_max_l 1 maxFlights) as Hone.
  pose proof (Nat.le_max_r 1 maxFlights) as Hmax.
  set (most := Nat.max 1 maxFlights) in *. clearbody most.
  induction flights as [|flight rest IH]; intros acc lookups w w' selected Hacc Hlen; simpl.
  - unfold ret. intros H. injection H as <- _. simpl. repeat split; auto; lia.
  - assert (Hskip : collect P maxFlights bounds r2Bucket rest acc lookups w = (Ok selected, w') ->
              Forall (selected_by P (MONITORING_REGION w) bounds) (fst selected)
              /\ (List.length (fst selected) <= most)%nat
              /\ (List.length (fst selected) <= List.length acc + S (List.length rest))%nat).
    { intros H. destruct (IH acc lookups w w' selected Hacc Hlen H) as (H1 & H2 & H3).
      repeat split; auto; lia. }
    destruct (is_true (at_index flight 8)); [exact Hskip|].
    destruct (truthy (at_index flight 6) && truthy (at_index flight 5))%bool; [|exact Hskip].
    scan_step.
    destruct (isPointInRegion P (at_index flight 6) (at_index flight 5) (MONITORING_REGION w))
      as [inRegion|e] eqn:Hreg; simpl; [|discriminate].
    destruct (match bounds with
              | Some _ => isPointInBounds P (at_index flight 6) (at_index flight 5) bounds
              | None => Ok inRegion
              end) as [[|]|e'] eqn:Harea; simpl; [|exact Hskip|discriminate].
    destruct (getAirportInfo (at_index flight 0) (at_index flight 1)) as [airportInfo|e];
      simpl; [|discriminate].
    assert (Hacc' : Forall (selected_by P (MONITORING_REGION w) bounds)
                      (acc ++ [flightData flight airportInfo inRegion])).
    { apply Forall_app. split; [exact Hacc|]. constructor; [|constructor].
      unfold selected_by. simpl. split; [exact Hreg|].
      destruct bounds; [exact Harea|]. injection Harea as ->. reflexivity. }
    assert (Hlen' : List.length (acc ++ [flightData flight airportInfo inRegion])
                    = S (List.length acc)) by (rewrite length_app; simpl; lia).
    destruct (Nat.leb_spec maxFlights
                (List.length (acc ++ [flightData flight airportInfo inRegion])))
      as [Hfull|Hroom].
    + intros H. injection H as <- _. simpl. repeat split; auto; lia.
    + intros H.
      destruct (IH _ _ w w' selected Hacc' ltac:(lia) H) as (H1 & H2 & H3).
      repeat split; auto. lia.
Qed.

Lemma enrich_all_selected (region : value) (bounds : option Bounds)
    (infoMap : list (string * value)) (cards : list Flight) :
  forall cards', enrich_all infoMap cards = Ok cards' ->
  Forall (selected_by P region bounds) cards -> Forall (selected_by P region bounds) cards'.
Proof.
  induction cards as [|card rest IH]; simpl; intros cards' H Hall.
  - injection H as <-. constructor.
  - destruct (info_for infoMap (icao24 card)) as [info|e]; simpl in H; [|discriminate].
    destruct (enrich info card) as [card'|e] eqn:He; simpl in H; [|discriminate].
    destruct (enrich_all infoMap rest) as [rest'|e]; simpl in H; [|discriminate].
    injection H as <-. inversion Hall as [|? ? Hcard Hrest]; subst.
    constructor; [|apply IH; auto].
    destruct (enrich_keeps_position _ _ _ He) as [Hlat Hlon].
    destruct (enrich_keeps_card _ _ _ [] He) as [_ Hin].
    unfold selected_by in *. rewrite Hlat, Hlon, Hin. exact Hcard.
Qed.

(** X14. The multi-flight scan returns at most [maxFlights] cards (one, when
    [maxFlights] is zero), never more than there are reports; each card's
    [inRegion] flag is the circle test of its position, and each card passed
    the viewport test when bounds were given and the circle test when they
    were not. *)
Theorem multi_scan_is_bounded_and_sound (flights : list Report) (maxFlights : nat)
    (bounds : option Bounds) (r2Bucket : bool) (w w' : World) (cards : list Flight) :
  processMultipleFlights P C flights maxFlights bounds r2Bucket w = (Ok cards, w') ->
  (List.length cards <= Nat.max 1 maxFlights)%nat
  /\ (List.length cards <= List.length flights)%nat
  /\ Forall (selected_by P (MONITORING_REGION w) bounds) cards.
Proof.
  assert (Hmulti :
    processMultipleFlights P C flights maxFlights bounds r2Bucket w
    = (selected <- collect P maxFlights bounds r2Bucket flights [] [] ;;
       if (r2Bucket && Nat.ltb 0 (List.length (snd selected)))%bool then
         lookupResults <- Promise_all_lookups P C r2Bucket (snd selected) ;;
         infoMap <- lift (infoMap_of lookupResults) ;;
         lift (enrich_all infoMap (fst selected))
       else ret (fst selected))%async w).
  { destruct flights; [|reflexivity]. unfold bind, ret. simpl.
    rewrite andb_false_r. reflexivity. }
  rewrite Hmulti. unfold bind.
  destruct (collect P maxFlights bounds r2Bucket flights [] [] w) as [[selected|e] w1] eqn:Hc;
    [|discriminate].
  destruct (collect_selected maxFlights bounds r2Bucket flights [] [] w w1 selected
              ltac:(constructor)
              (Nat.lt_le_trans _ _ _ Nat.lt_0_1 (Nat.le_max_l 1 maxFlights)) Hc)
    as (Hsel & Hmax & Hlen).
  simpl in Hlen.
  destruct (r2Bucket && Nat.ltb 0 (List.length (snd selected)))%bool.
  - destruct (Promise_all_lookups P C r2Bucket (snd selected) w1) as [[results|e] w2];
      [|discriminate].
    unfold lift.
    destruct (infoMap_of results) as [infoMap|e]; [|discriminate].
    destruct (enrich_all infoMap (fst selected)) as [cards'|e] eqn:He; [|discriminate].
    intros H. injection H as <- _.
    rewrite (enrich_all_length _ _ _ He).
    repeat split; auto. eapply enrich_all_selected; eauto.
  - unfold ret. intros H. injection H as <- _. repeat split; auto.
Qed.

End ScanOrderFacts.

(** ** What the scans and the handlers leave alone *)

Section ScanFrames.

Variable P : Platform.
Variable C : Collaborators.

Ltac scan_step := unfold bind, read, lift, ret; simpl.

Lemma lookup_start_keeps (I : World -> Prop) (r2Bucket : bool) (icao24 : value) (w : World) :
  (forall w ev, I w -> I (send ev w)) ->
  I w -> I (snd (lookup_start P C r2Bucket icao24 w)).
Proof.
  intros Hsend Hw. unfold lookup_start.
  destruct (negb r2Bucket || negb (truthy icao24))%bool; [exact Hw|].
  destruct (js_toLowerCase icao24) as [k|e]; [|exact Hw].
  destruct (cached_answer P (clock w) (records_get k (aircraftRecordCache w))) as [r|];
    simpl; auto.
Qed.

Lemma lookup_finish_keeps (I : World -> Prop) (k : string) (now : Z)
    (answer : Settled StoreResult) (w : World) :
  (forall w t, I w -> I (resume t w)) ->
  (forall w recs, I w -> I (set_records recs w)) ->
  (forall w e, I w -> I (set_prototype e w)) ->
  I w -> I (snd (lookup_finish k now answer w)).
Proof.
  intros Hresume Hrecs Hproto Hw. unfold lookup_finish, bind, modify, read, ret. simpl.
  destruct (outcome answer) as [e| |[info|e]]; simpl; auto;
    match goal with
    | |- context [assign_record ?k ?e ?w0] => rewrite (assign_record_run k e w0)
    end; simpl;
    match goal with |- context [sets_prototype ?k ?c] => destruct (sets_prototype k c) end;
    simpl; auto.
Qed.

Lemma Promise_all_lookups_keeps (I : World -> Prop) (r2Bucket : bool) (icao24s : list value)
    (w : World) :
  (forall w ev, I w -> I (send ev w)) ->
  (forall w t, I w -> I (resume t w)) ->
  (forall w recs, I w -> I (set_records recs w)) ->
  (forall w e, I w -> I (set_prototype e w)) ->
  I w -> I (snd (Promise_all_lookups P C r2Bucket icao24s w)).
Proof.
  intros Hsend Hresume Hrecs Hproto Hw. unfold Promise_all_lookups.
  assert (Hstart : forall l w0, I w0 -> I (snd (start_all P C r2Bucket l w0))).
  { induction l as [|x l IH]; intros w0 H0; simpl; [exact H0|].
    pose proof (lookup_start_keeps I r2Bucket x w0 Hsend H0) as H1.
    destruct (lookup_start P C r2Bucket x w0) as [lk w1]. simpl in H1.
    pose proof (IH w1 H1) as H2.
    destruct (start_all P C r2Bucket l w1) as [ls w2]. exact H2. }
  assert (Hfinish : forall started w0, I w0 -> I (snd (finish_all started w0))).
  { induction started as [|[x lk] started IH]; intros w0 H0; simpl; [exact H0|].
    unfold bind.
    assert (H1 : I (snd (match lk with
                         | Returned r => lift r
                         | Awaiting k now answer => lookup_finish k now answer
                         end w0))).
    { destruct lk as [r|k now answer]; [exact H0|].
      apply lookup_finish_keeps; assumption. }
    destruct (match lk with
              | Returned r => lift r
              | Awaiting k now answer => lookup_finish k now answer
              end w0) as [[info|e] w1]; simpl in H1 |- *; [|exact H1].
    pose proof (IH w1 H1) as H2.
    destruct (finish_all started w1) as [[infos|e] w2]; exact H2. }
  pose proof (Hstart icao24s w Hw) as H1.
  destruct (start_all P C r2Bucket icao24s w) as [started w1]. simpl in H1.
  destruct (first_rejection started); [exact H1|apply Hfinish, H1].
Qed.

Lemma processFlights_keeps (I : World -> Prop) (flights : list Report) (r2Bucket : bool)
    (w : World) :
  (forall w ev, I w -> I (send ev w)) ->
  (forall w t, I w -> I (resume t w)) ->
  (forall w recs, I w -> I (set_records recs w)) ->
  (forall w e, I w -> I (set_prototype e w)) ->
  I w -> I (snd (processFlights P C flights r2Bucket w)).
Proof.
  intros Hsend Hresume Hrecs Hproto Hw.
  assert (Hsingle : processFlights P C flights r2Bucket w
                    = processFlights_loop P C r2Bucket flights w)
    by (destruct flights; reflexivity).
  rewrite Hsingle. clear Hsingle.
  induction flights as [|flight rest IH]; simpl; [exact Hw|].
  destruct (is_true (at_index flight 8)); [exact IH|].
  destruct (truthy (at_index flight 6) && truthy (at_index flight 5))%bool; [|exact IH].
  scan_step.
  destruct (isPointInRegion P (at_index flight 6) (at_index flight 5) (MONITORING_REGION w))
    as [[|]|e]; simpl; [|exact IH|exact Hw].
  destruct (getAirportInfo (at_index flight 0) (at_index flight 1)) as [airportInfo|e];
    simpl; [|exact Hw].
  assert (H1 : I (snd ((if r2Bucket
                        then getAircraftInfoOnDemand P C r2Bucket (at_index flight 0)
                        else fun w0 => (Ok Null, w0)) w))).
  { destruct r2Bucket; [|exact Hw]. apply getAircraftInfoOnDemand_keeps; assumption. }
  destruct ((if r2Bucket
             then getAircraftInfoOnDemand P C r2Bucket (at_index flight 0)
             else fun w0 => (Ok Null, w0)) w) as [[aircraftInfo|e] w1];
    simpl in H1 |- *; [|exact H1].
  destruct (enrich aircraftInfo (flightData flight airportInfo true)); exact H1.
Qed.

Lemma processMultipleFlights_keeps (I : World -> Prop) (flights : list Report)
    (maxFlights : nat) (bounds : option Bounds) (r2Bucket : bool) (w : World) :
  (forall w ev, I w -> I (send ev w)) ->
  (forall w t, I w -> I (resume t w)) ->
  (forall w recs, I w -> I (set_records recs w)) ->
  (forall w e, I w -> I (set_prototype e w)) ->
  I w -> I (snd (processMultipleFlights P C flights maxFlights bounds r2Bucket w)).
Proof.
  intros Hsend Hresume Hrecs Hproto Hw.
  destruct flights as [|f fs]; [exact Hw|].
  unfold processMultipleFlights, bind.
  pose proof (collect_world P maxFlights bounds r2Bucket (f :: fs) [] [] w) as Hc.
  destruct (collect P maxFlights bounds r2Bucket (f :: fs) [] [] w) as [[selected|e] w1];
    simpl in Hc; subst w1; [|exact Hw].
  destruct (r2Bucket && Nat.ltb 0 (List.length (snd selected)))%bool; [|exact Hw].
  pose proof (Promise_all_lookups_keeps I r2Bucket (snd selected) w Hsend Hresume Hrecs
                Hproto Hw) as H1.
  destruct (Promise_all_lookups P C r2Bucket (snd selected) w) as [[results|e] w2];
    simpl in H1 |- *; [|exact H1].
  unfold lift. destruct (infoMap_of results); [|exact H1].
  destruct (enrich_all _ (fst selected)); exact H1.
Qed.

Lemma same_but_record_cache_steps (w : World) :
  same_but_record_cache w w
  /\ (forall w' ev, same_but_record_cache w w' -> same_but_record_cache w (send ev w'))
  /\ (forall w' t, same_but_record_cache w w' -> same_but_record_cache w (resume t w'))
  /\ (forall w' recs, same_but_record_cache w w' ->
        same_but_record_cache w (set_records recs w'))
  /\ (forall w' e, same_but_record_cache w w' ->
        same_but_record_cache w (set_prototype e w')).
Proof.
  unfold same_but_record_cache. repeat split; simpl; intuition.
Qed.

(** X15. The scans change nothing but the record cache (and with it the clock
    and the list of requests sent): timestamps, interval, token, region and
    snapshot are as before.  Without a bucket they change nothing at all. *)
Theorem scans_touch_only_the_record_cache (flights : list Report) (maxFlights : nat)
    (bounds : option Bounds) (r2Bucket : bool) (w : World) :
  same_but_record_cache w (snd (processFlights P C flights r2Bucket w))
  /\ same_but_record_cache w
       (snd (processMultipleFlights P C flights maxFlights bounds r2Bucket w))
  /\ snd (processFlights P C flights false w) = w
  /\ snd (processMultipleFlights P C flights maxFlights bounds false w) = w.
Proof.
  destruct (same_but_record_cache_steps w) as (Hrefl & Hsend & Hresume & Hrecs & Hproto).
  split; [apply (processFlights_keeps (same_but_record_cache w)); assumption|].
  split; [apply (processMultipleFlights_keeps (same_but_record_cache w)); assumption|].
  split.
  - assert (Hsingle : processFlights P C flights false w
                      = processFlights_loop P C false flights w)
      by (destruct flights; reflexivity).
    rewrite Hsingle. clear Hsingle.
    induction flights as [|flight rest IH]; simpl; [reflexivity|].
    destruct (is_true (at_index flight 8)); [exact IH|].
    destruct (truthy (at_index flight 6) && truthy (at_index flight 5))%bool; [|exact IH].
    scan_step.
    destruct (isPointInRegion P (at_index flight 6) (at_index flight 5) (MONITORING_REGION w))
      as [[|]|e]; simpl; [|exact IH|reflexivity].
    destruct (getAirportInfo (at_index flight 0) (at_index flight 1)) as [airportInfo|e];
      simpl; [|reflexivity].
    destruct (enrich Null (flightData flight airportInfo true)); reflexivity.
  - destruct flights as [|f fs]; [reflexivity|].
    unfold processMultipleFlights, bind.
    pose proof (collect_world P maxFlights bounds false (f :: fs) [] [] w) as Hc.
    destruct (collect P maxFlights bounds false (f :: fs) [] [] w) as [[selected|e] w1];
      simpl in Hc |- *; subst w1; reflexivity.
Qed.


End ScanFrames.

(** ** The handlers, over two requests *)

Section HandlerFacts.

Variable P : Platform.
Variable C : Collaborators.

(** X17. A successful map response is kept as the snapshot, with its bounds
    and the time it was made.  In every state whose snapshot is still that
    one, a request that finds the gate closed less than 30 seconds after
    that time, with bounds that match those of the response, is answered
    with the cards of the response, and nothing is sent or changed.  The
    state the response leaves is such a state, whatever the clock moves
    to. *)
Theorem successful_map_response_is_replayed (env : Env) (bounds : option Bounds)
    (mapChanged : bool) (reports : list Report) (cards : list Flight) (w w1 w2 : World) :
  has_credentials env ->
  fetchOpenSkyData C (or_empty (OPENSKY_CLIENT_ID env)) (or_empty (OPENSKY_CLIENT_SECRET env))
    mapChanged w = (Ok (Some reports), w1) ->
  processMultipleFlights P C reports 50 bounds (AIRCRAFT_DB env) w1 = (Ok cards, w2) ->
  let w3 := set_lastFlightsCache
              {| FlightsCache.flights := cards;
                 FlightsCache.timestamp := clock w2;
                 FlightsCache.bounds := bounds |} w2 in
  map_flights_for P C env bounds mapChanged w
  = (Ok {| status := 200; body := FlightsBody cards None |}, w3)
  /\ (forall t, lastFlightsCache (resume t w3) = lastFlightsCache w3)
  /\ forall (later : World) (bounds' : option Bounds) (mapChanged' : bool),
       lastFlightsCache later = lastFlightsCache w3 ->
       gate_open mapChanged' later = false ->
       clock later - clock w2 < 30 * 1000 ->
       boundsMatch bounds' bounds = true ->
       map_flights_for P C env bounds' mapChanged' later
       = (Ok {| status := 200; body := FlightsBody cards None |}, later).
Proof.
  intros [Hid Hsecret] Hfetch Hscan w3.
  assert (Hcreds : (String.eqb (or_empty (OPENSKY_CLIENT_ID env)) ""
                    || String.eqb (or_empty (OPENSKY_CLIENT_SECRET env)) "")%bool = false).
  { destruct (String.eqb_spec (or_empty (OPENSKY_CLIENT_ID env)) ""); [contradiction|].
    destruct (String.eqb_spec (or_empty (OPENSKY_CLIENT_SECRET env)) "");
      [contradiction|reflexivity]. }
  split.
  - unfold map_flights_for. rewrite Hcreds. unfold bind. rewrite Hfetch. rewrite Hscan.
    reflexivity.
  - split; [reflexivity|].
    intros later bounds' mapChanged' Hsame Hclosed Hage Hmatch.
    unfold map_flights_for. rewrite Hcreds. unfold bind.
    rewrite (fetchOpenSkyData_gate_closed C _ _ mapChanged' later Hclosed).
    unfold serve_snapshot, bind, Date_now, read, ret, FLIGHTS_CACHE_MAX_AGE. simpl.
    rewrite Hsame. simpl. rewrite Hmatch.
    destruct (Z.ltb_spec (clock later - clock w2) 30000) as [_|Hge]; [|lia].
    destruct cards; reflexivity.
Qed.

(** X18. A [POST /api/region] whose center has numeric coordinates in range and
    whose radius (the body's, or 3 when the body gave none) passes the range
    check replaces the region, and [GET /api/region] then returns what was
    stored: the coordinates and that radius.  The one radius for which the
    range check does not run is an object with a [toString] of its own: the
    comparison throws, the request is answered 400 and the region stays. *)
Theorem post_region_then_get (body center radiusMiles : value) (lat lon : float) (w : World) :
  get body "center" = Ok center ->
  get body "radiusMiles" = Ok radiusMiles ->
  get center "lat" = Ok (Num lat) ->
  get center "lon" = Ok (Num lon) ->
  ((lat <? -90) || (90 <? lat) || (lon <? -180) || (180 <? lon))%float = false ->
  ((ToNumber P (js_or radiusMiles (Num 3)) <=? 0)
   || (100 <? ToNumber P (js_or radiusMiles (Num 3))))%float = false ->
  let region := Obj [("center", Obj [("lat", Num lat); ("lon", Num lon)]);
                     ("radiusMiles", js_or radiusMiles (Num 3))] in
  if unconvertible (js_or radiusMiles (Num 3))
  then post_region P (Ok body) w = (Ok (bad_request "Failed to parse request"), w)
  else
    post_region P (Ok body) w
    = (Ok {| status := 200;
             body := RegionUpdated "Monitoring region updated successfully" region |},
       set_MONITORING_REGION region w)
    /\ fst (get_region (snd (post_region P (Ok body) w)))
       = Ok {| status := 200; body := RegionBody region |}.
Proof.
  intros Hcenter Hradius Hlat Hlon Hcoords Hrange region.
  assert (Htruthy : truthy center = true).
  { destruct center; simpl in Hlat; try discriminate; reflexivity. }
  assert (Hrun : post_region P (Ok body) w
                 = if unconvertible (js_or radiusMiles (Num 3))
                   then (Ok (bad_request "Failed to parse request"), w)
                   else (Ok {| status := 200;
                               body := RegionUpdated "Monitoring region updated successfully"
                                         region |},
                         set_MONITORING_REGION region w)).
  { unfold post_region, try_catch, bind, lift, ret, modify, read. simpl.
    rewrite Hcenter, Hradius. simpl. rewrite Htruthy. simpl.
    rewrite Hlat. simpl. rewrite Hlon. simpl.
    rewrite Hcoords. unfold ToPrimitive.
    destruct (unconvertible (js_or radiusMiles (Num 3))); [reflexivity|].
    rewrite Hrange. reflexivity. }
  destruct (unconvertible (js_or radiusMiles (Num 3))); [exact Hrun|].
  split; [exact Hrun|]. rewrite Hrun. reflexivity.
Qed.

(** X19. A radius that is not a number but passes the range check (the check
    converts, the circle test does not) is stored as it is, and from then on
    no point is in the region: the single-flight scan finds nothing.  The
    one radius the check cannot convert, an object with a [toString] of its
    own, is answered 400 and the region stays. *)
Theorem non_numeric_radius_disables_the_geofence (body center radiusMiles : value)
    (lat lon : float) (w : World) :
  get body "center" = Ok center ->
  get body "radiusMiles" = Ok radiusMiles ->
  get center "lat" = Ok (Num lat) ->
  get center "lon" = Ok (Num lon) ->
  ((lat <? -90) || (90 <? lat) || (lon <? -180) || (180 <? lon))%float = false ->
  truthy radiusMiles = true ->
  typeof_number radiusMiles = false ->
  ((ToNumber P radiusMiles <=? 0) || (100 <? ToNumber P radiusMiles))%float = false ->
  let w' := snd (post_region P (Ok body) w) in
  if unconvertible radiusMiles
  then post_region P (Ok body) w = (Ok (bad_request "Failed to parse request"), w)
  else
    (exists response, fst (post_region P (Ok body) w) = Ok response /\ status response = 200)
    /\ (forall latitude longitude,
          isPointInRegion P latitude longitude (MONITORING_REGION w') = Ok false)
    /\ (forall flights r2Bucket,
          processFlights P C flights r2Bucket w' = (Ok None, w')).
Proof.
  intros Hcenter Hradius Hlat Hlon Hcoords Htruthy Htype Hrange w'.
  assert (Hor : js_or radiusMiles (Num 3) = radiusMiles)
    by (unfold js_or; rewrite Htruthy; reflexivity).
  assert (Hc : truthy center = true).
  { destruct center; simpl in Hlat; try discriminate; reflexivity. }
  assert (Hrun : post_region P (Ok body) w
                 = if unconvertible radiusMiles
                   then (Ok (bad_request "Failed to parse request"), w)
                   else
                   (Ok {| status := 200;
                          body := RegionUpdated "Monitoring region updated successfully"
                                    (Obj [("center", Obj [("lat", Num lat); ("lon", Num lon)]);
                                          ("radiusMiles", radiusMiles)]) |},
                    set_MONITORING_REGION
                      (Obj [("center", Obj [("lat", Num lat); ("lon", Num lon)]);
                            ("radiusMiles", radiusMiles)]) w)).
  { unfold post_region, try_catch, bind, lift, ret, modify, read. simpl.
    rewrite Hcenter, Hradius. simpl. rewrite Hc. simpl.
    rewrite Hlat. simpl. rewrite Hlon. simpl.
    rewrite Hcoords. rewrite Hor. unfold ToPrimitive.
    destruct (unconvertible radiusMiles); [reflexivity|].
    rewrite Hrange. reflexivity. }
  destruct (unconvertible radiusMiles); [exact Hrun|].
  assert (Hnever : forall latitude longitude,
            isPointInRegion P latitude longitude (MONITORING_REGION w') = Ok false).
  { intros latitude longitude. unfold w'. rewrite Hrun. simpl.
    unfold isPointInRegion. simpl. rewrite Htype. reflexivity. }
  split; [rewrite Hrun; eexists; split; reflexivity|].
  split; [exact Hnever|].
  intros flights r2Bucket.
  assert (Hsingle : processFlights P C flights r2Bucket w'
                    = processFlights_loop P C r2Bucket flights w')
    by (destruct flights; reflexivity).
  rewrite Hsingle. apply processFlights_loop_no_match.
  apply Forall_forall. intros flight _. unfold passed_over.
  rewrite Hnever. apply orb_true_r.
Qed.

End HandlerFacts.

(** ** The circle test, earlier and now *)

Section EarlierFacts.

Variable P : Platform.




End EarlierFacts.

(** ** Restatements for the gateway and the caches *)

Section Restated.

Variable P : Platform.

(** X22. With every edge of the viewport non-zero and the longitude in
    [-180, 180], the viewport test is the range test on latitude and, on
    longitude, the range test or, for a viewport across the antimeridian
    (west > east), the union of [west, 180] and [-180, east]; for a latitude
    that does not convert to a primitive the comparison throws. *)
Theorem viewport_test_is_the_range_test (latitude longitude : value) (b : Bounds) :
  truthy (Num (north b)) = true -> truthy (Num (south b)) = true ->
  truthy (Num (east b)) = true -> truthy (Num (west b)) = true ->
  (ToNumber P longitude <=? 180)%float = true ->
  (-180 <=? ToNumber P longitude)%float = true ->
  isPointInBounds P latitude longitude (Some b)
  = if unconvertible latitude
    then Throw (TypeError "Cannot convert object to primitive value")
    else
      Ok ((south b <=? ToNumber P latitude)%float && (ToNumber P latitude <=? north b)%float
          && (if (west b <=? east b)%float
              then (west b <=? ToNumber P longitude)%float
                   && (ToNumber P longitude <=? east b)%float
              else ((west b <=? ToNumber P longitude)%float
                    && (ToNumber P longitude <=? 180)%float)
                   || ((-180 <=? ToNumber P longitude)%float
                       && (ToNumber P longitude <=? east b)%float))).
Proof. apply isPointInBounds_ranges. Qed.

(** X20. [POST /api/region] always answers, with 400 or with 200, also when
    the body cannot be parsed; a 400 leaves the worker's state as it was,
    and a 200 changes nothing but the region. *)
Theorem post_region_answers_400_or_200 (request_json : result value) (w : World) :
  exists response w',
    post_region P request_json w = (Ok response, w')
    /\ ((status response = 400 /\ w' = w)
        \/ (status response = 200
            /\ exists region, w' = set_MONITORING_REGION region w)).
Proof. apply post_region_outcomes. Qed.

(** X21. A body whose numeric latitude, longitude or non-zero radius is out
    of range is answered 400, and the stored region stays. *)
Theorem out_of_range_region_is_rejected (lat lon r : float) (others : list (string * value))
    (w : World) :
  truthy (Num r) = true ->
  ((lat <? -90) || (90 <? lat) || (lon <? -180) || (180 <? lon)
   || (r <=? 0) || (100 <? r))%float = true ->
  exists msg,
    post_region P
      (Ok (Obj (("center", Obj [("lat", Num lat); ("lon", Num lon)])
                :: ("radiusMiles", Num r) :: others))) w
    = (Ok (bad_request msg), w).
Proof. apply post_region_rejects_out_of_range. Qed.

End Restated.


(** ** The properties on the scenarios *)

(** After a 503 at [t0], a call 29.999 s later is skipped and the gate is open 30 s later. *)
Lemma answered_cycle_closes_gate_for_interval_witness :
  fetchOpenSkyData Scenario.feed_503 "client" "secret" false
    (resume (Scenario.t0 + 29999)
       (snd (fetchOpenSkyData Scenario.feed_503 "client" "secret" false
               (initial_world Scenario.t0))))
  = (Ok None,
     resume (Scenario.t0 + 29999)
       (snd (fetchOpenSkyData Scenario.feed_503 "client" "secret" false
               (initial_world Scenario.t0))))
  /\ gate_open false
       (resume (Scenario.t0 + 30000)
          (snd (fetchOpenSkyData Scenario.feed_503 "client" "secret" false
                  (initial_world Scenario.t0))))
     = true.
Proof.
  split.
  - eapply (answered_cycle_closes_gate_for_interval Scenario.feed_503 "client" "secret" false
              (initial_world Scenario.t0) 503 None (Scenario.t0 + 29999)).
    + reflexivity.
    + reflexivity.
    + reflexivity.
  - eapply (answered_cycle_closes_gate_for_interval Scenario.feed_503 "client" "secret" false
              (initial_world Scenario.t0) 503 None (Scenario.t0 + 30000)).
    + reflexivity.
    + reflexivity.
    + vm_compute. discriminate.
Defined.

(** A stale token is dropped when the token endpoint answers 401. *)
Lemma failed_grant_clears_the_token_witness :
  exists e,
    fst (getAccessToken Cases.token_refused "client" "secret"
           (set_tokenCache {| TokenCache.token := Str "stale";
                              TokenCache.expiresAt := Scenario.t0 - 1 |}
              (initial_world Scenario.t0))) = Throw e
    /\ tokenCache (snd (getAccessToken Cases.token_refused "client" "secret"
           (set_tokenCache {| TokenCache.token := Str "stale";
                              TokenCache.expiresAt := Scenario.t0 - 1 |}
              (initial_world Scenario.t0))))
       = {| TokenCache.token := Null; TokenCache.expiresAt := 0 |}.
Proof.
  eexists. split.
  - reflexivity.
  - eapply failed_grant_clears_the_token. reflexivity.
Defined.

(** A token granted at [t0] answers a call 24 minutes later. *)
Lemma granted_token_is_reused_witness :
  token_usable (initial_world Scenario.t0) = false
  /\ getAccessToken Scenario.feed_down "client" "secret"
       (resume (Scenario.t0 + 24 * 60 * 1000)
          (snd (getAccessToken Scenario.feed_down "client" "secret"
                  (initial_world Scenario.t0))))
     = (Ok (Str "eyJhbGciOi"),
        resume (Scenario.t0 + 24 * 60 * 1000)
          (snd (getAccessToken Scenario.feed_down "client" "secret"
                  (initial_world Scenario.t0)))).
Proof.
  split; [reflexivity|].
  destruct (granted_token_is_reused Scenario.feed_down "client" "secret"
              (initial_world Scenario.t0) (Str "eyJhbGciOi") eq_refl eq_refl)
    as (_ & Hkeep & Hreuse).
  apply Hreuse; [apply Hkeep|reflexivity].
Defined.

(** A record read for A1B2C3 answers a lookup of a1b2c3 59 minutes later. *)
Lemma lookup_is_remembered_for_an_hour_witness :
  cache_miss Scenario.engine "a1b2c3" (initial_world Scenario.t0)
  /\ exists data,
       fst (getAircraftInfoOnDemand Scenario.engine Scenario.store_full_of_records true
              (Str "A1B2C3") (initial_world Scenario.t0)) = Ok data
       /\ getAircraftInfoOnDemand Scenario.engine Scenario.store_full_of_records true
            (Str "a1b2c3")
            (resume (Scenario.t0 + 59 * 60 * 1000)
               (snd (getAircraftInfoOnDemand Scenario.engine Scenario.store_full_of_records
                       true (Str "A1B2C3") (initial_world Scenario.t0))))
          = (Ok data,
             resume (Scenario.t0 + 59 * 60 * 1000)
               (snd (getAircraftInfoOnDemand Scenario.engine Scenario.store_full_of_records
                       true (Str "A1B2C3") (initial_world Scenario.t0)))).
Proof.
  assert (Hmiss : cache_miss Scenario.engine "a1b2c3" (initial_world Scenario.t0))
    by reflexivity.
  split; [exact Hmiss|]. eexists.
  assert (Hne : "A1B2C3" <> "") by discriminate.
  destruct (lookup_is_remembered_for_an_hour Scenario.engine Scenario.store_full_of_records
              "A1B2C3" "a1b2c3" _ (initial_world Scenario.t0) Hne Hmiss eq_refl eq_refl)
    as (Hfirst & Hkeep & Hserve).
  split; [exact Hfirst|].
  apply Hserve; [apply Hkeep|reflexivity].
Defined.

(** With the store unreachable, a lookup answers [null] and caches nothing. *)
Lemma failed_lookup_is_not_cached_witness :
  fst (getAircraftInfoOnDemand Scenario.engine Cases.store_down true (Str "A1B2C3")
         (initial_world Scenario.t0)) = Ok Null
  /\ aircraftRecordCache
       (snd (getAircraftInfoOnDemand Scenario.engine Cases.store_down true (Str "A1B2C3")
               (initial_world Scenario.t0)))
     = aircraftRecordCache (initial_world Scenario.t0)
  /\ trace (snd (getAircraftInfoOnDemand Scenario.engine Cases.store_down true
                   (Str "A1B2C3") (initial_world Scenario.t0)))
     = [StoreGet "aircraft/a1b2c3.json"].
Proof.
  apply (failed_lookup_is_not_cached Scenario.engine Cases.store_down "A1B2C3"
           (initial_world Scenario.t0)).
  - discriminate.
  - reflexivity.
  - reflexivity.
Defined.

(** A lookup into a cache of ten distinct keys. *)
Lemma lookup_keeps_keys_distinct_witness :
  NoDup (cached_keys (set_records (Scenario.cached_records 10) (initial_world Scenario.t0)))
  /\ NoDup (cached_keys
              (snd (getAircraftInfoOnDemand Scenario.engine Scenario.store_full_of_records
                      true (Str "A1B2C3")
                      (set_records (Scenario.cached_records 10)
                         (initial_world Scenario.t0))))).
Proof.
  assert (H : NoDup (cached_keys (set_records (Scenario.cached_records 10)
                                    (initial_world Scenario.t0)))).
  { vm_compute. repeat (constructor; [simpl; intuition discriminate|]). constructor. }
  split; [exact H|].
  apply (lookup_keeps_keys_distinct Scenario.engine Scenario.store_full_of_records true
           (Str "A1B2C3") _ H).
Defined.

(** A point inside the Mesa viewport and one east of it. *)
Lemma viewport_test_is_the_range_test_witness :
  truthy (Num (north Cases.viewport)) = true
  /\ forall P,
       isPointInBounds P (Num 33.5) (Num (-111.5)) (Some Cases.viewport) = Ok true
       /\ isPointInBounds P (Num 33.5) (Num (-110.5)) (Some Cases.viewport) = Ok false.
Proof.
  split; [reflexivity|]. intro P. split.
  - rewrite (viewport_test_is_the_range_test P (Num 33.5) (Num (-111.5)) Cases.viewport);
      reflexivity.
  - rewrite (viewport_test_is_the_range_test P (Num 33.5) (Num (-110.5)) Cases.viewport);
      reflexivity.
Defined.

(** A latitude of 91 is rejected. *)
Lemma out_of_range_region_is_rejected_witness :
  truthy (Num 5) = true
  /\ forall P w, exists msg,
       post_region P (Ok (Obj [("center", Obj [("lat", Num 91); ("lon", Num (-111.5))]);
                               ("radiusMiles", Num 5)])) w
       = (Ok (bad_request msg), w).
Proof.
  split; [reflexivity|]. intros P w.
  apply (out_of_range_region_is_rejected P 91 (-111.5) 5 [] w); reflexivity.
Defined.


(** A parked and an airborne report, scanned by viewport. *)
Lemma multi_scan_is_bounded_and_sound_witness :
  exists cards w',
    (forall P,
       processMultipleFlights P (Cases.feed_answering []) [Cases.parked; Cases.airborne] 50
         (Some Cases.viewport) false Cases.world_with_boolean_radius = (Ok cards, w'))
    /\ forall P,
         (List.length cards <= Nat.max 1 50)%nat
         /\ (List.length cards <= 2)%nat
         /\ Forall (selected_by P Cases.region_with_boolean_radius (Some Cases.viewport)) cards.
Proof.
  eexists. eexists. split.
  - intro P. reflexivity.
  - intro P.
    apply (multi_scan_is_bounded_and_sound P (Cases.feed_answering [])
             [Cases.parked; Cases.airborne] 50 (Some Cases.viewport) false
             Cases.world_with_boolean_radius _ _ eq_refl).
Defined.


(** A map response, replayed 20 s later to a viewport half a degree away. *)
Lemma successful_map_response_is_replayed_witness :
  has_credentials Scenario.env
  /\ exists cards w3,
       cards <> []
       /\ forall P,
            map_flights_for P (Cases.feed_answering [Cases.parked; Cases.airborne]) Scenario.env
              (Some Cases.viewport) false Cases.world_with_boolean_radius
            = (Ok {| status := 200; body := FlightsBody cards None |}, w3)
            /\ map_flights_for P (Cases.feed_answering [Cases.parked; Cases.airborne])
                 Scenario.env (Some Scenario.bounds_nearby) false
                 (resume (Scenario.t0 + 20000) w3)
               = (Ok {| status := 200; body := FlightsBody cards None |},
                  resume (Scenario.t0 + 20000) w3).
Proof.
  assert (H : has_credentials Scenario.env) by (split; discriminate).
  split; [exact H|].
  eexists. eexists. split; [|intro P].
  2: { destruct (successful_map_response_is_replayed P
                   (Cases.feed_answering [Cases.parked; Cases.airborne]) Scenario.env
                   (Some Cases.viewport) false [Cases.parked; Cases.airborne] _
                   Cases.world_with_boolean_radius _ _ H eq_refl eq_refl)
         as (Hfirst & Hkeep & Hreplay).
       split; [exact Hfirst|].
       apply Hreplay; [apply Hkeep|reflexivity|reflexivity|reflexivity]. }
  discriminate.
Defined.

(** A radius of five miles is stored and read back. *)
Lemma post_region_then_get_witness :
  get (Cases.body_with_radius (Num 5)) "radiusMiles" = Ok (Num 5)
  /\ forall P w,
       fst (get_region (snd (post_region P (Ok (Cases.body_with_radius (Num 5))) w)))
       = Ok {| status := 200; body := RegionBody (Cases.body_with_radius (Num 5)) |}.
Proof.
  split; [reflexivity|]. intros P w.
  apply (post_region_then_get P (Cases.body_with_radius (Num 5))
           (Obj [("lat", Num 33.5); ("lon", Num (-111.5))]) (Num 5) 33.5 (-111.5) w);
    reflexivity.
Defined.

(** The body with [radiusMiles: true]. *)
Lemma non_numeric_radius_disables_the_geofence_witness :
  typeof_number (Bool true) = false
  /\ forall P C w,
       (exists response,
          fst (post_region P (Ok (Cases.body_with_radius (Bool true))) w) = Ok response
          /\ status response = 200)
       /\ forall flights r2Bucket,
            processFlights P C flights r2Bucket
              (snd (post_region P (Ok (Cases.body_with_radius (Bool true))) w))
            = (Ok None, snd (post_region P (Ok (Cases.body_with_radius (Bool true))) w)).
Proof.
  split; [reflexivity|]. intros P C w.
  destruct (non_numeric_radius_disables_the_geofence P C
              (Cases.body_with_radius (Bool true))
              (Obj [("lat", Num 33.5); ("lon", Num (-111.5))]) (Bool true) 33.5 (-111.5) w
              eq_refl eq_refl eq_refl eq_refl eq_refl eq_refl eq_refl eq_refl)
    as (Hok & _ & Hscan).
  split; assumption.
Defined.

(** ** Further scenarios *)

(** A cached token the feed no longer accepts: the 401 is followed by one
    token request and one repetition of the request, which is answered. *)
Example retry_after_401 :
  let w := with_token (Scenario.t0 + 20 * 60 * 1000) (initial_world Scenario.t0) in
  let C := Cases.feed_refusing_once [Cases.parked] in
  let run := fetchOpenSkyData C "client" "secret" false w in
  answered_401 C "client" "secret" w = true
  /\ fst run = Ok (Some [Cases.parked])
  /\ trace (snd run)
     = [StatesRequest (Str "eyJhbGciOi"); TokenRequest "client" "secret";
        StatesRequest (Str "eyJhbGciOi")].
Proof. vm_compute. repeat split; reflexivity. Qed.

(** The single-flight scan on the stand-in engine: the report a mile from
    the center is returned, flagged in-region. *)
Example overhead_report_is_found :
  exists card,
    fst (processFlights Scenario.engine Scenario.feed_down [Cases.parked; Cases.overhead]
           true (initial_world Scenario.t0)) = Ok (Some card)
    /\ icao24 card = Str "A1B2C3"
    /\ inRegion card = true.
Proof. eexists. split; [vm_compute; reflexivity|]. split; reflexivity. Qed.

(** The address [constructor]: the cache object inherits a member of that
    name, so that storing a record for it in a full cache evicts nothing;
    the record becomes an entry like any other. *)
Example constructor_key_skips_eviction (P : Platform) :
  let w := Scenario.world_at_capacity in
  let run := getAircraftInfoOnDemand P Scenario.store_full_of_records true
               (Str "constructor") w in
  records_get "constructor" (aircraftRecordCache w) = BuiltIn
  /\ Object_keys (AircraftRecordCache.records (aircraftRecordCache (snd run)))
     = (Object_keys (AircraftRecordCache.records (aircraftRecordCache w))
        ++ ["constructor"])%list.
Proof. vm_compute. split; reflexivity. Qed.

(** The address [__proto__]: the assignment replaces the prototype of the
    cache object and adds no key; the record is answered from there for an
    hour. *)
Example proto_key_is_kept_as_prototype (P : Platform) :
  let w := initial_world Scenario.t0 in
  let first := getAircraftInfoOnDemand P Scenario.store_full_of_records true
                 (Str "__proto__") w in
  let later := resume (Scenario.t0 + 59 * 60 * 1000) (snd first) in
  Object_keys (AircraftRecordCache.records (aircraftRecordCache (snd first))) = []
  /\ AircraftRecordCache.prototype (aircraftRecordCache (snd first))
     = Some {| CacheEntry.data := Obj [("registration", Str "N12345");
                                       ("typecode", Str "B738")];
               CacheEntry.timestamp := Scenario.t0 |}
  /\ getAircraftInfoOnDemand P Scenario.store_full_of_records true (Str "__proto__") later
     = (fst first, later).
Proof. vm_compute. repeat split; reflexivity. Qed.

(** After that, the address [data] reads the record through the prototype:
    a record with a recent [timestamp] member of its own is taken for a
    cache entry, and its [data] member is the answer, with no request to
    the store. *)
Example data_key_reads_the_prototype :
  let w := initial_world Scenario.t0 in
  let first := getAircraftInfoOnDemand Scenario.engine Cases.stamped_store true
                 (Str "__proto__") w in
  let second := getAircraftInfoOnDemand Scenario.engine Cases.stamped_store true
                  (Str "data") (snd first) in
  fst first = Ok Cases.stamped_record
  /\ second = (Ok (Str "ex-N54321"), snd first).
Proof. vm_compute. split; reflexivity. Qed.

(** An object with a [toString] member of its own where a number or a
    string is expected.  As the address of a report without a call sign it
    makes the log line of [GET /api/check-flights] throw, after the scan
    has found the card. *)
Example nameless_card_fails_the_request :
  exists card,
    fst (processFlights Scenario.engine (Cases.feed_answering [Cases.nameless])
           [Cases.nameless] false (initial_world Scenario.t0)) = Ok (Some card)
    /\ icao24 card = Cases.no_primitive
    /\ fst (check_flights Scenario.engine (Cases.feed_answering [Cases.nameless])
              Cases.env_without_bucket (initial_world Scenario.t0))
       = Throw (TypeError "Cannot convert object to primitive value").
Proof. eexists. split; [vm_compute; reflexivity|]. split; reflexivity. Qed.

(** As the radius of a [POST /api/region] it makes the range check throw:
    the answer is 400 and the region stays. *)
Example unconvertible_radius_is_refused (P : Platform) (w : World) :
  post_region P (Ok (Cases.body_with_radius Cases.no_primitive)) w
  = (Ok (bad_request "Failed to parse request"), w).
Proof. reflexivity. Qed.

(** As the cached token it makes the [Authorization] header throw before
    anything is sent: the cycle returns [null] and leaves the gate open. *)
Example unconvertible_token_sends_nothing :
  let w := set_tokenCache {| TokenCache.token := Cases.no_primitive;
                             TokenCache.expiresAt := Scenario.t0 + 20 * 60 * 1000 |}
             (initial_world Scenario.t0) in
  fetchOpenSkyData Scenario.feed_503 "client" "secret" false w = (Ok None, w)
  /\ gate_open false w = true.
Proof. vm_compute. split; reflexivity. Qed.

(** As the latitude of a point it makes the viewport test throw. *)
Example unconvertible_latitude_in_viewport (P : Platform) :
  isPointInBounds P Cases.no_primitive (Num (-111.5)) (Some Cases.viewport)
  = Throw (TypeError "Cannot convert object to primitive value").
Proof. reflexivity. Qed.
